(** * Detoxify backend: the session orchestrator of [Backend/server.js]

    A shallow embedding of [runDetoxAutomation] and of the [/detox/start]
    handler.  JavaScript values are an inductive type, numbers are IEEE
    binary64 floats, objects are finite maps from property names to values.
    The orchestrator is written in a state-and-exception monad whose state
    holds the local variable [browser] and the trace of everything the run
    did to the outside world (socket emissions, console output, calls to
    the content resolver and to the browser engine).

    What the model takes for granted: every awaited call of a collaborator
    settles, by returning or by throwing an error that carries a message;
    emitting on the socket and writing to the console do not throw; the
    content resolver ([getCuratedVideoIds] of youtubeApi.js) answers with
    an array of strings.  The answers of the collaborators are otherwise
    arbitrary and may depend on the whole history of the run.

    The resolver itself is embedded apart, in [YoutubeApi], as a function
    of the key, of how [axios.get] settles and of [ToString]; what it
    returns there are the [videoId] values of the response as they come,
    which the orchestrator takes to be strings. *)

From Stdlib Require Import Floats ZArith Lia Ascii String List Bool.
From stdpp Require Import base option list gmap strings pretty.

Local Open Scope string_scope.
Local Set Warnings "-register-all".

(* ===================================================================== *)
(** ** JavaScript values *)
(* ===================================================================== *)

Module JS.

(** The values that reach this program: what [JSON.parse] and the JSON body
    parser can produce, plus [undefined] for a property that is not there. *)
Inductive JSValue : Type :=
| JUndefined
| JNull
| JBool (b : bool)
| JNum (x : float)
| JStr (s : string)
| JArr (l : list JSValue)
| JObj (m : gmap string JSValue).

(** A plain object: own enumerable properties by name. *)
Abbreviation JSObject := (gmap string JSValue).

(** [ToBoolean]: [undefined], [null], [false], [+0], [-0], [NaN] and the
    empty string are falsy, everything else is truthy. *)
Definition ToBoolean (v : JSValue) : bool :=
  match v with
  | JUndefined | JNull => false
  | JBool b => b
  | JNum x => negb (PrimFloat.is_zero x || PrimFloat.is_nan x)
  | JStr s => negb (String.eqb s "")
  | JArr _ | JObj _ => true
  end.

(** [typeof v === 'string'] *)
Definition is_string (v : JSValue) : bool :=
  match v with JStr _ => true | _ => false end.

(** The characters of a value that is a string. *)
Definition string_of (v : JSValue) : string :=
  match v with JStr s => s | _ => "" end.

(** [v === null || v === undefined] *)
Definition is_nullish (v : JSValue) : bool :=
  match v with JUndefined | JNull => true | _ => false end.

(** [o.k] on a plain object whose prototype does not define [k]: the own
    property, or [undefined]. *)
Definition getProp (o : JSObject) (k : string) : JSValue :=
  default JUndefined (o !! k).

(** The own enumerable properties of an array-like value: index [i] under
    the decimal name of [i]. *)
Definition indexed (l : list JSValue) : JSObject :=
  list_to_map (imap (fun i v => (pretty i, v)) l).

(** [{ ...v }]: a fresh object with the own enumerable properties of [v].
    Objects copy their properties; arrays and strings contribute their
    indices; [undefined], [null], booleans and numbers contribute nothing. *)
Definition spread (v : JSValue) : JSObject :=
  match v with
  | JObj m => m
  | JArr l => indexed l
  | JStr s => indexed (map (fun c => JStr (String c EmptyString)) (list_ascii_of_string s))
  | JUndefined | JNull | JBool _ | JNum _ => ∅
  end.

(** [String.prototype.toLowerCase], on the letters A to Z.  Every string
    the program compares the result with is made of ASCII letters and [_],
    and no character outside ASCII lower-cases to one of those. *)
Definition lower_ascii (c : ascii) : ascii :=
  let n := nat_of_ascii c in
  if (65 <=? n)%nat && (n <=? 90)%nat then ascii_of_nat (n + 32) else c.

Fixpoint toLowerCase (s : string) : string :=
  match s with
  | EmptyString => EmptyString
  | String c s' => String (lower_ascii c) (toLowerCase s')
  end.

(** [Math.min] of two numbers: [NaN] if either is, and [-0] below [+0]. *)
Definition Math_min (a b : float) : float :=
  if PrimFloat.is_nan a || PrimFloat.is_nan b then PrimFloat.nan
  else if PrimFloat.ltb a b then a
  else if PrimFloat.ltb b a then b
  else if PrimFloat.get_sign a then a else b.

(** The digits of [Number.prototype.toFixed(1)] for the integer [n] of
    tenths: at least two digits, a point before the last one. *)
Definition tenths_digits (n : Z) : string :=
  pretty (n / 10)%Z ++ "." ++ pretty (n mod 10)%Z.

(** The integer [n] for which [n / 10] is closest to [m * 2^e], the larger
    one of two equally close. *)
Definition nearest_tenths (m : positive) (e : Z) : Z :=
  if (0 <=? e)%Z then (10 * Zpos m * 2 ^ e)%Z
  else ((20 * Zpos m + 2 ^ (- e)) / 2 ^ (1 - e))%Z.

Section Builtins.

(** [Number::toString] for a finite magnitude of at least 10^21, which
    [toFixed] falls back to; a built-in that is not modelled further. *)
Variable Number_toString : float -> string.

(** [x.toFixed(1)] *)
Definition toFixed1 (x : float) : string :=
  match Prim2SF x with
  | S754_nan => "NaN"
  | S754_infinity false => "Infinity"
  | S754_infinity true => "-Infinity"
  | S754_zero _ => "0.0"
  | S754_finite s m e =>
      (if s then "-" else "") ++
      (if PrimFloat.leb 1e21 (PrimFloat.abs x)
       then Number_toString (PrimFloat.abs x)
       else tenths_digits (nearest_tenths m e))
  end.

End Builtins.

End JS.
Export JS.


(* ===================================================================== *)
(** ** Credential normalization (server.js, lines 49 to 81) *)
(* ===================================================================== *)

Module Cookies.

(** Lines 69 to 79: the [sameSite] of the copy is set to [None] for
    [no_restriction], removed when it is another unrecognized string, [null]
    or [undefined], and left alone otherwise. *)
Definition normalizeSameSite (newCookie : JSObject) : JSObject :=
  let sameSite := getProp newCookie "sameSite" in
  if ToBoolean sameSite && is_string sameSite then
    let normalizedSameSite := toLowerCase (string_of sameSite) in
    if String.eqb normalizedSameSite "no_restriction"
    then <["sameSite" := JStr "None"]> newCookie
    else if negb (String.eqb normalizedSameSite "strict")
            && negb (String.eqb normalizedSameSite "lax")
            && negb (String.eqb normalizedSameSite "none")
    then delete "sameSite" newCookie
    else newCookie
  else if is_nullish sameSite
  then delete "sameSite" newCookie
  else newCookie.

(** The callback of [cookies.map]: a copy of the entry without [storeId]
    and [id], without [expirationDate] when [session] is truthy, and with
    [sameSite] normalized. *)
Definition normalizeCookie (cookie : JSValue) : JSObject :=
  let newCookie := spread cookie in
  let newCookie := delete "storeId" newCookie in
  let newCookie := delete "id" newCookie in
  let newCookie :=
    if ToBoolean (getProp newCookie "session")
    then delete "expirationDate" newCookie
    else newCookie in
  normalizeSameSite newCookie.

End Cookies.
Export Cookies.

(* ===================================================================== *)
(** ** Results, the outside world and the trace of a run *)
(* ===================================================================== *)

(** The outcome of an operation that may throw; an exception is known by
    its [message], the only part of it the program reads. *)
Inductive Result (A : Type) : Type :=
| Ok (a : A)
| Throw (message : string).
Arguments Ok {A} a.
Arguments Throw {A} message.

Definition is_ok {A} (r : Result A) : bool :=
  match r with Ok _ => true | Throw _ => false end.

(** What [io.to(socketId).emit(name, payload)] sends. *)
Inductive Event : Type :=
| log (message : string) (type : string)
| detoxComplete (success : bool) (message : string)
| detoxError (message : string).

(** The handle [puppeteer.launch] resolves to. *)
Inductive Browser : Type := BrowserHandle.

(** Everything a run does that is visible outside of it, in order.  A call
    to a collaborator is recorded with what it returned or threw. *)
Inductive Action : Type :=
| Emit (socketId : JSValue) (e : Event)
| ConsoleLog (parts : list JSValue)
| ConsoleError (parts : list JSValue)
| Respond (status : Z) (success : bool) (message : string)
| GetCuratedVideoIds (topic : JSValue) (r : Result (list string))
| Launch (headless : bool) (slowMo : Z) (args : list string) (r : Result Browser)
| NewPage (r : Result unit)
| SetUserAgent (userAgent : string) (r : Result unit)
| SetCookie (cookies : list JSObject) (r : Result unit)
| Goto (url : string) (timeout : Z) (r : Result unit)
| Query (selector : string) (r : Result bool)
| Sleep (ms : float)
| Close (r : Result unit).

Abbreviation Trace := (list Action).

(** The built-ins of the JavaScript runtime that the program calls and
    that are not modelled further. *)
Record Runtime : Type := {
  (** [JSON.parse(v)]: the parsed value, or [None] for a [SyntaxError] *)
  JSON_parse : JSValue -> option JSValue;
  (** [ToNumber] of a string, an array or an object *)
  ToNumber_other : JSValue -> Result float;
  (** [Number::toString] of a magnitude of at least 10^21 *)
  Number_toString : float -> string
}.

(** The collaborators of a run: the content resolver
    ([getCuratedVideoIds] of youtubeApi.js, which asks the network) and the
    browser engine.  Each answer may depend on everything that happened
    before, and each call returns or throws. *)
Record World : Type := {
  getCuratedVideoIds : Trace -> JSValue -> Result (list string);
  puppeteer_launch : Trace -> Result Browser;
  browser_newPage : Trace -> Result unit;
  page_setUserAgent : Trace -> string -> Result unit;
  page_setCookie : Trace -> list JSObject -> Result unit;
  page_goto : Trace -> string -> Z -> Result unit;
  (** [page.$(selector)]: whether an element was found *)
  page_query : Trace -> string -> Result bool;
  browser_close : Trace -> Result unit
}.

(* ===================================================================== *)
(** ** The monad of a run *)
(* ===================================================================== *)

Module RunMonad.

(** The state of a run: the local [browser] of [runDetoxAutomation]
    ([None] while it is [undefined]) and the trace so far. *)
Record State : Type := mkState {
  browser : option Browser;
  trace : Trace
}.

Definition M (A : Type) : Type := State -> Result A * State.

Definition ret {A} (a : A) : M A := fun st => (Ok a, st).

Definition throw {A} (message : string) : M A := fun st => (Throw message, st).

Definition bind {A B} (m : M A) (f : A -> M B) : M B :=
  fun st =>
    match m st with
    | (Ok a, st') => f a st'
    | (Throw e, st') => (Throw e, st')
    end.

(** A pure step that may throw. *)
Definition lift {A} (r : Result A) : M A := fun st => (r, st).

(** Appends one action to the trace. *)
Definition act (a : Action) : M unit :=
  fun st => (Ok tt, mkState (browser st) (trace st ++ [a])).

(** Calls a collaborator: its answer to the history so far is recorded and
    returned or thrown. *)
Definition call {A} (answer : Trace -> Result A) (record : Result A -> Action) : M A :=
  fun st =>
    let r := answer (trace st) in
    (r, mkState (browser st) (trace st ++ [record r])).

Definition set_browser (b : Browser) : M unit :=
  fun st => (Ok tt, mkState (Some b) (trace st)).

Definition get_browser : M (option Browser) :=
  fun st => (Ok (browser st), st).

(** [try { body } catch (error) { handler } finally { cleanup }]: the
    handler runs when the body throws; the cleanup runs in every case, and
    what it throws replaces the outcome so far. *)
Definition try_catch_finally {A} (body : M A) (handler : string -> M A) (cleanup : M unit) : M A :=
  fun st =>
    let '(r, st1) :=
      match body st with
      | (Ok a, st') => (Ok a, st')
      | (Throw e, st') => handler e st'
      end in
    match cleanup st1 with
    | (Ok _, st2) => (r, st2)
    | (Throw e, st2) => (Throw e, st2)
    end.

End RunMonad.
Export RunMonad.

Declare Scope run_scope.
Delimit Scope run_scope with run.
Notation "x <- m ;; k" := (bind m (fun x => k))
  (at level 100, m at next level, right associativity) : run_scope.
Notation "m ;; k" := (bind m (fun _ => k))
  (at level 100, right associativity) : run_scope.

(* ===================================================================== *)
(** ** The orchestrator (server.js) *)
(* ===================================================================== *)

Local Open Scope run_scope.

Definition MIN_WATCH_TIME_PER_VIDEO_MS : float := 30000%float.

Definition homeUrl : string := "https://www.youtube.com/".
Definition watchUrlPrefix : string := "https://www.youtube.com/watch?v=".
Definition userAgent : string :=
  "Mozilla/5.0 (Windows NT 10.0; Win64; x64) AppleWebKit/537.36 (KHTML, like Gecko) Chrome/91.0.4472.124 Safari/537.36".
Definition dquote : string := String (ascii_of_nat 34) EmptyString.
Definition loginSelector : string :=
  "ytd-topbar-menu-button-renderer a[href*=" ++ dquote ++ "channel" ++ dquote ++ "]".

(** [cookies.map(f)]: defined on arrays; on anything else the call throws
    a [TypeError] (the messages are those of V8). *)
Definition Array_map {B} (f : JSValue -> B) (cookies : JSValue) : Result (list B) :=
  match cookies with
  | JArr l => Ok (map f l)
  | JUndefined => Throw "Cannot read properties of undefined (reading 'map')"
  | JNull => Throw "Cannot read properties of null (reading 'map')"
  | JBool _ | JNum _ | JStr _ | JObj _ => Throw "cookies.map is not a function"
  end.

(** [v.toLowerCase()]: the method of strings; on any other value the call
    throws a [TypeError] (the messages are those of V8). *)
Definition call_toLowerCase (v : JSValue) : Result string :=
  match v with
  | JStr s => Ok (toLowerCase s)
  | JUndefined => Throw "Cannot read properties of undefined (reading 'toLowerCase')"
  | JNull => Throw "Cannot read properties of null (reading 'toLowerCase')"
  | JBool _ | JNum _ | JArr _ | JObj _ =>
      Throw "newCookie.sameSite.toLowerCase is not a function"
  end.

(** The callback of [cookies.map] once more, statement by statement and
    with the one step of it that can throw, the call of [toLowerCase],
    written as such.  The spread of any value, the deletions and the reads
    of properties of the copy do not throw. *)
Definition normalizeCookie_steps (cookie : JSValue) : Result JSObject :=
  let newCookie := spread cookie in
  let newCookie := delete "storeId" newCookie in
  let newCookie := delete "id" newCookie in
  let newCookie :=
    if ToBoolean (getProp newCookie "session")
    then delete "expirationDate" newCookie
    else newCookie in
  let sameSite := getProp newCookie "sameSite" in
  if ToBoolean sameSite && is_string sameSite then
    match call_toLowerCase sameSite with
    | Throw message => Throw message
    | Ok normalizedSameSite =>
        if String.eqb normalizedSameSite "no_restriction"
        then Ok (<["sameSite" := JStr "None"]> newCookie)
        else if negb (String.eqb normalizedSameSite "strict")
                && negb (String.eqb normalizedSameSite "lax")
                && negb (String.eqb normalizedSameSite "none")
        then Ok (delete "sameSite" newCookie)
        else Ok newCookie
    end
  else if is_nullish sameSite
  then Ok (delete "sameSite" newCookie)
  else Ok newCookie.

(** The terms in which the specification speaks of the credential step. *)
Module CredentialSpec.

(** [InvalidCredentialFormat]: the two errors the credential step raises
    itself, at lines 50 and 56. *)
Definition InvalidCredentialFormat (message : string) : bool :=
  String.eqb message "User authentication failed: Cookies were not provided."
  || String.eqb message "User authentication failed: Cookies format is invalid JSON.".

(** An entry record: an object. *)
Definition entry_record (v : JSValue) : bool :=
  match v with JObj _ => true | _ => false end.

(** What [JSON.parse] gave is a sequence of entry records. *)
Definition entry_records (parsed : option JSValue) : bool :=
  match parsed with
  | Some (JArr l) => forallb entry_record l
  | _ => false
  end.

(** The errors with which [cookies.map] fails on a value that is no
    array. *)
Definition mapTypeErrors : list string :=
  ["cookies.map is not a function";
   "Cannot read properties of null (reading 'map')";
   "Cannot read properties of undefined (reading 'map')"].

End CredentialSpec.
Export CredentialSpec.

Section Orchestrator.

Variable rt : Runtime.
Variable w : World.

(** [ToNumber], as [v * 1000] applies it to [v]. *)
Definition ToNumber (v : JSValue) : Result float :=
  match v with
  | JUndefined => Ok PrimFloat.nan
  | JNull => Ok 0%float
  | JBool b => Ok (if b then 1%float else 0%float)
  | JNum x => Ok x
  | JStr _ | JArr _ | JObj _ => ToNumber_other rt v
  end.

(** Step 1 of the run, without its log lines: the presence check, the
    parse and the normalization of every entry. *)
Definition parseCookies (rawCookies : JSValue) : Result (list JSObject) :=
  if negb (ToBoolean rawCookies)
  then Throw "User authentication failed: Cookies were not provided."
  else
    match JSON_parse rt rawCookies with
    | None => Throw "User authentication failed: Cookies format is invalid JSON."
    | Some cookies => Array_map normalizeCookie cookies
    end.

(** [io.to(socketId).emit(...)] *)
Definition emit (socketId : JSValue) (e : Event) : M unit :=
  act (Emit socketId e).

(** [emitLog], with its default [type]. *)
Definition emitLog (socketId : JSValue) (message : string) (type : option string) : M unit :=
  emit socketId (log message (default "status-in-progress" type)).

(** The [for] loop over [videoIds.entries()], from [index] on; [count] is
    [videoIds.length].  Returns the final [watchedTime]. *)
Fixpoint watchLoop (socketId : JSValue) (totalDurationMs : float) (count : nat)
    (index : nat) (videoIds : list string) (watchedTime : float) : M float :=
  match videoIds with
  | [] => ret watchedTime
  | videoId :: rest =>
      if PrimFloat.leb totalDurationMs watchedTime then ret watchedTime
      else
        let videoUrl := watchUrlPrefix ++ videoId in
        let remainingTime := (totalDurationMs - watchedTime)%float in
        let watchDuration := Math_min MIN_WATCH_TIME_PER_VIDEO_MS remainingTime in
        let durationSeconds := toFixed1 (Number_toString rt) (watchDuration / 1000)%float in
        emitLog socketId
          ("Watching video " ++ pretty (index + 1)%nat ++ "/" ++ pretty count
             ++ " for " ++ durationSeconds ++ "s.") None ;;
        call (fun h => page_goto w h videoUrl 60000) (Goto videoUrl 60000) ;;
        act (Sleep watchDuration) ;;
        watchLoop socketId totalDurationMs count (S index) rest
          (watchedTime + watchDuration)%float
  end.

(** The [try] block of [runDetoxAutomation]. *)
Definition runBody (topic totalDurationSeconds rawCookies socketId : JSValue) : M unit :=
  let log := emitLog socketId in
  log "Validating authentication data..." None ;;
  cookies <- lift (parseCookies rawCookies) ;;
  log "Cookies parsed and normalized. Fetching video list..." None ;;
  videoIds <- call (fun h => getCuratedVideoIds w h topic) (GetCuratedVideoIds topic) ;;
  (if (length videoIds =? 0)%nat
   then throw "Could not find relevant long-form videos for this topic."
   else ret tt) ;;
  log ("Found " ++ pretty (length videoIds) ++ " videos. Initiating browser automation...") None ;;
  b <- call (puppeteer_launch w)
         (Launch false 50 ["--no-sandbox"; "--disable-setuid-sandbox"]) ;;
  set_browser b ;;
  call (browser_newPage w) NewPage ;;
  call (fun h => page_setUserAgent w h userAgent) (SetUserAgent userAgent) ;;
  log "Applying user session cookies..." None ;;
  call (fun h => page_setCookie w h cookies) (SetCookie cookies) ;;
  log "Cookies set. Navigating to YouTube..." None ;;
  call (fun h => page_goto w h homeUrl 30000) (Goto homeUrl 30000) ;;
  isLoggedIn <- call (fun h => page_query w h loginSelector) (Query loginSelector) ;;
  (if negb isLoggedIn
   then log "WARNING: Login verification failed. Cookies may be expired." (Some "status-error")
   else log "SUCCESS: Login confirmed." (Some "status-success")) ;;
  n <- lift (ToNumber totalDurationSeconds) ;;
  let totalDurationMs := (n * 1000)%float in
  watchedTime <- watchLoop socketId totalDurationMs (length videoIds) 0 videoIds 0%float ;;
  let finalMessage :=
    "Detox session finished. Total time simulated: "
      ++ toFixed1 (Number_toString rt) (watchedTime / 1000)%float ++ "s." in
  emit socketId (detoxComplete true finalMessage).

(** [runDetoxAutomation]: the body, its [catch] and its [finally]. *)
Definition runDetoxAutomation (topic totalDurationSeconds rawCookies socketId : JSValue) : M unit :=
  try_catch_finally
    (runBody topic totalDurationSeconds rawCookies socketId)
    (fun message =>
       act (ConsoleError [JStr "Puppeteer Automation Failed:"; JStr message]) ;;
       emit socketId (detoxError message))
    (b <- get_browser ;;
     match b with
     | Some _ =>
         call (browser_close w) Close ;;
         act (ConsoleLog [JStr "[Puppeteer] Browser closed."])
     | None => ret tt
     end).

(** [a || b] *)
Definition JS_or (a b : JSValue) : JSValue := if ToBoolean a then a else b.

(** The arguments with which the [/detox/start] handler calls
    [runDetoxAutomation] for the request body [body], or [None] when it
    answers 400 instead. *)
Definition detox_start_args (body : JSObject) : option (JSValue * JSValue * JSValue * JSValue) :=
  let topic := getProp body "topic" in
  let duration := getProp body "duration" in
  let userCookies := getProp body "userCookies" in
  let socketId := getProp body "socketId" in
  if negb (ToBoolean topic) || negb (ToBoolean userCookies) || negb (ToBoolean socketId)
  then None
  else Some (topic, JS_or duration (JNum 60), userCookies, socketId).

(** [ToString] of a number, an array or an object: a built-in that is not
    modelled further.  It throws a [TypeError] for an object that has no
    primitive value, one with an own [toString] that is no function, say. *)
Variable ToString_other : JSValue -> Result string.

(** [ToString], as a template literal applies it. *)
Definition ToString (v : JSValue) : Result string :=
  match v with
  | JStr s => Ok s
  | JUndefined => Ok "undefined"
  | JNull => Ok "null"
  | JBool b => Ok (if b then "true" else "false")
  | JNum _ | JArr _ | JObj _ => ToString_other v
  end.

(** A call of an [async] function that is not awaited: the caller goes on
    whatever the call comes to, and a rejection is not the caller's. *)
Definition not_awaited {A} (m : M A) : M unit :=
  fun st => (Ok tt, snd (m st)).

(** The [/detox/start] handler: the line on the console, whose template
    literal converts [socketId] and then [topic] to strings and throws when
    one of them cannot be, the response, then the run, which the handler
    does not wait for.  What becomes of a request whose handler threw is
    the framework's matter. *)
Definition detox_start (body : JSObject) : M unit :=
  match detox_start_args body with
  | None => act (Respond 400 false "Missing required parameters.")
  | Some (topic, duration, userCookies, socketId) =>
      s <- lift (ToString socketId) ;;
      t <- lift (ToString topic) ;;
      act (ConsoleLog [JStr ("API Request received (Socket ID: " ++ s
                               ++ "). Starting detox for topic "
                               ++ dquote ++ t ++ dquote ++ ".")]) ;;
      act (Respond 200 true "Process initiated.") ;;
      not_awaited (runDetoxAutomation topic duration userCookies socketId)
  end.

End Orchestrator.

(** A run starts with [browser] undefined and nothing done yet. *)
Definition start : State := mkState None [].

(** The trace of a whole run. *)
Definition run_trace (rt : Runtime) (w : World)
    (topic totalDurationSeconds rawCookies socketId : JSValue) : Trace :=
  trace (snd (runDetoxAutomation rt w topic totalDurationSeconds rawCookies socketId start)).

(* ===================================================================== *)
(** ** Observations on a trace *)
(* ===================================================================== *)

Module Observe.

Definition is_detoxComplete (a : Action) : bool :=
  match a with Emit _ (detoxComplete _ _) => true | _ => false end.

Definition is_detoxError (a : Action) : bool :=
  match a with Emit _ (detoxError _) => true | _ => false end.

Definition is_log (a : Action) : bool :=
  match a with Emit _ (log _ _) => true | _ => false end.

(** A call of [puppeteer.launch], whatever came of it. *)
Definition is_launch (a : Action) : bool :=
  match a with Launch _ _ _ _ => true | _ => false end.

(** A call of [puppeteer.launch] that returned the engine. *)
Definition is_launched (a : Action) : bool :=
  match a with Launch _ _ _ (Ok _) => true | _ => false end.

(** A call of [browser.close]. *)
Definition is_close (a : Action) : bool :=
  match a with Close _ => true | _ => false end.

(** How many actions of a kind a trace holds. *)
Fixpoint count (p : Action -> bool) (tr : Trace) : nat :=
  match tr with
  | [] => 0
  | a :: tr' => (if p a then 1 else 0) + count p tr'
  end.

(** What the content resolver answered, call by call. *)
Definition resolved (tr : Trace) : list (Result (list string)) :=
  omap (fun a => match a with GetCuratedVideoIds _ r => Some r | _ => None end) tr.

(** What the login probe answered. *)
Definition login_probes (tr : Trace) : list (Result bool) :=
  omap (fun a => match a with Query _ r => Some r | _ => None end) tr.

(** The content page of a video. *)
Definition videoUrl (videoId : string) : string := watchUrlPrefix ++ videoId.

(** Whether [s] begins with [p]. *)
Fixpoint starts_with (p s : string) : bool :=
  match p, s with
  | EmptyString, _ => true
  | String a p', String b s' => Ascii.eqb a b && starts_with p' s'
  | String _ _, EmptyString => false
  end.

(** The navigations to content pages, in order, each with its outcome. *)
Definition visits (tr : Trace) : list (string * Result unit) :=
  omap (fun a =>
          match a with
          | Goto url _ r => if starts_with watchUrlPrefix url then Some (url, r) else None
          | _ => None
          end) tr.

(** The dwell times, in order. *)
Definition dwells (tr : Trace) : list float :=
  omap (fun a => match a with Sleep ms => Some ms | _ => None end) tr.

(** The messages of the [detoxComplete] events. *)
Definition completions (tr : Trace) : list string :=
  omap (fun a => match a with Emit _ (detoxComplete _ m) => Some m | _ => None end) tr.

(** A successful visit of a video. *)
Definition visited (videoId : string) : string * Result unit := (videoUrl videoId, Ok tt).

End Observe.
Export Observe.

(* ===================================================================== *)
(** ** The phases of a run *)
(* ===================================================================== *)

Module Phases.

(** The actions of a run before its watch loop: log lines, the resolver
    call, the launch, and the engine calls up to the login probe.  No
    content page, no dwell, no terminal event, no close. *)
Definition early_action (a : Action) : bool :=
  match a with
  | Emit _ (log _ _) | GetCuratedVideoIds _ _ | Launch _ _ _ _ | NewPage _
  | SetUserAgent _ _ | SetCookie _ _ | Query _ _ => true
  | Goto url _ _ => negb (starts_with watchUrlPrefix url)
  | _ => false
  end.

(** The actions of the watch loop. *)
Definition loop_action (a : Action) : bool :=
  match a with
  | Emit _ (log _ _) | Sleep _ => true
  | Goto url _ _ => starts_with watchUrlPrefix url
  | _ => false
  end.

(** The visits of a stretch of the loop over [ids]: the first [k] videos
    in order, all reached, and after them the one whose navigation threw,
    if the loop ended that way. *)
Definition loop_visits (r : Result float) (ids : list string) (delta : Trace) : Prop :=
  match r with
  | Ok _ => exists k, visits delta = map visited (firstn k ids)
  | Throw m =>
      exists k v, nth_error ids k = Some v
                  /\ visits delta = (map visited (firstn k ids) ++ [(videoUrl v, Throw m)])%list
  end.

(** The trace of a run that reaches its watch loop, up to there. *)
Definition prelude_trace (topic socketId : JSValue) (cookies : list JSObject)
    (videoIds : list string) (b : Browser) (isLoggedIn : bool) : Trace :=
  [ Emit socketId (log "Validating authentication data..." "status-in-progress");
    Emit socketId (log "Cookies parsed and normalized. Fetching video list..."
                       "status-in-progress");
    GetCuratedVideoIds topic (Ok videoIds);
    Emit socketId (log ("Found " ++ pretty (length videoIds)
                          ++ " videos. Initiating browser automation...")
                       "status-in-progress");
    Launch false 50 ["--no-sandbox"; "--disable-setuid-sandbox"] (Ok b);
    NewPage (Ok tt);
    SetUserAgent userAgent (Ok tt);
    Emit socketId (log "Applying user session cookies..." "status-in-progress");
    SetCookie cookies (Ok tt);
    Emit socketId (log "Cookies set. Navigating to YouTube..." "status-in-progress");
    Goto homeUrl 30000 (Ok tt);
    Query loginSelector (Ok isLoggedIn);
    if negb isLoggedIn
    then Emit socketId (log "WARNING: Login verification failed. Cookies may be expired."
                            "status-error")
    else Emit socketId (log "SUCCESS: Login confirmed." "status-success") ].

(** The last part of the [try] block: the loop and the success event. *)
Definition watchAndComplete (rt : Runtime) (w : World) (socketId : JSValue)
    (n : float) (videoIds : list string) : M unit :=
  (watchedTime <- watchLoop rt w socketId (n * 1000)%float (length videoIds) 0 videoIds 0%float ;;
   emit socketId
     (detoxComplete true
        ("Detox session finished. Total time simulated: "
           ++ toFixed1 (Number_toString rt) (watchedTime / 1000)%float ++ "s.")))%run.

(** The actions of the [catch] and [finally] blocks. *)
Definition exit_action (a : Action) : bool :=
  match a with
  | ConsoleError _ | Emit _ (detoxError _) | Close _ | ConsoleLog _ => true
  | _ => false
  end.

(** What the [catch] block adds to the trace. *)
Definition catch_trace (socketId : JSValue) (r : Result unit) : Trace :=
  match r with
  | Ok _ => []
  | Throw message =>
      [ConsoleError [JStr "Puppeteer Automation Failed:"; JStr message];
       Emit socketId (detoxError message)]
  end.

(** What the [finally] block adds to the trace [h], given [browser]. *)
Definition cleanup_trace (w : World) (b : option Browser) (h : Trace) : Trace :=
  match b with
  | None => []
  | Some _ =>
      let r := browser_close w h in
      Close r :: (if is_ok r then [ConsoleLog [JStr "[Puppeteer] Browser closed."]] else [])
  end.

(** [if (browser)] *)
Definition is_Some_b {A} (o : option A) : bool :=
  match o with Some _ => true | None => false end.

(** A run that stopped before its watch loop: only early actions so far,
    [browser] set exactly when the launch returned, no launch after an
    empty resolution, and past the login probe only when the duration is
    not convertible to a number. *)
Definition stopped_early (rt : Runtime) (totalDurationSeconds : JSValue)
    (st : State) : Prop :=
  forallb early_action (trace st) = true
  /\ count is_launched (trace st) = (if is_Some_b (browser st) then 1 else 0)
  /\ (In (Ok []) (resolved (trace st)) -> count is_launch (trace st) = 0)
  /\ (forall b, In (Ok b) (login_probes (trace st)) ->
        is_ok (ToNumber rt totalDurationSeconds) = false).

(** The visits of a [try] block over the resolved [ids]: the first [k]
    videos in order, all reached, and after them the one whose navigation
    made the block throw, if any. *)
Definition body_visits (r : Result unit) (ids : list string)
    (vs : list (string * Result unit)) : Prop :=
  (exists k, vs = map visited (firstn k ids))
  \/ (exists k v m, r = Throw m /\ nth_error ids k = Some v
                    /\ vs = (map visited (firstn k ids) ++ [(videoUrl v, Throw m)])%list).

(** What holds of the [try] block of every run when it ends with outcome
    [r] in state [st]. *)
Definition body_summary (r : Result unit) (st : State) : Prop :=
  count is_detoxError (trace st) = 0
  /\ count is_detoxComplete (trace st) = (if is_ok r then 1 else 0)
  /\ count is_close (trace st) = 0
  /\ count is_launched (trace st) = (if is_Some_b (browser st) then 1 else 0)
  /\ (In (Ok []) (resolved (trace st)) ->
      count is_launch (trace st) = 0 /\ is_ok r = false)
  /\ (forall ids, In (Ok ids) (resolved (trace st)) ->
        body_visits r ids (visits (trace st)))
  /\ (visits (trace st) <> [] -> is_Some_b (browser st) = true).

End Phases.
Export Phases.

(* ===================================================================== *)
(** ** The shape of a trace *)
(* ===================================================================== *)

Module Shape.

(** A call of the resolver or of the engine, [browser.close] apart. *)
Definition is_call (a : Action) : bool :=
  match a with
  | GetCuratedVideoIds _ _ | Launch _ _ _ _ | NewPage _ | SetUserAgent _ _
  | SetCookie _ _ | Goto _ _ _ | Query _ _ => true
  | _ => false
  end.

(** The same call, having thrown. *)
Definition with_throw (m : string) (a : Action) : Action :=
  match a with
  | GetCuratedVideoIds topic _ => GetCuratedVideoIds topic (Throw m)
  | Launch headless slowMo args _ => Launch headless slowMo args (Throw m)
  | NewPage _ => NewPage (Throw m)
  | SetUserAgent ua _ => SetUserAgent ua (Throw m)
  | SetCookie cookies _ => SetCookie cookies (Throw m)
  | Goto url timeout _ => Goto url timeout (Throw m)
  | Query selector _ => Query selector (Throw m)
  | _ => a
  end.

Definition noVideosMessage : string :=
  "Could not find relevant long-form videos for this topic.".

(** The state in which the [try] block of a run can stop before its watch
    loop, having thrown [m]: the trace is a beginning of the trace of a
    run that reaches the loop, followed by the call that threw if one
    did. *)
Definition early_shape (rt : Runtime) (topic dur raw sid : JSValue)
    (m : string) (st : State) : Prop :=
  exists cookies ids b l k,
    let pre := prelude_trace topic sid cookies ids b l in
    k <= 13
    /\ browser st = (if (5 <=? k)%nat then Some b else None)
    /\ ((k = 1 /\ parseCookies rt raw = Throw m /\ trace st = firstn 1 pre)
        \/ (parseCookies rt raw = Ok cookies
            /\ ((k = 3 /\ ids = [] /\ m = noVideosMessage /\ trace st = firstn 3 pre)
                \/ (k = 13 /\ ids <> [] /\ ToNumber rt dur = Throw m /\ trace st = pre)
                \/ (exists a, nth_error pre k = Some a /\ is_call a = true
                              /\ (2 < k -> ids <> [])
                              /\ trace st = (firstn k pre ++ [with_throw m a])%list)))).

(** The trace of the watch loop over [ids], by its outcome: a block of a
    progress line, a navigation that returned and a dwell of at most the
    cap per video visited, and a last block without dwell when the
    navigation threw. *)
Inductive loop_trace (sid : JSValue) : list string -> Result float -> Trace -> Prop :=
| loop_done ids wt : loop_trace sid ids (Ok wt) []
| loop_visit v rest message x r delta :
    loop_trace sid rest r delta ->
    loop_trace sid (v :: rest) r
      (Emit sid (log message "status-in-progress")
         :: Goto (videoUrl v) 60000 (Ok tt)
         :: Sleep (Math_min MIN_WATCH_TIME_PER_VIDEO_MS x) :: delta)
| loop_abort v rest message m :
    loop_trace sid (v :: rest) (Throw m)
      [Emit sid (log message "status-in-progress"); Goto (videoUrl v) 60000 (Throw m)].

(** What the [try] block adds after the loop. *)
Definition completion (rt : Runtime) (sid : JSValue) (r : Result float) : Trace :=
  match r with
  | Ok watchedTime =>
      [Emit sid
         (detoxComplete true
            ("Detox session finished. Total time simulated: "
               ++ toFixed1 (Number_toString rt) (watchedTime / 1000)%float ++ "s."))]
  | Throw _ => []
  end.

(** The outcome of the [try] block, from that of its loop. *)
Definition body_result (r : Result float) : Result unit :=
  match r with Ok _ => Ok tt | Throw m => Throw m end.

End Shape.
Export Shape.

(* ===================================================================== *)
(** ** The engine, as a run drives it *)
(* ===================================================================== *)

Module Engine.

(** How far a run has taken the browser engine. *)
Inductive EngineState : Type :=
| NotLaunched
| Launched
| PageOpen
| CookiesSet
| Closed.

(** The engine calls a state allows, and the state each one leads to: a
    page is opened on a launched browser, the user agent and the cookies
    are set on an open page, navigation and the login probe come after the
    cookies, and nothing follows the close.  Other actions do not touch
    the engine. *)
Definition engine_step (s : EngineState) (a : Action) : option EngineState :=
  match a with
  | Launch _ _ _ r =>
      match s with
      | NotLaunched => Some (if is_ok r then Launched else NotLaunched)
      | _ => None
      end
  | NewPage r =>
      match s with
      | Launched => Some (if is_ok r then PageOpen else Launched)
      | _ => None
      end
  | SetUserAgent _ _ =>
      match s with
      | PageOpen => Some PageOpen
      | _ => None
      end
  | SetCookie _ r =>
      match s with
      | PageOpen => Some (if is_ok r then CookiesSet else PageOpen)
      | _ => None
      end
  | Goto _ _ _ | Query _ _ =>
      match s with
      | CookiesSet => Some CookiesSet
      | _ => None
      end
  | Close _ =>
      match s with
      | Launched | PageOpen | CookiesSet => Some Closed
      | _ => None
      end
  | Emit _ _ | ConsoleLog _ | ConsoleError _ | Respond _ _ _
  | GetCuratedVideoIds _ _ | Sleep _ => Some s
  end.

(** The state a trace leaves the engine in, or [None] when a call comes
    out of order. *)
Fixpoint engine_run (s : EngineState) (tr : Trace) : option EngineState :=
  match tr with
  | [] => Some s
  | a :: tr' =>
      match engine_step s a with
      | Some s' => engine_run s' tr'
      | None => None
      end
  end.

(** An engine that is in use: launched and not closed. *)
Definition in_use (s : EngineState) : bool :=
  match s with
  | Launched | PageOpen | CookiesSet => true
  | NotLaunched | Closed => false
  end.

End Engine.
Export Engine.

(* ===================================================================== *)
(** ** More observations *)
(* ===================================================================== *)

Module Observe2.

Definition is_respond (a : Action) : bool :=
  match a with Respond _ _ _ => true | _ => false end.

Definition is_emit (a : Action) : bool :=
  match a with Emit _ _ => true | _ => false end.

(** The subscribers a trace emits to, event by event. *)
Definition recipients (tr : Trace) : list JSValue :=
  omap (fun a => match a with Emit socketId _ => Some socketId | _ => None end) tr.

(** The messages of the [detoxError] events. *)
Definition reported (tr : Trace) : list string :=
  omap (fun a => match a with Emit _ (detoxError m) => Some m | _ => None end) tr.

(** The message of a call of the resolver or of the engine that threw,
    [browser.close] apart. *)
Definition failure_of (a : Action) : option string :=
  match a with
  | GetCuratedVideoIds _ (Throw m) | Launch _ _ _ (Throw m) | NewPage (Throw m)
  | SetUserAgent _ (Throw m) | SetCookie _ (Throw m) | Goto _ _ (Throw m)
  | Query _ (Throw m) => Some m
  | _ => None
  end.

(** The messages of the calls that threw, in order. *)
Definition failures (tr : Trace) : list string := omap failure_of tr.

(** The cookie lists handed to [page.setCookie]. *)
Definition cookies_sent (tr : Trace) : list (list JSObject) :=
  omap (fun a => match a with SetCookie cookies _ => Some cookies | _ => None end) tr.

(** The responses sent to the HTTP client. *)
Definition responses (tr : Trace) : list (Z * bool * string) :=
  omap (fun a => match a with Respond status ok m => Some (status, ok, m) | _ => None end) tr.

(** The log lines of a trace: message and type. *)
Definition logged (tr : Trace) : list (string * string) :=
  omap (fun a => match a with Emit _ (log m t) => Some (m, t) | _ => None end) tr.

(** The content pages a run reached: the navigations that returned. *)
Definition visits_reached (tr : Trace) : list string :=
  omap (fun a =>
          match a with
          | Goto url _ (Ok _) => if starts_with watchUrlPrefix url then Some url else None
          | _ => None
          end) tr.

(** A dwell within the cap: at most 30000 ms, or [NaN]. *)
Definition capped (ms : float) : Prop :=
  PrimFloat.leb ms MIN_WATCH_TIME_PER_VIDEO_MS = true \/ PrimFloat.is_nan ms = true.

Definition loginWarning : string * string :=
  ("WARNING: Login verification failed. Cookies may be expired.", "status-error").

End Observe2.
Export Observe2.

(* ===================================================================== *)
(** ** Runs that start after something happened *)
(* ===================================================================== *)

Module Frame.

(** The world [w] as it looks to a run that starts after [h0] happened:
    every collaborator answers as [w] does to [h0] followed by the run's
    own history. *)
Definition shift (h0 : Trace) (w : World) : World :=
  {| getCuratedVideoIds := fun h => getCuratedVideoIds w (h0 ++ h);
     puppeteer_launch := fun h => puppeteer_launch w (h0 ++ h);
     browser_newPage := fun h => browser_newPage w (h0 ++ h);
     page_setUserAgent := fun h => page_setUserAgent w (h0 ++ h);
     page_setCookie := fun h => page_setCookie w (h0 ++ h);
     page_goto := fun h => page_goto w (h0 ++ h);
     page_query := fun h => page_query w (h0 ++ h);
     browser_close := fun h => browser_close w (h0 ++ h) |}.

(** The state [st] with [h0] before its trace. *)
Definition prefixed (h0 : Trace) (st : State) : State :=
  mkState (browser st) (h0 ++ trace st).

(** A computation that does after [h0] what it does from the start in the
    shifted world. *)
Definition framed {A} (m : World -> M A) : Prop :=
  forall w h0 st,
    m w (prefixed h0 st)
    = (let '(r, st') := m (shift h0 w) st in (r, prefixed h0 st')).

(** What the [/detox/start] handler does for a request, from the arrival
    of the request on. *)
Definition handler_trace (rt : Runtime) (w : World)
    (ToString_other : JSValue -> Result string) (body : JSObject) : Trace :=
  trace (snd (detox_start rt w ToString_other body start)).

(** Whether the handler accepts a request body. *)
Definition accepted (body : JSObject) : bool :=
  ToBoolean (getProp body "topic") && ToBoolean (getProp body "userCookies")
  && ToBoolean (getProp body "socketId").

(** What the handler does for an accepted request before it starts the
    run, [topic] and [socketId] being what the two converted to. *)
Definition announcement (topic socketId : string) : Trace :=
  [ConsoleLog [JStr ("API Request received (Socket ID: " ++ socketId
                       ++ "). Starting detox for topic "
                       ++ dquote ++ topic ++ dquote ++ ".")];
   Respond 200 true "Process initiated."].

End Frame.
Export Frame.

(* ===================================================================== *)
(** ** The content resolver (youtubeApi.js) *)
(* ===================================================================== *)

Module YoutubeApi.

Definition YOUTUBE_SEARCH_URL : string := "https://www.googleapis.com/youtube/v3/search".

Definition missingKeyMessage : string :=
  "ERROR: YOUTUBE_API_KEY is missing. Check your .env file.".

Definition fetchFailedMessage : string :=
  "Failed to fetch videos from YouTube. Check your API key or quota.".

(** How [await axios.get(...)] settles. *)
Inductive Settled : Type :=
| Fulfilled (response : JSValue)
| Rejected (error : JSValue).

(** A [TypeError] as a [catch] block sees it: an object with a [message]
    and no [response]. *)
Definition TypeError (message : string) : JSValue :=
  JObj {[ "message" := JStr message ]}.

(** [v.k], for the property names this module reads ([data], [items],
    [id], [videoId], [response], [error], [message]), which no prototype
    defines: the own property of an object, [undefined] on any other
    value, and a [TypeError] on [undefined] and [null]. *)
Definition member (v : JSValue) (k : string) : Result JSValue :=
  match v with
  | JUndefined => Throw ("Cannot read properties of undefined (reading '" ++ k ++ "')")
  | JNull => Throw ("Cannot read properties of null (reading '" ++ k ++ "')")
  | JObj m => Ok (getProp m k)
  | JBool _ | JNum _ | JStr _ | JArr _ => Ok JUndefined
  end.

Definition andThen {A B} (r : Result A) (f : A -> Result B) : Result B :=
  match r with
  | Ok a => f a
  | Throw m => Throw m
  end.

(** [item.id.videoId] *)
Definition videoIdOf (item : JSValue) : Result JSValue :=
  andThen (member item "id") (fun id => member id "videoId").

(** [items.filter(item => item.id.videoId)]: the callback runs on the items
    in order, and the first one on which it throws ends the call. *)
Fixpoint filterItems (items : list JSValue) : Result (list JSValue) :=
  match items with
  | [] => Ok []
  | item :: rest =>
      andThen (videoIdOf item) (fun videoId =>
      andThen (filterItems rest) (fun kept =>
      Ok (if ToBoolean videoId then item :: kept else kept)))
  end.

(** [items.map(item => item.id.videoId)] *)
Fixpoint mapItems (items : list JSValue) : Result (list JSValue) :=
  match items with
  | [] => Ok []
  | item :: rest =>
      andThen (videoIdOf item) (fun videoId =>
      andThen (mapItems rest) (fun ids => Ok (videoId :: ids)))
  end.

(** The receiver of [.filter]: an array, or a [TypeError]. *)
Definition itemsArray (items : JSValue) : Result (list JSValue) :=
  match items with
  | JArr l => Ok l
  | JUndefined => Throw "Cannot read properties of undefined (reading 'filter')"
  | JNull => Throw "Cannot read properties of null (reading 'filter')"
  | JBool _ | JNum _ | JStr _ | JObj _ => Throw "response.data.items.filter is not a function"
  end.

(** [response.data.items.filter(...).map(...)] *)
Definition responseIds (response : JSValue) : Result (list JSValue) :=
  andThen (member response "data") (fun data =>
  andThen (member data "items") (fun items =>
  andThen (itemsArray items) (fun l =>
  andThen (filterItems l) mapItems))).

(** [error.response ? error.response.data.error.message : error.message] *)
Definition errorMessageOf (error : JSValue) : Result JSValue :=
  andThen (member error "response") (fun response =>
  if ToBoolean response
  then andThen (member response "data") (fun data =>
       andThen (member data "error") (fun e => member e "message"))
  else member error "message").

(** What a call of [getCuratedVideoIds] did and how it ended. *)
Record ApiRun : Type := mkApiRun {
  requests : list (string * JSObject);
  console : list Action;
  result : Result (list JSValue)
}.

(** How the [try] block ends. *)
Inductive TryOutcome : Type :=
| Returned (output : list Action) (videoIds : list JSValue)
| Raised (error : JSValue).

Section Api.

(** [ToString] of a number, an array or an object: a built-in that is not
    modelled further. *)
Variable ToString_other : JSValue -> Result string.

(** [process.env.YOUTUBE_API_KEY] *)
Variable API_KEY : JSValue.

(** [axios.get(url, { params })] *)
Variable axios_get : string -> JSObject -> Settled.

(** [ToString], as a template literal applies it. *)
Definition ToString (v : JSValue) : Result string :=
  match v with
  | JStr s => Ok s
  | JUndefined => Ok "undefined"
  | JNull => Ok "null"
  | JBool b => Ok (if b then "true" else "false")
  | JNum _ | JArr _ | JObj _ => ToString_other v
  end.

Definition searchParams (q : string) : JSObject :=
  list_to_map
    [("key", API_KEY); ("part", JStr "snippet"); ("q", JStr q); ("type", JStr "video");
     ("maxResults", JNum 10); ("videoDuration", JStr "long");
     ("relevanceLanguage", JStr "en")].

(** The [try] block: the request, then the ids read off the response. *)
Definition tryBlock (topic : JSValue) : list (string * JSObject) * TryOutcome :=
  match ToString topic with
  | Throw m => ([], Raised (TypeError m))
  | Ok t =>
      let params := searchParams (t ++ " tutorial long form") in
      ([(YOUTUBE_SEARCH_URL, params)],
       match axios_get YOUTUBE_SEARCH_URL params with
       | Rejected error => Raised error
       | Fulfilled response =>
           match responseIds response with
           | Throw m => Raised (TypeError m)
           | Ok videoIds =>
               Returned
                 [ConsoleLog
                    [JStr ("[YouTube API] Found " ++ pretty (length videoIds)
                             ++ " long videos for topic " ++ dquote ++ t ++ dquote ++ ".")]]
                 videoIds
           end
       end)
  end.

(** The [catch] block: it reads a message off the error, logs it and throws
    the same error for every failure; what it throws while reading the
    message escapes instead. *)
Definition catchBlock (error : JSValue) : list Action * Result (list JSValue) :=
  match andThen (errorMessageOf error) ToString with
  | Throw m => ([], Throw m)
  | Ok errorMessage =>
      ([ConsoleError [JStr ("[YouTube API] FAILED: " ++ errorMessage)]],
       Throw fetchFailedMessage)
  end.

Definition getCuratedVideoIds (topic : JSValue) : ApiRun :=
  if negb (ToBoolean API_KEY)
  then mkApiRun [] [] (Throw missingKeyMessage)
  else
    match tryBlock topic with
    | (sent, Returned output videoIds) => mkApiRun sent output (Ok videoIds)
    | (sent, Raised error) =>
        let '(output, r) := catchBlock error in mkApiRun sent output r
    end.

End Api.

(** The id of an item that [getCuratedVideoIds] keeps. *)
Definition keptId (item : JSValue) : option JSValue :=
  match videoIdOf item with
  | Ok videoId => if ToBoolean videoId then Some videoId else None
  | Throw _ => None
  end.

End YoutubeApi.

(* ===================================================================== *)
(** ** Sample inputs *)
(* ===================================================================== *)

Module Samples.

(** A session cookie as a browser extension exports it. *)
Definition sessionCookie : JSValue :=
  JObj (list_to_map
          [("name", JStr "SID"); ("value", JStr "abc"); ("domain", JStr ".youtube.com");
           ("path", JStr "/"); ("session", JBool true); ("expirationDate", JNum 1893456000);
           ("storeId", JStr "0"); ("id", JNum 7); ("sameSite", JStr "No_Restriction")]).

(** A cookie that outlives the session. *)
Definition persistentCookie : JSValue :=
  JObj (list_to_map
          [("name", JStr "PREF"); ("value", JStr "tz=UTC"); ("domain", JStr ".youtube.com");
           ("path", JStr "/"); ("session", JBool false); ("expirationDate", JNum 1893456000);
           ("storeId", JStr "0"); ("id", JNum 8); ("sameSite", JStr "lax")]).

(** A runtime for the examples: [JSON.parse] knows the empty array, no
    string or object converts to a number, and large magnitudes print in
    exponent form. *)
Definition sampleRuntime : Runtime :=
  {| JSON_parse := fun v =>
       match v with
       | JStr s => if String.eqb s "[]" then Some (JArr []) else None
       | _ => None
       end;
     ToNumber_other := fun _ => Ok PrimFloat.nan;
     Number_toString := fun _ => "1e+21" |}.

(** A world in which the resolver returns [videoIds] and every engine call
    succeeds, except the navigation to the content page of [broken]. *)
Definition sampleWorld (videoIds : list string) (broken : option string) : World :=
  {| getCuratedVideoIds := fun _ _ => Ok videoIds;
     puppeteer_launch := fun _ => Ok BrowserHandle;
     browser_newPage := fun _ => Ok tt;
     page_setUserAgent := fun _ _ => Ok tt;
     page_setCookie := fun _ _ => Ok tt;
     page_goto := fun _ url _ =>
       match broken with
       | Some videoId =>
           if String.eqb url (videoUrl videoId)
           then Throw "net::ERR_CONNECTION_RESET"
           else Ok tt
       | None => Ok tt
       end;
     page_query := fun _ _ => Ok true;
     browser_close := fun _ => Ok tt |}.

(** The name under which the examples pass the export of the two sample
    cookies; its parse is given by [cookieRuntime], not computed. *)
Definition exportedCookies : string := "[SID, PREF]".

(** The sample runtime, with a [JSON.parse] that also knows the export of
    the two sample cookies. *)
Definition cookieRuntime : Runtime :=
  {| JSON_parse := fun v =>
       match v with
       | JStr s =>
           if String.eqb s exportedCookies
           then Some (JArr [sessionCookie; persistentCookie])
           else JSON_parse sampleRuntime v
       | _ => None
       end;
     ToNumber_other := ToNumber_other sampleRuntime;
     Number_toString := Number_toString sampleRuntime |}.

(** The sample world, with a login probe that finds no signed-in marker. *)
Definition signedOutWorld (videoIds : list string) : World :=
  {| getCuratedVideoIds := fun _ _ => Ok videoIds;
     puppeteer_launch := fun _ => Ok BrowserHandle;
     browser_newPage := fun _ => Ok tt;
     page_setUserAgent := fun _ _ => Ok tt;
     page_setCookie := fun _ _ => Ok tt;
     page_goto := fun _ _ _ => Ok tt;
     page_query := fun _ _ => Ok false;
     browser_close := fun _ => Ok tt |}.

(** A world whose content resolver throws [message]. *)
Definition resolverDown (message : string) : World :=
  {| getCuratedVideoIds := fun _ _ => Throw message;
     puppeteer_launch := fun _ => Ok BrowserHandle;
     browser_newPage := fun _ => Ok tt;
     page_setUserAgent := fun _ _ => Ok tt;
     page_setCookie := fun _ _ => Ok tt;
     page_goto := fun _ _ _ => Ok tt;
     page_query := fun _ _ => Ok true;
     browser_close := fun _ => Ok tt |}.

(** The text of the JSON array of a number, a string and [null]. *)
Definition mixedBlob : string := "[1," ++ dquote ++ "ab" ++ dquote ++ ",null]".

(** The sample runtime, with a [JSON.parse] that also knows [mixedBlob] and
    the empty object. *)
Definition jsonRuntime : Runtime :=
  {| JSON_parse := fun v =>
       match v with
       | JStr s =>
           if String.eqb s mixedBlob then Some (JArr [JNum 1; JStr "ab"; JNull])
           else if String.eqb s "{}" then Some (JObj ∅)
           else JSON_parse sampleRuntime v
       | _ => None
       end;
     ToNumber_other := ToNumber_other sampleRuntime;
     Number_toString := Number_toString sampleRuntime |}.

(** [ToString] of the values the examples do not convert. *)
Definition sampleToString : JSValue -> Result string := fun _ => Ok "[object Object]".

(** [ToString] of the objects of a request body: one with an own
    [toString], which no JSON value makes a function, has no primitive
    value; any other prints as every plain object does.  The examples
    convert no number and no array. *)
Definition jsonToString : JSValue -> Result string :=
  fun v =>
    match v with
    | JObj m =>
        match m !! "toString" with
        | Some _ => Throw "Cannot convert object to primitive value"
        | None => Ok "[object Object]"
        end
    | _ => sampleToString v
    end.

(** The body of a request that asks for a run of 5 seconds. *)
Definition fiveSecondBody : JSObject :=
  list_to_map
    [("topic", JStr "rust"); ("duration", JNum 5);
     ("userCookies", JStr "[]"); ("socketId", JStr "s1")].

(** The body of a request whose topic is an object that does not convert
    to a string. *)
Definition unprintableTopicBody : JSObject :=
  list_to_map
    [("topic", JObj {[ "toString" := JNum 1 ]}); ("duration", JNum 5);
     ("userCookies", JStr "[]"); ("socketId", JStr "s1")].

(** The body of a request that asks for a run of 0 seconds. *)
Definition zeroDurationBody : JSObject :=
  list_to_map
    [("topic", JStr "rust"); ("duration", JNum 0);
     ("userCookies", JStr "[]"); ("socketId", JStr "s1")].

(** A search response with three items, the second one without a video id
    (a channel, say). *)
Definition sampleItems : list JSValue :=
  [ JObj {[ "id" := JObj {[ "videoId" := JStr "a1" ]} ]};
    JObj {[ "id" := JObj {[ "channelId" := JStr "c7" ]} ]};
    JObj {[ "id" := JObj {[ "videoId" := JStr "b2" ]} ]} ].

Definition sampleResponse : JSObject :=
  {[ "data" := JObj {[ "items" := JArr sampleItems ]} ]}.

(** A network failure: an error with a message and no response. *)
Definition networkError : JSObject := {[ "message" := JStr "timeout of 0ms exceeded" ]}.

(** An error whose response carries no body. *)
Definition bodylessError : JSObject :=
  list_to_map [("message", JStr "Request failed"); ("response", JObj ∅)].

End Samples.
Export Samples.

(* ===================================================================== *)
(** ** Basic facts *)
(* ===================================================================== *)

Lemma count_app (p : Action -> bool) (tr1 tr2 : Trace) :
  count p (tr1 ++ tr2) = count p tr1 + count p tr2.
Proof.
  induction tr1 as [|a tr1 IH]; simpl; [reflexivity|].
  rewrite IH. lia.
Qed.

Lemma count_zero (p q : Action -> bool) (tr : Trace) :
  (forall a, q a = true -> p a = false) ->
  forallb q tr = true -> count p tr = 0.
Proof.
  intros Hpq. induction tr as [|a tr IH]; simpl; [reflexivity|].
  intros [Ha Htr]%andb_prop. rewrite (Hpq a Ha), (IH Htr). reflexivity.
Qed.

Lemma starts_with_videoUrl (videoId : string) :
  starts_with watchUrlPrefix (videoUrl videoId) = true.
Proof. reflexivity. Qed.

(* ===================================================================== *)
(** ** Credential normalization *)
(* ===================================================================== *)

Section NormalizeFacts.

Implicit Types (m : JSObject) (k : string).

Lemma normalizeSameSite_other m k :
  k <> "sameSite" -> normalizeSameSite m !! k = m !! k.
Proof.
  intros Hk. unfold normalizeSameSite.
  repeat match goal with |- context [if ?c then _ else _] => destruct c end;
    rewrite ?lookup_insert_ne, ?lookup_delete_ne by congruence; reflexivity.
Qed.

(** Removing the identity fields and the expiry does not touch another
    property of the copy. *)
Lemma normalizeCookie_sameSite_in (cookie : JSValue) :
  exists m, normalizeCookie cookie = normalizeSameSite m
            /\ getProp m "sameSite" = getProp (spread cookie) "sameSite".
Proof.
  unfold normalizeCookie. eexists. split; [reflexivity|].
  unfold getProp.
  destruct (ToBoolean _);
    rewrite ?lookup_delete_ne by discriminate; reflexivity.
Qed.

End NormalizeFacts.

(** C8: a normalized entry never carries [storeId] or [id], and it carries
    no [expirationDate] when the entry's [session] flag is set. *)
Theorem normalizeCookie_strips (cookie : JSValue) :
  normalizeCookie cookie !! "storeId" = None
  /\ normalizeCookie cookie !! "id" = None
  /\ (ToBoolean (getProp (spread cookie) "session") = true ->
      normalizeCookie cookie !! "expirationDate" = None).
Proof.
  unfold normalizeCookie.
  assert (Hs : getProp (delete "id" (delete "storeId" (spread cookie))) "session"
               = getProp (spread cookie) "session").
  { unfold getProp. rewrite !lookup_delete_ne by discriminate. reflexivity. }
  rewrite Hs. repeat split.
  - rewrite normalizeSameSite_other by discriminate.
    destruct (ToBoolean _); rewrite ?lookup_delete_ne by discriminate;
      apply lookup_delete_eq.
  - rewrite normalizeSameSite_other by discriminate.
    destruct (ToBoolean _); rewrite ?lookup_delete_ne by discriminate;
      apply lookup_delete_eq.
  - intros ->. rewrite normalizeSameSite_other by discriminate.
    apply lookup_delete_eq.
Qed.

Lemma normalizeCookie_strips_witness :
  let cookie := sessionCookie in
  ToBoolean (getProp (spread cookie) "session") = true
  /\ normalizeCookie cookie !! "storeId" = None
  /\ normalizeCookie cookie !! "id" = None
  /\ normalizeCookie cookie !! "expirationDate" = None.
Proof.
  intros cookie.
  destruct (normalizeCookie_strips cookie) as (H1 & H2 & H3).
  split; [reflexivity|]. split; [exact H1|]. split; [exact H2|].
  apply H3. reflexivity.
Defined.

Lemma toLowerCase_nonempty (s : string) : toLowerCase s <> "" -> s <> "".
Proof. intros H ->. apply H. reflexivity. Qed.

(** What the [sameSite] step does to a copy, by the value it finds. *)
Lemma normalizeSameSite_spec (m : JSObject) :
  let sameSite := getProp m "sameSite" in
  let out := normalizeSameSite m !! "sameSite" in
  (forall s, sameSite = JStr s -> toLowerCase s = "no_restriction" ->
     out = Some (JStr "None"))
  /\ (forall s, sameSite = JStr s -> In (toLowerCase s) ["strict"; "lax"; "none"] ->
     out = Some (JStr s))
  /\ (forall s, sameSite = JStr s -> s <> "" ->
     ~ In (toLowerCase s) ["no_restriction"; "strict"; "lax"; "none"] -> out = None)
  /\ (is_nullish sameSite = true -> out = None).
Proof.
  intros sameSite out. subst out. unfold normalizeSameSite. fold sameSite.
  repeat split.
  - intros s Hs Hl. rewrite Hs. simpl.
    assert (String.eqb s "" = false) as ->.
    { apply String.eqb_neq. apply toLowerCase_nonempty. rewrite Hl. discriminate. }
    simpl. rewrite Hl. simpl. apply lookup_insert_eq.
  - intros s Hs Hl. rewrite Hs. simpl.
    assert (String.eqb s "" = false) as ->.
    { apply String.eqb_neq. apply toLowerCase_nonempty.
      simpl in Hl. intros E. rewrite E in Hl. intuition discriminate. }
    simpl.
    assert (getProp m "sameSite" = JStr s) as Hg by exact Hs.
    unfold getProp in Hg.
    destruct (m !! "sameSite") as [v|] eqn:Hm; simpl in Hg; [|discriminate].
    subst v.
    simpl in Hl. destruct Hl as [<-|[<-|[<-|[]]]]; exact Hm.
  - intros s Hs Hne Hl. rewrite Hs. simpl.
    apply String.eqb_neq in Hne. rewrite Hne. simpl.
    simpl in Hl.
    destruct (String.eqb_spec (toLowerCase s) "no_restriction") as [E|_];
      [exfalso; apply Hl; auto|].
    destruct (String.eqb_spec (toLowerCase s) "strict") as [E|_];
      [exfalso; apply Hl; auto|].
    destruct (String.eqb_spec (toLowerCase s) "lax") as [E|_];
      [exfalso; apply Hl; auto|].
    destruct (String.eqb_spec (toLowerCase s) "none") as [E|_];
      [exfalso; apply Hl; auto|].
    simpl. apply lookup_delete_eq.
  - intros Hn. destruct sameSite; try discriminate; simpl; apply lookup_delete_eq.
Qed.

(** C7, as amended: [no_restriction] in any casing becomes exactly [None];
    [strict], [lax] and [none] in any casing are kept as they were
    supplied; any other non-empty string is removed; a [null] or absent
    field is removed. *)
Theorem sameSite_normalization (cookie : JSValue) :
  let sameSite := getProp (spread cookie) "sameSite" in
  let out := normalizeCookie cookie !! "sameSite" in
  (forall s, sameSite = JStr s -> toLowerCase s = "no_restriction" ->
     out = Some (JStr "None"))
  /\ (forall s, sameSite = JStr s -> In (toLowerCase s) ["strict"; "lax"; "none"] ->
     out = Some (JStr s))
  /\ (forall s, sameSite = JStr s -> s <> "" ->
     ~ In (toLowerCase s) ["no_restriction"; "strict"; "lax"; "none"] -> out = None)
  /\ (is_nullish sameSite = true -> out = None)
  /\ ((exists s, sameSite = JStr s /\ s <> "") \/ is_nullish sameSite = true ->
      out = None \/ out = Some (JStr "None")
      \/ (out = Some sameSite
          /\ In (toLowerCase (string_of sameSite)) ["strict"; "lax"; "none"])).
Proof.
  intros sameSite out. subst sameSite out.
  destruct (normalizeCookie_sameSite_in cookie) as (m & -> & <-).
  destruct (normalizeSameSite_spec m) as (H1 & H2 & H3 & H4).
  repeat split; try assumption.
  intros [(s & Hs & Hne)|Hn]; [|left; apply H4, Hn].
  destruct (String.eqb_spec (toLowerCase s) "no_restriction") as [E|N1];
    [right; left; apply (H1 s Hs E)|].
  destruct (in_dec string_dec (toLowerCase s) ["strict"; "lax"; "none"]) as [Hin|Hout].
  - right. right. rewrite Hs. split; [apply (H2 s Hs Hin)|exact Hin].
  - left. apply (H3 s Hs Hne). intros [E|Hin]; [apply N1; symmetry; exact E|].
    apply Hout, Hin.
Qed.

Lemma sameSite_normalization_witness :
  toLowerCase "No_Restriction" = "no_restriction"
  /\ normalizeCookie sessionCookie !! "sameSite" = Some (JStr "None").
Proof.
  split; [reflexivity|].
  apply (proj1 (sameSite_normalization sessionCookie) "No_Restriction");
    reflexivity.
Defined.

(** C7 as stated fails: [LAX] matches [lax] without regard to case, and the
    normalized entry keeps [LAX], which is none of the canonical spellings
    (nor their lower-case forms); and an empty [sameSite] is kept as it is,
    neither removed nor a valid value. *)
Lemma sameSite_casing_counterexample :
  let valid := [None; Some (JStr "Strict"); Some (JStr "Lax"); Some (JStr "None");
                Some (JStr "strict"); Some (JStr "lax"); Some (JStr "none")] in
  let cookie := JObj {[ "sameSite" := JStr "LAX" ]} in
  let blank := JObj {[ "sameSite" := JStr "" ]} in
  toLowerCase "LAX" = "lax"
  /\ normalizeCookie cookie !! "sameSite" = Some (JStr "LAX")
  /\ ~ In (normalizeCookie cookie !! "sameSite") valid
  /\ normalizeCookie blank !! "sameSite" = Some (JStr "")
  /\ ~ In (normalizeCookie blank !! "sameSite") valid.
Proof.
  intros valid cookie blank.
  assert (H : normalizeCookie cookie !! "sameSite" = Some (JStr "LAX"))
    by (vm_compute; reflexivity).
  assert (H' : normalizeCookie blank !! "sameSite" = Some (JStr ""))
    by (vm_compute; reflexivity).
  split; [reflexivity|]. split; [exact H|]. split; [|split; [exact H'|]].
  - rewrite H. subst valid. simpl. intuition discriminate.
  - rewrite H'. subst valid. simpl. intuition discriminate.
Qed.


(* ===================================================================== *)
(** ** The watch loop *)
(* ===================================================================== *)

Lemma watchLoop_spec (rt : Runtime) (w : World) (sid : JSValue) (T : float) (cnt : nat)
    (ids : list string) :
  forall (i : nat) (wt : float) (st : State) (r : Result float) (st' : State),
  watchLoop rt w sid T cnt i ids wt st = (r, st') ->
  exists delta,
    st' = mkState (browser st) (trace st ++ delta)
    /\ forallb loop_action delta = true
    /\ loop_visits r ids delta.
Proof.
  induction ids as [|videoId rest IH]; intros i wt st r st' Hrun.
  - injection Hrun as <- <-. exists []. rewrite app_nil_r.
    destruct st; repeat split. exists 0. reflexivity.
  - simpl in Hrun. destruct (PrimFloat.leb T wt).
    + injection Hrun as <- <-. exists []. rewrite app_nil_r.
      destruct st; repeat split. exists 0. reflexivity.
    + unfold bind at 1 in Hrun. unfold emitLog, emit, act at 1 in Hrun.
      unfold bind at 1 in Hrun. unfold call at 1 in Hrun. simpl in Hrun.
      destruct (page_goto _ _ _ _) as [[]|m] eqn:Hgoto.
      * unfold bind at 1 in Hrun. unfold act at 1 in Hrun. simpl in Hrun.
        apply IH in Hrun as (delta & -> & Hact & Hvis).
        eexists (_ :: _ :: _ :: delta). split; [|split].
        -- simpl. rewrite <- !app_assoc. reflexivity.
        -- simpl. exact Hact.
        -- revert Hvis. unfold loop_visits. destruct r as [wt'|m].
           ++ intros [k Hk]. exists (S k). simpl. rewrite ?starts_with_videoUrl.
              simpl. rewrite Hk. reflexivity.
           ++ intros (k & v & Hv & Hk). exists (S k), v. split; [exact Hv|].
              simpl. rewrite ?starts_with_videoUrl. simpl. rewrite Hk. reflexivity.
      * injection Hrun as <- <-. eexists [_; _]. split; [|split].
        -- simpl. rewrite <- !app_assoc. reflexivity.
        -- reflexivity.
        -- simpl. exists 0, videoId. split; [reflexivity|].
           simpl. rewrite ?starts_with_videoUrl. reflexivity.
Qed.

(* ===================================================================== *)
(** ** Stepping through a run *)
(* ===================================================================== *)

Section Steps.

Context {A B : Type}.
Implicit Types (f : A -> M B) (st : State).

Lemma bind_act (a : Action) (k : unit -> M B) st :
  bind (act a) k st = k tt (mkState (browser st) (trace st ++ [a])).
Proof. reflexivity. Qed.

Lemma bind_ret (a : A) f st : bind (ret a) f st = f a st.
Proof. reflexivity. Qed.

Lemma bind_throw (m : string) f st : bind (throw m) f st = (Throw m, st).
Proof. reflexivity. Qed.

Lemma bind_lift_ok (a : A) f st : bind (lift (Ok a)) f st = f a st.
Proof. reflexivity. Qed.

Lemma bind_lift_throw (m : string) f st :
  bind (lift (Throw m)) f st = (Throw m, st).
Proof. reflexivity. Qed.

Lemma bind_call_ok (answer : Trace -> Result A) (record : Result A -> Action) (a : A) f st :
  answer (trace st) = Ok a ->
  bind (call answer record) f st
  = f a (mkState (browser st) (trace st ++ [record (Ok a)])).
Proof. unfold bind, call. intros ->. reflexivity. Qed.

Lemma bind_call_throw (answer : Trace -> Result A) (record : Result A -> Action)
    (m : string) f st :
  answer (trace st) = Throw m ->
  bind (call answer record) f st
  = (Throw m, mkState (browser st) (trace st ++ [record (Throw m)])).
Proof. unfold bind, call. intros ->. reflexivity. Qed.

End Steps.

Lemma bind_set_browser {B} (b : Browser) (k : unit -> M B) (st : State) :
  bind (set_browser b) k st = k tt (mkState (Some b) (trace st)).
Proof. reflexivity. Qed.

(** One step of a run: a log line or another action is appended; a call is
    split into the case where it returns and the case where it throws. *)
Ltac step_act :=
  unfold emitLog, emit;
  rewrite bind_act; cbn [trace browser app default from_option id].

Ltac step_call x m :=
  match goal with
  | |- context [bind (call ?answer ?record) _ ?st] =>
      let E := fresh "E" in
      destruct (answer (trace st)) as [x|m] eqn:E;
      [ rewrite (bind_call_ok answer record _ _ st E)
      | rewrite (bind_call_throw answer record _ _ st E) ];
      cbn [trace browser app] in *
  end.

(** Closes the case of a run that threw before its watch loop. *)
Ltac stop_early :=
  left; eexists _, _; split; [reflexivity|];
  unfold stopped_early; cbn [trace browser];
  repeat split; simpl; try reflexivity; try congruence;
  try (intros; intuition congruence).

Lemma runBody_cases (rt : Runtime) (w : World) (topic dur raw sid : JSValue) :
  (exists m st, runBody rt w topic dur raw sid start = (Throw m, st)
                /\ stopped_early rt dur st)
  \/ (exists cookies ids b isLoggedIn n,
        ids <> [] /\ ToNumber rt dur = Ok n
        /\ runBody rt w topic dur raw sid start
           = watchAndComplete rt w sid n ids
               (mkState (Some b) (prelude_trace topic sid cookies ids b isLoggedIn))).
Proof.
  unfold runBody, start.
  step_act.
  destruct (parseCookies rt raw) as [cookies|m] eqn:Hc;
    [rewrite bind_lift_ok | rewrite bind_lift_throw; stop_early].
  step_act.
  step_call ids m; [|stop_early].
  destruct ids as [|v ids']; cbn [length Nat.eqb];
    [rewrite bind_throw; stop_early | rewrite bind_ret].
  step_act.
  step_call b m; [|stop_early].
  rewrite bind_set_browser; cbn [trace browser].
  step_call u1 m; [|stop_early].
  step_call u2 m; [|stop_early].
  step_act.
  step_call u3 m; [|stop_early].
  step_act.
  step_call u4 m; [|stop_early].
  step_call isLoggedIn m; [|stop_early].
  destruct u1, u2, u3, u4.
  assert (Hlog : forall (k : unit -> M unit) st,
    bind (if negb isLoggedIn
          then emitLog sid "WARNING: Login verification failed. Cookies may be expired."
                 (Some "status-error")
          else emitLog sid "SUCCESS: Login confirmed." (Some "status-success")) k st
    = k tt (mkState (browser st)
              (trace st ++
               [if negb isLoggedIn
                then Emit sid (log "WARNING: Login verification failed. Cookies may be expired."
                                   "status-error")
                else Emit sid (log "SUCCESS: Login confirmed." "status-success")])))
    by (intros k st; destruct isLoggedIn; reflexivity).
  rewrite Hlog; clear Hlog; cbn [trace browser app].
  destruct (ToNumber rt dur) as [n|m] eqn:Hn;
    [rewrite bind_lift_ok
    | rewrite bind_lift_throw; destruct isLoggedIn; stop_early;
      intros; rewrite Hn; reflexivity].
  right. exists cookies, (v :: ids'), b, isLoggedIn, n.
  split; [discriminate|]. split; [reflexivity|]. reflexivity.
Qed.


Lemma run_trace_decompose (rt : Runtime) (w : World) (topic dur raw sid : JSValue)
    (r : Result unit) (st : State) :
  runBody rt w topic dur raw sid start = (r, st) ->
  run_trace rt w topic dur raw sid
  = (trace st ++ catch_trace sid r
       ++ cleanup_trace w (browser st) (trace st ++ catch_trace sid r))%list.
Proof.
  intros Hbody. unfold run_trace, runDetoxAutomation, try_catch_finally.
  rewrite Hbody. destruct r as [[]|m]; simpl.
  - rewrite app_nil_r. unfold bind, get_browser. simpl.
    destruct (browser st); simpl; [|rewrite app_nil_r; reflexivity].
    unfold call. simpl. destruct (browser_close w (trace st));
      unfold act; simpl; rewrite <- ?app_assoc; reflexivity.
  - unfold bind, get_browser, act, emit. simpl.
    destruct (browser st); simpl; [|rewrite <- app_assoc; reflexivity].
    unfold call. simpl. rewrite <- !app_assoc. simpl.
    destruct (browser_close w _);
      unfold act; simpl; rewrite <- ?app_assoc; reflexivity.
Qed.

Lemma omap_none {B} (f : Action -> option B) (q : Action -> bool) (tr : Trace) :
  (forall a, q a = true -> f a = None) ->
  forallb q tr = true -> omap f tr = [].
Proof.
  intros Hq. induction tr as [|a tr IH]; simpl; [reflexivity|].
  intros [Ha Htr]%andb_prop. rewrite (Hq a Ha). apply IH, Htr.
Qed.

(** Discharges a side condition of the form: an action of one kind is not
    of another kind. *)
Ltac by_kind :=
  let a := fresh "a" in
  intros a; destruct a as [? []| | | | | | | | |? ? ?| | |]; cbn -[starts_with];
  try reflexivity; try discriminate;
  try (destruct (starts_with _ _); simpl; congruence).

Lemma early_visits (tr : Trace) : forallb early_action tr = true -> visits tr = [].
Proof. apply omap_none. by_kind. Qed.

Lemma early_dwells (tr : Trace) : forallb early_action tr = true -> dwells tr = [].
Proof. apply omap_none. by_kind. Qed.

Lemma early_completions (tr : Trace) :
  forallb early_action tr = true -> completions tr = [].
Proof. apply omap_none. by_kind. Qed.

Lemma loop_resolved (tr : Trace) : forallb loop_action tr = true -> resolved tr = [].
Proof. apply omap_none. by_kind. Qed.

Lemma prelude_facts (topic sid : JSValue) (cookies : list JSObject)
    (ids : list string) (b : Browser) (isLoggedIn : bool) :
  let pre := prelude_trace topic sid cookies ids b isLoggedIn in
  forallb early_action pre = true
  /\ count is_launched pre = 1
  /\ resolved pre = [Ok ids]
  /\ login_probes pre = [Ok isLoggedIn].
Proof. destruct isLoggedIn; repeat split. Qed.

Lemma early_counts (tr : Trace) :
  forallb early_action tr = true ->
  count is_detoxError tr = 0 /\ count is_detoxComplete tr = 0 /\ count is_close tr = 0.
Proof.
  intros H. repeat split; (eapply count_zero; [|exact H]); by_kind.
Qed.

Lemma loop_counts (tr : Trace) :
  forallb loop_action tr = true ->
  count is_detoxError tr = 0 /\ count is_detoxComplete tr = 0 /\ count is_close tr = 0
  /\ count is_launched tr = 0 /\ count is_launch tr = 0.
Proof.
  intros H. repeat split; (eapply count_zero; [|exact H]); by_kind.
Qed.

Lemma runBody_summary (rt : Runtime) (w : World) (topic dur raw sid : JSValue) :
  exists r st, runBody rt w topic dur raw sid start = (r, st) /\ body_summary r st.
Proof.
  destruct (runBody_cases rt w topic dur raw sid)
    as [(m & st & Hrun & Hearly & Hb & Hres & _)
       |(cookies & ids & b & isLoggedIn & n & Hids & _ & Hrun)].
  - exists (Throw m), st. split; [exact Hrun|]. unfold body_summary.
    rewrite (early_visits _ Hearly).
    destruct (early_counts _ Hearly) as (-> & -> & ->).
    repeat split; auto; try (apply Hres; assumption).
    intros ids _. left. exists 0. reflexivity.
  - rewrite Hrun. unfold watchAndComplete, bind.
    destruct (watchLoop _ _ _ _ _ _ _ _ _) as [rl st'] eqn:Hloop.
    apply watchLoop_spec in Hloop as (delta & -> & Hdelta & Hvis).
    cbn [trace browser] in *.
    destruct (prelude_facts topic sid cookies ids b isLoggedIn)
      as (Hpre & Hlaunched & Hres & _).
    destruct (early_counts _ Hpre) as (He1 & He2 & He3).
    destruct (loop_counts _ Hdelta) as (Hl1 & Hl2 & Hl3 & Hl4 & Hl5).
    pose proof (early_visits _ Hpre) as Hev.
    pose proof (loop_resolved _ Hdelta) as Hlr.
    revert Hpre Hlaunched Hres He1 He2 He3 Hev.
    generalize (prelude_trace topic sid cookies ids b isLoggedIn) as pre.
    intros pre Hpre Hlaunched Hres He1 He2 He3 Hev.
    destruct rl as [wt|m]; eexists _, _; (split; [reflexivity|]);
      unfold body_summary, emit, act; cbn [trace browser is_ok is_Some_b];
      unfold resolved, visits in *; rewrite ?omap_app, ?count_app;
      fold resolved visits in *;
      rewrite Hres, Hev, Hlr, ?He1, ?He2, ?He3, ?Hl1, ?Hl2, ?Hl3, ?Hl4, ?Hl5, ?Hlaunched;
      cbn -[starts_with]; rewrite ?app_nil_r;
      assert (Hno : Ok ids = Ok [] \/ False -> False)
        by (intros [[= ->]|[]]; congruence);
      repeat split; auto; try (exfalso; apply Hno; assumption).
    + intros ids' [[= <-]|[]]. destruct Hvis as [k Hk]. left. exists k.
      exact Hk.
    + intros ids' [[= <-]|[]]. destruct Hvis as (k & v & Hv & Hk).
      right. exists k, v, m. repeat split; auto.
Qed.

Lemma catch_facts (sid : JSValue) (r : Result unit) :
  forallb exit_action (catch_trace sid r) = true
  /\ count is_detoxError (catch_trace sid r) = (if is_ok r then 0 else 1)
  /\ count is_close (catch_trace sid r) = 0.
Proof. destruct r; repeat split. Qed.

Lemma cleanup_facts (w : World) (b : option Browser) (h : Trace) :
  forallb exit_action (cleanup_trace w b h) = true
  /\ count is_detoxError (cleanup_trace w b h) = 0
  /\ count is_close (cleanup_trace w b h) = (if is_Some_b b then 1 else 0).
Proof.
  destruct b; simpl; [|repeat split].
  destruct (browser_close w h); repeat split.
Qed.

Lemma exit_counts (tr : Trace) :
  forallb exit_action tr = true ->
  count is_detoxComplete tr = 0 /\ count is_launched tr = 0 /\ count is_launch tr = 0.
Proof.
  intros H. repeat split; (eapply count_zero; [|exact H]); by_kind.
Qed.

Lemma exit_observations (tr : Trace) :
  forallb exit_action tr = true ->
  resolved tr = [] /\ visits tr = [] /\ login_probes tr = []
  /\ dwells tr = [] /\ completions tr = [].
Proof.
  intros H. repeat split; (eapply omap_none; [|exact H]); by_kind.
Qed.

(** The trace of a run: that of its [try] block, then what the [catch] and
    [finally] blocks add, which is no resolver call, no launch, no visit,
    no dwell and no success event. *)
Lemma run_trace_summary (rt : Runtime) (w : World) (topic dur raw sid : JSValue) :
  exists r st tail,
    runBody rt w topic dur raw sid start = (r, st)
    /\ body_summary r st
    /\ run_trace rt w topic dur raw sid = (trace st ++ tail)%list
    /\ forallb exit_action tail = true
    /\ count is_detoxError tail = (if is_ok r then 0 else 1)
    /\ count is_close tail = (if is_Some_b (browser st) then 1 else 0).
Proof.
  destruct (runBody_summary rt w topic dur raw sid) as (r & st & Hrun & Hsum).
  exists r, st. eexists. split; [exact Hrun|]. split; [exact Hsum|].
  split; [apply (run_trace_decompose _ _ _ _ _ _ _ _ Hrun)|].
  destruct (catch_facts sid r) as (Hc1 & Hc2 & Hc3).
  match goal with |- context [cleanup_trace w ?b ?h] =>
    destruct (cleanup_facts w b h) as (Hf1 & Hf2 & Hf3) end.
  rewrite forallb_app, !count_app, Hc1, Hc2, Hc3, Hf1, Hf2, Hf3.
  repeat split; lia.
Qed.

(* ===================================================================== *)
(** ** Teardown and terminal events *)
(* ===================================================================== *)

(** C1: in every run the engine is closed as many times as it was launched,
    which is at most once: exactly one close when the launch returned,
    whatever happened afterwards, and none when the run failed before. *)
Theorem engine_closed_exactly_once (rt : Runtime) (w : World)
    (topic totalDurationSeconds rawCookies socketId : JSValue) :
  let tr := run_trace rt w topic totalDurationSeconds rawCookies socketId in
  count is_close tr = count is_launched tr /\ count is_launched tr <= 1.
Proof.
  intros tr. subst tr.
  destruct (run_trace_summary rt w topic totalDurationSeconds rawCookies socketId)
    as (r & st & tail & _ & Hsum & -> & Htail & _ & Hclose).
  destruct Hsum as (_ & _ & Hc & Hl & _).
  destruct (exit_counts _ Htail) as (_ & Hl' & _).
  rewrite !count_app, Hc, Hl, Hl', Hclose.
  destruct (is_Some_b (browser st)); lia.
Qed.

(** C2: every run emits exactly one terminal event, a [detoxComplete] or a
    [detoxError], whatever it logged before. *)
Theorem exactly_one_terminal_event (rt : Runtime) (w : World)
    (topic totalDurationSeconds rawCookies socketId : JSValue) :
  let tr := run_trace rt w topic totalDurationSeconds rawCookies socketId in
  count is_detoxComplete tr + count is_detoxError tr = 1.
Proof.
  intros tr. subst tr.
  destruct (run_trace_summary rt w topic totalDurationSeconds rawCookies socketId)
    as (r & st & tail & _ & Hsum & -> & Htail & Herr & _).
  destruct Hsum as (He & Hc & _).
  destruct (exit_counts _ Htail) as (Hc' & _).
  rewrite !count_app, He, Hc, Hc', Herr.
  destruct (is_ok r); lia.
Qed.

(** C5: in a run whose resolver returned an empty sequence,
    [puppeteer.launch] is never called and exactly one [detoxError] is
    emitted (and no [detoxComplete]). *)
Theorem empty_resolution_fails_before_launch (rt : Runtime) (w : World)
    (topic totalDurationSeconds rawCookies socketId : JSValue) :
  let tr := run_trace rt w topic totalDurationSeconds rawCookies socketId in
  In (Ok []) (resolved tr) ->
  count is_launch tr = 0 /\ count is_detoxError tr = 1 /\ count is_detoxComplete tr = 0.
Proof.
  intros tr. subst tr.
  destruct (run_trace_summary rt w topic totalDurationSeconds rawCookies socketId)
    as (r & st & tail & _ & Hsum & -> & Htail & Herr & _).
  destruct Hsum as (He & Hc & _ & _ & Hres & _).
  destruct (exit_counts _ Htail) as (Hc' & _ & Hl').
  destruct (exit_observations _ Htail) as (Hr' & _).
  unfold resolved. rewrite omap_app. fold (resolved (trace st)) (resolved tail).
  rewrite Hr', app_nil_r. intros [Hl Hr]%Hres.
  rewrite !count_app, He, Hc, Hc', Herr, Hl, Hl', Hr. repeat split.
Qed.

(* ===================================================================== *)
(** ** Navigation failure *)
(* ===================================================================== *)

(** C6: when the second navigation to a content page of a run over five
    resolved videos throws, the run visited the first video and tried the
    second one, once, and nothing after it; it emits exactly one
    [detoxError] and no [detoxComplete], and closes the engine exactly
    once. *)
Theorem navigation_failure_aborts (rt : Runtime) (w : World)
    (topic totalDurationSeconds rawCookies socketId : JSValue)
    (v1 v2 v3 v4 v5 url message : string) :
  let tr := run_trace rt w topic totalDurationSeconds rawCookies socketId in
  In (Ok [v1; v2; v3; v4; v5]) (resolved tr) ->
  nth_error (visits tr) 1 = Some (url, Throw message) ->
  visits tr = [visited v1; (videoUrl v2, Throw message)]
  /\ count is_detoxError tr = 1
  /\ count is_detoxComplete tr = 0
  /\ count is_close tr = 1.
Proof.
  intros tr. subst tr.
  destruct (run_trace_summary rt w topic totalDurationSeconds rawCookies socketId)
    as (r & st & tail & _ & Hsum & -> & Htail & Herr & Hclose).
  destruct Hsum as (He & Hc & Hcl & _ & _ & Hvis & Hb).
  destruct (exit_counts _ Htail) as (Hc' & _ & _).
  destruct (exit_observations _ Htail) as (Hr' & Hv' & _).
  unfold resolved, visits. rewrite !omap_app.
  fold (resolved (trace st)) (resolved tail) (visits (trace st)) (visits tail).
  rewrite Hr', Hv', !app_nil_r. intros Hres Hnth.
  specialize (Hvis _ Hres).
  assert (Hshape : visits (trace st) = [visited v1; (videoUrl v2, Throw message)]
                   /\ is_ok r = false).
  { destruct Hvis as [[k Hk]|(k & v & m & -> & Hv & Hk)]; rewrite Hk in Hnth.
    - exfalso. destruct k as [|[|[|[|[|k]]]]]; simpl in Hnth; discriminate.
    - destruct k as [|[|[|[|[|k]]]]]; simpl in Hv, Hnth; try discriminate.
      injection Hv as <-. injection Hnth as <- <-.
      rewrite Hk. split; reflexivity. }
  destruct Hshape as [Hshape Hr].
  split; [exact Hshape|].
  rewrite !count_app, He, Hc, Hcl, Hc', Herr, Hclose, Hr.
  rewrite Hb by (rewrite Hshape; discriminate).
  repeat split.
Qed.

(* ===================================================================== *)
(** ** The time budget *)
(* ===================================================================== *)

(** The loop stops at the first test that finds the budget used up. *)
Lemma watchLoop_done (rt : Runtime) (w : World) (sid : JSValue) (T : float)
    (cnt i : nat) (ids : list string) (wt : float) (st : State) :
  PrimFloat.leb T wt = true ->
  watchLoop rt w sid T cnt i ids wt st = (Ok wt, st).
Proof. intros H. destruct ids; simpl; [|rewrite H]; reflexivity. Qed.

(** One iteration of the loop, when there is budget left. *)
Lemma watchLoop_next (rt : Runtime) (w : World) (sid : JSValue) (T : float)
    (cnt i : nat) (v : string) (rest : list string) (wt : float) :
  PrimFloat.leb T wt = false ->
  watchLoop rt w sid T cnt i (v :: rest) wt
  = (let d := Math_min MIN_WATCH_TIME_PER_VIDEO_MS (T - wt)%float in
     emitLog sid
       ("Watching video " ++ pretty (i + 1)%nat ++ "/" ++ pretty cnt ++ " for "
          ++ toFixed1 (Number_toString rt) (d / 1000)%float ++ "s.") None ;;
     call (fun h => page_goto w h (videoUrl v) 60000) (Goto (videoUrl v) 60000) ;;
     act (Sleep d) ;;
     watchLoop rt w sid T cnt (S i) rest (wt + d)%float)%run.
Proof. intros H. simpl. rewrite H. reflexivity. Qed.

Lemma run_trace_of_body (rt : Runtime) (w : World) (topic dur raw sid : JSValue)
    (r : Result unit) (st : State) :
  runBody rt w topic dur raw sid start = (r, st) ->
  exists tail,
    run_trace rt w topic dur raw sid = (trace st ++ tail)%list
    /\ forallb exit_action tail = true
    /\ count is_detoxError tail = (if is_ok r then 0 else 1).
Proof.
  intros Hrun. eexists. split; [apply (run_trace_decompose _ _ _ _ _ _ _ _ Hrun)|].
  rewrite forallb_app, count_app.
  destruct (catch_facts sid r) as (-> & -> & _).
  match goal with |- context [cleanup_trace w ?b ?h] =>
    destruct (cleanup_facts w b h) as (-> & -> & _) end.
  split; [reflexivity|lia].
Qed.

(** C4: a run with a total duration of 0 navigates to no content page and
    dwells on none; and when it gets past the login probe (so its resolved
    list is not empty) it emits [detoxComplete] with a total of 0.0s, and
    no [detoxError]. *)
Theorem zero_duration_completes_at_once (rt : Runtime) (w : World)
    (topic rawCookies socketId : JSValue) (isLoggedIn : bool) :
  let tr := run_trace rt w topic (JNum 0) rawCookies socketId in
  visits tr = []
  /\ dwells tr = []
  /\ (In (Ok isLoggedIn) (login_probes tr) ->
      completions tr = ["Detox session finished. Total time simulated: 0.0s."]
      /\ count is_detoxError tr = 0).
Proof.
  intros tr. subst tr.
  destruct (runBody_cases rt w topic (JNum 0) rawCookies socketId)
    as [(m & st & Hrun & Hearly & _ & _ & Hprobe)
       |(cookies & ids & b & l & n & Hids & [= <-] & Hrun)].
  - destruct (run_trace_of_body _ _ _ _ _ _ _ _ Hrun) as (tail & -> & Htail & _).
    destruct (exit_observations _ Htail) as (_ & Hv & Hp & Hd & _).
    unfold login_probes, visits, dwells. rewrite !omap_app.
    fold (login_probes (trace st)) (login_probes tail)
      (visits (trace st)) (visits tail) (dwells (trace st)) (dwells tail).
    rewrite Hp, Hv, Hd, (early_visits _ Hearly), (early_dwells _ Hearly), !app_nil_r.
    split; [reflexivity|]. split; [reflexivity|].
    intros H%Hprobe. discriminate.
  - unfold watchAndComplete in Hrun.
    unfold bind at 1 in Hrun. rewrite watchLoop_done in Hrun by reflexivity.
    unfold emit, act in Hrun. cbn [trace browser] in Hrun.
    destruct (run_trace_of_body _ _ _ _ _ _ _ _ Hrun) as (tail & -> & Htail & Hte).
    cbn [trace is_ok] in *.
    destruct (exit_observations _ Htail) as (_ & Hv & _ & Hd & Hc).
    destruct (prelude_facts topic socketId cookies ids b l) as (Hpre & _).
    pose proof (early_counts _ Hpre) as (He & _).
    pose proof (early_visits _ Hpre) as Hpv.
    pose proof (early_dwells _ Hpre) as Hpd.
    pose proof (early_completions _ Hpre) as Hpc.
    revert Hpre He Hpv Hpd Hpc.
    generalize (prelude_trace topic socketId cookies ids b l) as pre.
    intros pre Hpre He Hpv Hpd Hpc.
    unfold visits, dwells, completions in *. rewrite !omap_app, !count_app.
    fold visits dwells completions in *.
    rewrite Hv, Hd, Hc, Hpv, Hpd, Hpc, He, Hte.
    repeat split.
Qed.

(** A run that got past the login probe with a duration that converts to
    a number went on to its watch loop over the list the resolver gave. *)
Lemma run_reaches_loop (rt : Runtime) (w : World) (topic dur raw sid : JSValue)
    (isLoggedIn : bool) (ids : list string) :
  let tr := run_trace rt w topic dur raw sid in
  In (Ok isLoggedIn) (login_probes tr) ->
  In (Ok ids) (resolved tr) ->
  is_ok (ToNumber rt dur) = true ->
  exists cookies b l n,
    ToNumber rt dur = Ok n
    /\ runBody rt w topic dur raw sid start
       = watchAndComplete rt w sid n ids
           (mkState (Some b) (prelude_trace topic sid cookies ids b l)).
Proof.
  intros tr Hprobe Hres Hnum. subst tr.
  destruct (runBody_cases rt w topic dur raw sid)
    as [(m & st & Hrun & _ & _ & _ & Hp)
       |(cookies & ids' & b & l & n & Hids & Hn & Hrun)].
  - exfalso.
    destruct (run_trace_of_body _ _ _ _ _ _ _ _ Hrun) as (tail & Htr & Htail & _).
    destruct (exit_observations _ Htail) as (_ & _ & Hpt & _).
    rewrite Htr in Hprobe. unfold login_probes in Hprobe. rewrite omap_app in Hprobe.
    fold (login_probes (trace st)) (login_probes tail) in Hprobe.
    rewrite Hpt, app_nil_r in Hprobe. apply Hp in Hprobe. congruence.
  - exists cookies, b, l, n. split; [exact Hn|].
    enough (ids' = ids) as <- by exact Hrun.
    destruct (runBody rt w topic dur raw sid start) as [r st] eqn:Hbody.
    destruct (run_trace_of_body _ _ _ _ _ _ _ _ Hbody) as (tail & Htr & Htail & _).
    destruct (exit_observations _ Htail) as (Hrt & _).
    rewrite Htr in Hres. clear Htr Hprobe.
    destruct (prelude_facts topic sid cookies ids' b l) as (_ & _ & Hrp & _).
    remember (prelude_trace topic sid cookies ids' b l) as pre eqn:Hpre. clear Hpre.
    unfold watchAndComplete, bind in Hrun.
    destruct (watchLoop _ _ _ _ _ _ _ _ _) as [rl st'] eqn:Hloop.
    apply watchLoop_spec in Hloop as (delta & -> & Hdelta & _).
    pose proof (loop_resolved _ Hdelta) as Hrd.
    assert (Hst : resolved (trace st) = [Ok ids']).
    { destruct rl; unfold emit, act in Hrun; cbn [trace browser] in Hrun;
        injection Hrun as _ ->; cbn [trace];
        unfold resolved in *; rewrite ?omap_app, Hrp, Hrd; reflexivity. }
    unfold resolved in *. rewrite omap_app, Hst, Hrt in Hres.
    destruct Hres as [[= ->]|[]]. reflexivity.
Qed.

(** The watch loop with a budget of 65 seconds over at least four videos:
    unless a navigation throws, it visits the first three videos and
    dwells 30000, 30000 and 5000 ms. *)
Lemma watchLoop_65 (rt : Runtime) (w : World) (sid : JSValue) (cnt : nat)
    (v1 v2 v3 v4 : string) (rest : list string) (st0 : State) :
  match watchLoop rt w sid (65 * 1000)%float cnt 0 (v1 :: v2 :: v3 :: v4 :: rest)
          0%float st0 with
  | (r, st) =>
      exists delta,
        st = mkState (browser st0) (trace st0 ++ delta)
        /\ forallb loop_action delta = true
        /\ ((exists url m, In (url, Throw m) (visits delta))
            \/ (visits delta = [visited v1; visited v2; visited v3]
                /\ dwells delta = [30000; 30000; 5000]%float))
  end.
Proof.
  rewrite watchLoop_next by reflexivity. cbv zeta.
  step_act. step_call u1 m.
  2: { eexists [_; _]. rewrite <- !app_assoc. split; [reflexivity|].
       split; [reflexivity|]. left. exists (videoUrl v1), m.
       left. reflexivity. }
  rewrite bind_act; cbn [trace browser].
  rewrite watchLoop_next by reflexivity. cbv zeta.
  step_act. step_call u2 m.
  2: { eexists [_; _; _; _; _]. rewrite <- !app_assoc. split; [reflexivity|].
       split; [reflexivity|]. left. exists (videoUrl v2), m.
       cbn -[starts_with]. rewrite !starts_with_videoUrl. right. left. reflexivity. }
  rewrite bind_act; cbn [trace browser].
  rewrite watchLoop_next by reflexivity. cbv zeta.
  step_act. step_call u3 m.
  2: { eexists [_; _; _; _; _; _; _; _]. rewrite <- !app_assoc. split; [reflexivity|].
       split; [reflexivity|]. left. exists (videoUrl v3), m.
       cbn -[starts_with]. rewrite !starts_with_videoUrl. right. right. left.
       reflexivity. }
  rewrite bind_act; cbn [trace browser].
  rewrite watchLoop_done by reflexivity.
  eexists [_; _; _; _; _; _; _; _; _]. rewrite <- !app_assoc. split; [reflexivity|].
  split; [reflexivity|]. right.
  destruct u1, u2, u3. cbn -[starts_with]. rewrite !starts_with_videoUrl.
  split; reflexivity.
Qed.

(** C3: a run with a total duration of 65 seconds whose resolver returned
    at least four videos, that got past the login probe and in which no
    navigation to a content page threw, visits exactly the first three
    videos, in order, and dwells 30000, 30000 and 5000 ms on them. *)
Theorem budget_65_visits_three (rt : Runtime) (w : World)
    (topic rawCookies socketId : JSValue)
    (v1 v2 v3 v4 : string) (rest : list string) (isLoggedIn : bool) :
  let tr := run_trace rt w topic (JNum 65) rawCookies socketId in
  In (Ok (v1 :: v2 :: v3 :: v4 :: rest)) (resolved tr) ->
  In (Ok isLoggedIn) (login_probes tr) ->
  (forall url message, ~ In (url, Throw message) (visits tr)) ->
  visits tr = [visited v1; visited v2; visited v3]
  /\ dwells tr = [30000; 30000; 5000]%float.
Proof.
  intros tr Hres Hprobe. subst tr.
  destruct (run_reaches_loop _ _ _ _ _ _ _ _ Hprobe Hres eq_refl)
    as (cookies & b & l & n & [= <-] & Hrun).
  clear Hres Hprobe.
  destruct (prelude_facts topic socketId cookies (v1 :: v2 :: v3 :: v4 :: rest) b l)
    as (Hpre & _).
  pose proof (early_visits _ Hpre) as Hpv.
  pose proof (early_dwells _ Hpre) as Hpd.
  remember (prelude_trace topic socketId cookies (v1 :: v2 :: v3 :: v4 :: rest) b l)
    as pre eqn:E.
  clear E Hpre.
  unfold watchAndComplete, bind in Hrun.
  pose proof (watchLoop_65 rt w socketId (length (v1 :: v2 :: v3 :: v4 :: rest))
                v1 v2 v3 v4 rest (mkState (Some b) pre)) as Hloop.
  destruct (watchLoop _ _ _ _ _ _ _ _ _) as [rl st'].
  destruct Hloop as (delta & -> & Hdelta & Hvis).
  assert (Htr : exists tail,
             run_trace rt w topic (JNum 65) rawCookies socketId
             = (pre ++ delta ++ tail)%list
             /\ visits tail = [] /\ dwells tail = []).
  { destruct rl as [wt|m]; unfold emit, act in Hrun; cbn [trace browser] in Hrun;
      destruct (run_trace_of_body _ _ _ _ _ _ _ _ Hrun) as (tail & -> & Htail & _);
      destruct (exit_observations _ Htail) as (_ & Hv & _ & Hd & _);
      cbn [trace]; rewrite <- ?app_assoc; eexists; (split; [reflexivity|]);
      unfold visits, dwells in *; rewrite ?omap_app, Hv, Hd; split; reflexivity. }
  destruct Htr as (tail & -> & Hvt & Hdt).
  unfold visits, dwells in *. rewrite !omap_app. fold visits dwells in *.
  rewrite Hpv, Hpd, Hvt, Hdt, !app_nil_r. cbn [app].
  intros Hok. destruct Hvis as [(url & m & Hin)|[Hv Hd]].
  - exfalso. exact (Hok url m Hin).
  - split; assumption.
Qed.

(* ===================================================================== *)
(** ** Failure of the credential step *)
(* ===================================================================== *)

(** A run whose credential step throws: one log line, then the error on
    the console and to the subscriber, and nothing else. *)
Lemma run_trace_bad_credentials (rt : Runtime) (w : World)
    (topic dur raw sid : JSValue) (m : string) :
  parseCookies rt raw = Throw m ->
  run_trace rt w topic dur raw sid
  = [Emit sid (log "Validating authentication data..." "status-in-progress");
     ConsoleError [JStr "Puppeteer Automation Failed:"; JStr m];
     Emit sid (detoxError m)].
Proof.
  intros H. unfold run_trace, runDetoxAutomation, try_catch_finally, runBody, start.
  step_act. rewrite H, bind_lift_throw. reflexivity.
Qed.

Lemma normalizeCookie_steps_ok (cookie : JSValue) :
  normalizeCookie_steps cookie = Ok (normalizeCookie cookie).
Proof.
  unfold normalizeCookie_steps, normalizeCookie, normalizeSameSite. cbv zeta.
  match goal with |- context [getProp ?m "sameSite"] =>
    destruct (getProp m "sameSite") as [| |b|x|t|l|o] eqn:Hs end;
    cbn [ToBoolean is_string is_nullish andb call_toLowerCase string_of];
    rewrite ?andb_false_r; try reflexivity.
  destruct (negb (String.eqb t EmptyString)); cbn [andb]; [|reflexivity].
  destruct (String.eqb (toLowerCase t) "no_restriction"); [reflexivity|].
  destruct (negb _ && negb _ && negb _); reflexivity.
Qed.

Lemma Array_map_not_array {B} (f : JSValue -> B) (v : JSValue) :
  (forall l, v <> JArr l) ->
  exists message,
    Array_map f v = Throw message /\ In message mapTypeErrors
    /\ InvalidCredentialFormat message = false.
Proof.
  intros Hv. destruct v as [| |b|x|t|l|o]; try (exfalso; apply (Hv l); reflexivity);
    eexists; (split; [reflexivity|]); (split; [simpl; tauto|reflexivity]).
Qed.

(** C9, amended: the credential step fails with [InvalidCredentialFormat]
    exactly when the blob is absent (falsy) or is not JSON.  JSON that is
    not an array fails too, but with the [TypeError] of [cookies.map], and
    these are all the failures: any JSON array is accepted, whatever its
    elements are, and gives them normalized one by one.  The callback never
    throws, the one call in it that could being guarded; and when the step
    fails, the run reports that error to the subscriber and does nothing
    else. *)
Theorem parseCookies_total (rt : Runtime) (rawCookies : JSValue) :
  ((exists message, parseCookies rt rawCookies = Throw message
                    /\ InvalidCredentialFormat message = true)
   <-> ToBoolean rawCookies = false \/ JSON_parse rt rawCookies = None)
  /\ (forall v, ToBoolean rawCookies = true -> JSON_parse rt rawCookies = Some v ->
        (forall l, v <> JArr l) ->
        exists message,
          parseCookies rt rawCookies = Throw message /\ In message mapTypeErrors
          /\ InvalidCredentialFormat message = false)
  /\ (forall l, ToBoolean rawCookies = true ->
        JSON_parse rt rawCookies = Some (JArr l) ->
        parseCookies rt rawCookies = Ok (map normalizeCookie l))
  /\ (forall cookie, normalizeCookie_steps cookie = Ok (normalizeCookie cookie))
  /\ (forall w topic totalDurationSeconds socketId message,
        parseCookies rt rawCookies = Throw message ->
        run_trace rt w topic totalDurationSeconds rawCookies socketId
        = [Emit socketId (log "Validating authentication data..." "status-in-progress");
           ConsoleError [JStr "Puppeteer Automation Failed:"; JStr message];
           Emit socketId (detoxError message)]).
Proof.
  split; [|split; [|split; [|split]]].
  - unfold parseCookies.
    destruct (ToBoolean rawCookies); cbn [negb].
    2:{ split; [tauto|]. intros _. eexists. split; reflexivity. }
    destruct (JSON_parse rt rawCookies) as [v|].
    2:{ split; [tauto|]. intros _. eexists. split; reflexivity. }
    split; [|intros [H|H]; discriminate H].
    intros (message & Hthrow & Hkind). exfalso.
    destruct v as [| |b|x|t|l|o]; try discriminate Hthrow;
      injection Hthrow as <-; discriminate Hkind.
  - intros v Ht Hv Hnot. unfold parseCookies. rewrite Ht, Hv. cbn [negb].
    apply Array_map_not_array, Hnot.
  - unfold parseCookies. intros l -> ->. reflexivity.
  - apply normalizeCookie_steps_ok.
  - intros w topic dur sid m H. apply run_trace_bad_credentials, H.
Qed.

Lemma parseCookies_total_witness :
  parseCookies cookieRuntime (JStr exportedCookies)
  = Ok [normalizeCookie sessionCookie; normalizeCookie persistentCookie]
  /\ (exists message,
        parseCookies jsonRuntime (JStr "{}") = Throw message
        /\ In message mapTypeErrors /\ InvalidCredentialFormat message = false).
Proof.
  split.
  - apply (proj1 (proj2 (proj2 (parseCookies_total cookieRuntime (JStr exportedCookies))))
             [sessionCookie; persistentCookie]); reflexivity.
  - apply (proj1 (proj2 (parseCookies_total jsonRuntime (JStr "{}"))) (JObj ∅));
      [reflexivity|reflexivity|discriminate].
Defined.

(** C9 as stated fails in both of its readings of a blob that is not a
    sequence of entry records: the array of a number, a string and [null]
    holds no entry record and is accepted, each element giving an entry;
    and the empty object is no sequence and fails, but with the
    [TypeError] of [cookies.map], which is no [InvalidCredentialFormat]. *)
Lemma credential_format_counterexample :
  entry_records (JSON_parse jsonRuntime (JStr mixedBlob)) = false
  /\ parseCookies jsonRuntime (JStr mixedBlob)
     = Ok [∅; {[ "0" := JStr "a"; "1" := JStr "b" ]}; ∅]
  /\ entry_records (JSON_parse jsonRuntime (JStr "{}")) = false
  /\ parseCookies jsonRuntime (JStr "{}") = Throw "cookies.map is not a function"
  /\ InvalidCredentialFormat "cookies.map is not a function" = false.
Proof.
  split; [reflexivity|]. split; [vm_compute; reflexivity|].
  split; [reflexivity|]. split; reflexivity.
Qed.

(* ===================================================================== *)
(** ** The theorems at sample inputs *)
(* ===================================================================== *)


Lemma budget_65_visits_three_witness :
  let tr := run_trace sampleRuntime (sampleWorld ["a"; "b"; "c"; "d"; "e"] None)
              (JStr "rust") (JNum 65) (JStr "[]") (JStr "s1") in
  visits tr = [visited "a"; visited "b"; visited "c"]
  /\ dwells tr = [30000; 30000; 5000]%float.
Proof.
  apply (budget_65_visits_three sampleRuntime
           (sampleWorld ["a"; "b"; "c"; "d"; "e"] None)
           (JStr "rust") (JStr "[]") (JStr "s1") "a" "b" "c" "d" ["e"] true).
  - vm_compute. left. reflexivity.
  - vm_compute. left. reflexivity.
  - intros url message H. vm_compute in H.
    destruct H as [H|[H|[H|[]]]]; discriminate H.
Defined.

Lemma zero_duration_completes_at_once_witness :
  let tr := run_trace sampleRuntime (sampleWorld ["a"; "b"] None)
              (JStr "rust") (JNum 0) (JStr "[]") (JStr "s1") in
  In (Ok true) (login_probes tr)
  /\ completions tr = ["Detox session finished. Total time simulated: 0.0s."]
  /\ count is_detoxError tr = 0.
Proof.
  intros tr.
  assert (H : In (Ok true) (login_probes tr)) by (vm_compute; left; reflexivity).
  split; [exact H|].
  apply (proj2 (proj2 (zero_duration_completes_at_once sampleRuntime
                         (sampleWorld ["a"; "b"] None)
                         (JStr "rust") (JStr "[]") (JStr "s1") true)) H).
Defined.

Lemma empty_resolution_fails_before_launch_witness :
  let tr := run_trace sampleRuntime (sampleWorld [] None)
              (JStr "rust") (JNum 60) (JStr "[]") (JStr "s1") in
  count is_launch tr = 0 /\ count is_detoxError tr = 1 /\ count is_detoxComplete tr = 0.
Proof.
  apply (empty_resolution_fails_before_launch sampleRuntime (sampleWorld [] None)
           (JStr "rust") (JNum 60) (JStr "[]") (JStr "s1")).
  vm_compute. left. reflexivity.
Defined.

Lemma navigation_failure_aborts_witness :
  let tr := run_trace sampleRuntime (sampleWorld ["a"; "b"; "c"; "d"; "e"] (Some "b"))
              (JStr "rust") (JNum 300) (JStr "[]") (JStr "s1") in
  visits tr = [visited "a"; (videoUrl "b", Throw "net::ERR_CONNECTION_RESET")]
  /\ count is_detoxError tr = 1
  /\ count is_detoxComplete tr = 0
  /\ count is_close tr = 1.
Proof.
  apply (navigation_failure_aborts sampleRuntime
           (sampleWorld ["a"; "b"; "c"; "d"; "e"] (Some "b"))
           (JStr "rust") (JNum 300) (JStr "[]") (JStr "s1")
           "a" "b" "c" "d" "e" (videoUrl "b") "net::ERR_CONNECTION_RESET").
  - vm_compute. left. reflexivity.
  - vm_compute. reflexivity.
Defined.

(* ===================================================================== *)
(** ** More on credential normalization *)
(* ===================================================================== *)

Lemma normalizeCookie_lookup_other (cookie : JSValue) (k : string) :
  k <> "storeId" -> k <> "id" -> k <> "expirationDate" -> k <> "sameSite" ->
  normalizeCookie cookie !! k = spread cookie !! k.
Proof.
  intros H1 H2 H3 H4. unfold normalizeCookie.
  rewrite normalizeSameSite_other by exact H4.
  destruct (ToBoolean _); rewrite !lookup_delete_ne by congruence; reflexivity.
Qed.

Lemma normalizeCookie_session (cookie : JSValue) :
  getProp (delete "id" (delete "storeId" (spread cookie))) "session"
  = getProp (spread cookie) "session".
Proof. unfold getProp. rewrite !lookup_delete_ne by discriminate. reflexivity. Qed.

(** X1: the normalization keeps what it has no reason to remove: every property
    other than [storeId], [id], [expirationDate] and [sameSite] is copied
    unchanged, and [expirationDate] is kept as it is when [session] is
    falsy. *)
Theorem normalizeCookie_preserves (cookie : JSValue) :
  (forall k, ~ In k ["storeId"; "id"; "expirationDate"; "sameSite"] ->
     normalizeCookie cookie !! k = spread cookie !! k)
  /\ (ToBoolean (getProp (spread cookie) "session") = false ->
      normalizeCookie cookie !! "expirationDate" = spread cookie !! "expirationDate").
Proof.
  split.
  - intros k Hk. simpl in Hk.
    apply normalizeCookie_lookup_other; intros ->; apply Hk; auto.
  - intros Hs. unfold normalizeCookie.
    rewrite normalizeCookie_session, Hs.
    rewrite normalizeSameSite_other by discriminate.
    rewrite !lookup_delete_ne by discriminate. reflexivity.
Qed.

Lemma normalizeCookie_preserves_witness :
  ToBoolean (getProp (spread persistentCookie) "session") = false
  /\ normalizeCookie persistentCookie !! "expirationDate" = Some (JNum 1893456000)
  /\ normalizeCookie persistentCookie !! "name" = Some (JStr "PREF").
Proof.
  destruct (normalizeCookie_preserves persistentCookie) as [Hk He].
  split; [reflexivity|]. split.
  - rewrite (He eq_refl). reflexivity.
  - rewrite (Hk "name"); [reflexivity|]. simpl. intuition discriminate.
Defined.

Lemma normalizeSameSite_cases (m : JSObject) :
  normalizeSameSite m = m
  \/ normalizeSameSite m = delete "sameSite" m
  \/ normalizeSameSite m = <["sameSite" := JStr "None"]> m.
Proof.
  unfold normalizeSameSite.
  repeat match goal with |- context [if ?c then _ else _] => destruct c end; auto.
Qed.

Lemma normalizeSameSite_idempotent (m : JSObject) :
  normalizeSameSite (normalizeSameSite m) = normalizeSameSite m.
Proof.
  destruct (normalizeSameSite_cases m) as [H|[H|H]]; rewrite H.
  - exact H.
  - unfold normalizeSameSite, getProp. rewrite lookup_delete_eq. simpl.
    apply delete_delete_eq.
  - unfold normalizeSameSite, getProp. rewrite lookup_insert_eq. reflexivity.
Qed.

(** X2: normalizing a normalized entry changes nothing. *)
Theorem normalizeCookie_idempotent (cookie : JSValue) :
  normalizeCookie (JObj (normalizeCookie cookie)) = normalizeCookie cookie.
Proof.
  set (m := normalizeCookie cookie).
  assert (H1 : m !! "storeId" = None).
  { subst m. unfold normalizeCookie. rewrite normalizeSameSite_other by discriminate.
    destruct (ToBoolean _); rewrite ?lookup_delete_ne by discriminate;
      apply lookup_delete_eq. }
  assert (H2 : m !! "id" = None).
  { subst m. unfold normalizeCookie. rewrite normalizeSameSite_other by discriminate.
    destruct (ToBoolean _); rewrite ?lookup_delete_ne by discriminate;
      apply lookup_delete_eq. }
  assert (H3 : getProp m "session" = getProp (spread cookie) "session").
  { subst m. unfold getProp. rewrite normalizeCookie_lookup_other by discriminate.
    reflexivity. }
  assert (H4 : ToBoolean (getProp (spread cookie) "session") = true ->
               m !! "expirationDate" = None).
  { intros Hs. subst m. unfold normalizeCookie.
    rewrite normalizeCookie_session, Hs.
    rewrite normalizeSameSite_other by discriminate. apply lookup_delete_eq. }
  unfold normalizeCookie at 1. cbn [spread].
  rewrite (delete_id m "storeId" H1), (delete_id m "id" H2), H3.
  assert (Hm : (if ToBoolean (getProp (spread cookie) "session")
                then delete "expirationDate" m else m) = m).
  { destruct (ToBoolean _); [|reflexivity]. apply delete_id, H4. reflexivity. }
  rewrite Hm. subst m. unfold normalizeCookie.
  apply normalizeSameSite_idempotent.
Qed.

(* ===================================================================== *)
(** ** The content resolver *)
(* ===================================================================== *)

Section ApiFacts.

Import YoutubeApi.

Variable ToString_other : JSValue -> Result string.
Variable API_KEY : JSValue.
Variable axios_get : string -> JSObject -> Settled.

Let run := YoutubeApi.getCuratedVideoIds ToString_other API_KEY axios_get.

(** Once the filter has gone through, the map cannot throw, and together
    they keep the truthy ids in order. *)
Lemma filter_then_map (l kept : list JSValue) :
  filterItems l = Ok kept -> mapItems kept = Ok (omap keptId l).
Proof.
  revert kept. induction l as [|item rest IH]; intros kept; simpl.
  - intros [= <-]. reflexivity.
  - unfold keptId. destruct (videoIdOf item) as [v|m] eqn:Hv; simpl; [|discriminate].
    destruct (filterItems rest) as [kept'|m]; simpl; [|discriminate].
    intros [= <-]. specialize (IH kept' eq_refl).
    destruct (ToBoolean v); simpl; [|exact IH].
    rewrite Hv. simpl. rewrite IH. reflexivity.
Qed.

Lemma filterItems_readable (l : list JSValue) :
  Forall (fun item => is_ok (videoIdOf item) = true) l ->
  exists kept, filterItems l = Ok kept.
Proof.
  induction 1 as [|item rest Hitem _ [kept IH]]; simpl; [eexists; reflexivity|].
  destruct (videoIdOf item); [|discriminate]. simpl. rewrite IH. simpl.
  eexists. reflexivity.
Qed.

Lemma keptId_truthy (l : list JSValue) :
  Forall (fun v => ToBoolean v = true) (omap keptId l).
Proof.
  induction l as [|item rest IH]; simpl; [constructor|].
  unfold keptId at 1. destruct (videoIdOf item) as [v|]; [|exact IH].
  destruct (ToBoolean v) eqn:Hv; [|exact IH]. constructor; assumption.
Qed.

Lemma keptId_length (l : list JSValue) : length (omap keptId l) <= length l.
Proof.
  induction l as [|item rest IH]; [simpl; lia|].
  change (omap keptId (item :: rest))
    with (match keptId item with
          | Some v => v :: omap keptId rest
          | None => omap keptId rest
          end).
  destruct (keptId item); simpl; lia.
Qed.

Lemma responseIds_ok (response : JSValue) (ids : list JSValue) :
  responseIds response = Ok ids ->
  exists data items l,
    member response "data" = Ok data /\ member data "items" = Ok items
    /\ items = JArr l /\ ids = omap keptId l.
Proof.
  unfold responseIds.
  destruct (member response "data") as [data|] eqn:Hd; simpl; [|discriminate].
  destruct (member data "items") as [items|] eqn:Hi; simpl; [|discriminate].
  destruct items as [| | | | |l|]; simpl; try discriminate.
  destruct (filterItems l) as [kept|] eqn:Hf; simpl; [|discriminate].
  rewrite (filter_then_map _ _ Hf). intros [= <-].
  exists data, (JArr l), l. repeat split; assumption.
Qed.

(** X3: the module never asks the network without a key: a falsy key ends the
    call with the missing-key error before anything else happens; and what
    it sends is at most one request, to the search endpoint, with that
    key. *)
Theorem api_key_guards_request (topic : JSValue) :
  (ToBoolean API_KEY = false ->
     run topic = mkApiRun [] [] (Throw missingKeyMessage))
  /\ length (requests (run topic)) <= 1
  /\ (forall url params, In (url, params) (requests (run topic)) ->
        ToBoolean API_KEY = true /\ url = YOUTUBE_SEARCH_URL
        /\ params !! "key" = Some API_KEY).
Proof.
  subst run. unfold YoutubeApi.getCuratedVideoIds.
  destruct (ToBoolean API_KEY); simpl.
  2: { repeat split; try lia. all: contradiction. }
  split; [discriminate|].
  unfold tryBlock. destruct (ToString ToString_other topic) as [t|m]; simpl.
  2: { destruct (catchBlock _ _) as [out r]. simpl. split; [lia|]. contradiction. }
  assert (Hsent : forall o,
    requests (match o with
              | Returned output videoIds =>
                  mkApiRun [(YOUTUBE_SEARCH_URL, searchParams API_KEY (t ++ " tutorial long form"))]
                    output (Ok videoIds)
              | Raised error =>
                  let '(output, r) := catchBlock ToString_other error in
                  mkApiRun [(YOUTUBE_SEARCH_URL, searchParams API_KEY (t ++ " tutorial long form"))]
                    output r
              end)
    = [(YOUTUBE_SEARCH_URL, searchParams API_KEY (t ++ " tutorial long form"))]).
  { intros [out ids|error]; [reflexivity|].
    destruct (catchBlock ToString_other error). reflexivity. }
  rewrite Hsent. simpl. split; [lia|].
  intros url params [[= <- <-]|[]]. repeat split.
Qed.

(** What the call evaluates to once the key is there and the topic has a
    string form [t]: the one request, then the [try] block's outcome. *)
Lemma run_with_key (topic : JSValue) (t : string) :
  ToBoolean API_KEY = true ->
  ToString ToString_other topic = Ok t ->
  let sent := [(YOUTUBE_SEARCH_URL, searchParams API_KEY (t ++ " tutorial long form"))] in
  run topic
  = match axios_get YOUTUBE_SEARCH_URL (searchParams API_KEY (t ++ " tutorial long form")) with
    | Rejected error =>
        let '(output, r) := catchBlock ToString_other error in mkApiRun sent output r
    | Fulfilled response =>
        match responseIds response with
        | Throw m =>
            let '(output, r) := catchBlock ToString_other (TypeError m) in
            mkApiRun sent output r
        | Ok videoIds =>
            mkApiRun sent
              [ConsoleLog
                 [JStr ("[YouTube API] Found " ++ pretty (length videoIds)
                          ++ " long videos for topic " ++ dquote ++ t ++ dquote ++ ".")]]
              (Ok videoIds)
        end
    end.
Proof.
  intros Hkey Ht sent. subst run sent. unfold YoutubeApi.getCuratedVideoIds.
  rewrite Hkey. simpl. unfold tryBlock. rewrite Ht.
  destruct (axios_get _ _) as [response|error]; [|reflexivity].
  destruct (responseIds response); reflexivity.
Qed.

(** A [TypeError] raised in the [try] block is logged by its message and
    replaced by the generic error. *)
Lemma catchBlock_TypeError (m : string) :
  catchBlock ToString_other (TypeError m)
  = ([ConsoleError [JStr ("[YouTube API] FAILED: " ++ m)]], Throw fetchFailedMessage).
Proof. reflexivity. Qed.

(** X4: given a key and a response whose [data.items] is an array of items
    that each have an [id], the call returns the [videoId] of the items
    that have a truthy one, in the order of the response, after one
    request and one console line. *)
Theorem api_returns_kept_ids (topic : JSValue) (t : string)
    (response data : JSObject) (items : list JSValue) :
  ToBoolean API_KEY = true ->
  ToString ToString_other topic = Ok t ->
  axios_get YOUTUBE_SEARCH_URL (searchParams API_KEY (t ++ " tutorial long form"))
  = Fulfilled (JObj response) ->
  response !! "data" = Some (JObj data) ->
  data !! "items" = Some (JArr items) ->
  Forall (fun item => is_ok (videoIdOf item) = true) items ->
  run topic
  = mkApiRun
      [(YOUTUBE_SEARCH_URL, searchParams API_KEY (t ++ " tutorial long form"))]
      [ConsoleLog
         [JStr ("[YouTube API] Found " ++ pretty (length (omap keptId items))
                  ++ " long videos for topic " ++ dquote ++ t ++ dquote ++ ".")]]
      (Ok (omap keptId items)).
Proof.
  intros Hkey Ht Hget Hdata Hitems Hread.
  rewrite (run_with_key topic t Hkey Ht). cbv zeta. rewrite Hget.
  assert (Hids : responseIds (JObj response) = Ok (omap keptId items)).
  { unfold responseIds, member, getProp. rewrite Hdata. simpl. rewrite Hitems. simpl.
    destruct (filterItems_readable items Hread) as [kept Hkept].
    rewrite Hkept. simpl. apply filter_then_map, Hkept. }
  rewrite Hids. reflexivity.
Qed.

(** X5: whatever the network answers, the ids the call returns are all truthy,
    and they are the kept ids of the items of a response that arrived: no
    more of them than items, in the same order. *)
Theorem api_ids_truthy (topic : JSValue) (videoIds : list JSValue) :
  result (run topic) = Ok videoIds ->
  Forall (fun videoId => ToBoolean videoId = true) videoIds
  /\ exists url params response data items,
       requests (run topic) = [(url, params)]
       /\ axios_get url params = Fulfilled response
       /\ member response "data" = Ok data
       /\ member data "items" = Ok (JArr items)
       /\ videoIds = omap keptId items
       /\ length videoIds <= length items.
Proof.
  subst run. unfold YoutubeApi.getCuratedVideoIds.
  destruct (ToBoolean API_KEY); simpl; [|discriminate].
  unfold tryBlock. destruct (ToString ToString_other topic) as [t|m]; simpl.
  2: { unfold catchBlock. destruct (andThen _ _); discriminate. }
  destruct (axios_get _ _) as [response|error] eqn:Hget.
  2: { unfold catchBlock. destruct (andThen _ _); discriminate. }
  destruct (responseIds response) as [ids|m] eqn:Hids; simpl.
  2: { discriminate. }
  intros [= <-].
  destruct (responseIds_ok _ _ Hids) as (data & items & l & Hd & Hi & -> & ->).
  split; [apply keptId_truthy|].
  eexists _, _, response, data, l. split; [reflexivity|].
  repeat split; try assumption. apply keptId_length.
Qed.

(** X6: a rejected request whose error is an object from which a message
    can be read and printed is reported as the generic error, after one
    console line with that message, so that the cause reaches the console
    only.  The message is the error's own [message] when the error has no
    truthy [response], and the [message] of [response.data.error] when the
    error has a [response] whose [data] and [data.error] are objects.
    Other rejections can escape the [catch] block, as X8 shows. *)
Theorem api_rejection_masked (topic : JSValue) (t s : string) (e : JSObject)
    (v : JSValue) :
  ToBoolean API_KEY = true ->
  ToString ToString_other topic = Ok t ->
  axios_get YOUTUBE_SEARCH_URL (searchParams API_KEY (t ++ " tutorial long form"))
  = Rejected (JObj e) ->
  (ToBoolean (getProp e "response") = false /\ v = getProp e "message")
  \/ (exists r d x, e !! "response" = Some (JObj r) /\ r !! "data" = Some (JObj d)
                    /\ d !! "error" = Some (JObj x) /\ v = getProp x "message") ->
  ToString ToString_other v = Ok s ->
  run topic
  = mkApiRun
      [(YOUTUBE_SEARCH_URL, searchParams API_KEY (t ++ " tutorial long form"))]
      [ConsoleError [JStr ("[YouTube API] FAILED: " ++ s)]]
      (Throw fetchFailedMessage).
Proof.
  intros Hkey Ht Hget Hshape Hs.
  rewrite (run_with_key topic t Hkey Ht). cbv zeta. rewrite Hget.
  assert (Hm : errorMessageOf (JObj e) = Ok v).
  { unfold errorMessageOf, member. simpl.
    destruct Hshape as [[Hr ->]|(r & d & x & Hr & Hd & Hx & ->)].
    - rewrite Hr. reflexivity.
    - unfold getProp. rewrite Hr. simpl. rewrite Hd. simpl. rewrite Hx. reflexivity. }
  unfold catchBlock. rewrite Hm. simpl. rewrite Hs. reflexivity.
Qed.

(** X7: a response from which the ids cannot be read (no [data], [items] that
    is not an array, an item that is [null] or has no [id]) is reported as
    the same generic error, after one console line with the message of the
    [TypeError]. *)
Theorem api_malformed_response_masked (topic : JSValue) (t m : string)
    (response : JSValue) :
  ToBoolean API_KEY = true ->
  ToString ToString_other topic = Ok t ->
  axios_get YOUTUBE_SEARCH_URL (searchParams API_KEY (t ++ " tutorial long form"))
  = Fulfilled response ->
  responseIds response = Throw m ->
  run topic
  = mkApiRun
      [(YOUTUBE_SEARCH_URL, searchParams API_KEY (t ++ " tutorial long form"))]
      [ConsoleError [JStr ("[YouTube API] FAILED: " ++ m)]]
      (Throw fetchFailedMessage).
Proof.
  intros Hkey Ht Hget Hids.
  rewrite (run_with_key topic t Hkey Ht). cbv zeta. rewrite Hget, Hids.
  rewrite catchBlock_TypeError. reflexivity.
Qed.

(** X8: a rejected request whose error has a [response] without [data] makes
    the [catch] block itself throw: the call ends with that [TypeError],
    logs nothing, and the generic error is not produced. *)
Theorem api_bodyless_error_escapes (topic : JSValue) (t : string) (e r : JSObject) :
  ToBoolean API_KEY = true ->
  ToString ToString_other topic = Ok t ->
  axios_get YOUTUBE_SEARCH_URL (searchParams API_KEY (t ++ " tutorial long form"))
  = Rejected (JObj e) ->
  e !! "response" = Some (JObj r) ->
  r !! "data" = None ->
  run topic
  = mkApiRun
      [(YOUTUBE_SEARCH_URL, searchParams API_KEY (t ++ " tutorial long form"))]
      []
      (Throw "Cannot read properties of undefined (reading 'error')").
Proof.
  intros Hkey Ht Hget Hr Hd.
  rewrite (run_with_key topic t Hkey Ht). cbv zeta. rewrite Hget.
  unfold catchBlock, errorMessageOf, member, getProp. rewrite Hr. simpl.
  rewrite Hd. reflexivity.
Qed.

End ApiFacts.

Lemma api_key_guards_request_witness :
  YoutubeApi.getCuratedVideoIds sampleToString JUndefined
    (fun _ _ => YoutubeApi.Fulfilled (JObj sampleResponse)) (JStr "rust")
  = YoutubeApi.mkApiRun [] [] (Throw YoutubeApi.missingKeyMessage).
Proof.
  apply (proj1 (api_key_guards_request sampleToString JUndefined
                  (fun _ _ => YoutubeApi.Fulfilled (JObj sampleResponse)) (JStr "rust"))).
  reflexivity.
Defined.

Lemma api_returns_kept_ids_witness :
  YoutubeApi.result
    (YoutubeApi.getCuratedVideoIds sampleToString (JStr "key")
       (fun _ _ => YoutubeApi.Fulfilled (JObj sampleResponse)) (JStr "rust"))
  = Ok [JStr "a1"; JStr "b2"].
Proof.
  rewrite (api_returns_kept_ids sampleToString (JStr "key")
             (fun _ _ => YoutubeApi.Fulfilled (JObj sampleResponse)) (JStr "rust")
             "rust" sampleResponse {[ "items" := JArr sampleItems ]} sampleItems).
  - reflexivity.
  - reflexivity.
  - reflexivity.
  - reflexivity.
  - reflexivity.
  - reflexivity.
  - repeat constructor.
Defined.

Lemma api_ids_truthy_witness :
  Forall (fun videoId => ToBoolean videoId = true) [JStr "a1"; JStr "b2"].
Proof.
  apply (api_ids_truthy sampleToString (JStr "key")
           (fun _ _ => YoutubeApi.Fulfilled (JObj sampleResponse)) (JStr "rust")
           [JStr "a1"; JStr "b2"]).
  reflexivity.
Defined.

Lemma api_rejection_masked_witness :
  YoutubeApi.getCuratedVideoIds sampleToString (JStr "key")
    (fun _ _ => YoutubeApi.Rejected (JObj networkError)) (JStr "rust")
  = YoutubeApi.mkApiRun
      [(YoutubeApi.YOUTUBE_SEARCH_URL,
        YoutubeApi.searchParams (JStr "key") "rust tutorial long form")]
      [ConsoleError [JStr "[YouTube API] FAILED: timeout of 0ms exceeded"]]
      (Throw YoutubeApi.fetchFailedMessage).
Proof.
  apply (api_rejection_masked sampleToString (JStr "key")
           (fun _ _ => YoutubeApi.Rejected (JObj networkError)) (JStr "rust")
           "rust" "timeout of 0ms exceeded" networkError
           (JStr "timeout of 0ms exceeded")).
  - reflexivity.
  - reflexivity.
  - reflexivity.
  - left. split; reflexivity.
  - reflexivity.
Defined.

Lemma api_malformed_response_masked_witness :
  YoutubeApi.getCuratedVideoIds sampleToString (JStr "key")
    (fun _ _ => YoutubeApi.Fulfilled (JObj {[ "data" := JObj ∅ ]})) (JStr "rust")
  = YoutubeApi.mkApiRun
      [(YoutubeApi.YOUTUBE_SEARCH_URL,
        YoutubeApi.searchParams (JStr "key") "rust tutorial long form")]
      [ConsoleError
         [JStr "[YouTube API] FAILED: Cannot read properties of undefined (reading 'filter')"]]
      (Throw YoutubeApi.fetchFailedMessage).
Proof.
  apply (api_malformed_response_masked sampleToString (JStr "key")
           (fun _ _ => YoutubeApi.Fulfilled (JObj {[ "data" := JObj ∅ ]})) (JStr "rust")
           "rust" "Cannot read properties of undefined (reading 'filter')"
           (JObj {[ "data" := JObj ∅ ]})); reflexivity.
Defined.

Lemma api_bodyless_error_escapes_witness :
  YoutubeApi.result
    (YoutubeApi.getCuratedVideoIds sampleToString (JStr "key")
       (fun _ _ => YoutubeApi.Rejected (JObj bodylessError)) (JStr "rust"))
  = Throw "Cannot read properties of undefined (reading 'error')".
Proof.
  rewrite (api_bodyless_error_escapes sampleToString (JStr "key")
             (fun _ _ => YoutubeApi.Rejected (JObj bodylessError)) (JStr "rust")
             "rust" bodylessError ∅); reflexivity.
Defined.

(* ===================================================================== *)
(** ** The shape of a run *)
(* ===================================================================== *)

Lemma watchLoop_trace (rt : Runtime) (w : World) (sid : JSValue) (T : float) (cnt : nat)
    (ids : list string) :
  forall (i : nat) (wt : float) (st : State) (r : Result float) (st' : State),
  watchLoop rt w sid T cnt i ids wt st = (r, st') ->
  exists delta,
    st' = mkState (browser st) (trace st ++ delta) /\ loop_trace sid ids r delta.
Proof.
  induction ids as [|v rest IH]; intros i wt st r st' Hrun.
  - injection Hrun as <- <-. exists []. rewrite app_nil_r.
    destruct st; split; [reflexivity|constructor].
  - simpl in Hrun. destruct (PrimFloat.leb T wt).
    + injection Hrun as <- <-. exists []. rewrite app_nil_r.
      destruct st; split; [reflexivity|constructor].
    + unfold bind at 1 in Hrun. unfold emitLog, emit, act at 1 in Hrun.
      unfold bind at 1 in Hrun. unfold call at 1 in Hrun. simpl in Hrun.
      destruct (page_goto _ _ _ _) as [[]|m] eqn:Hgoto.
      * unfold bind at 1 in Hrun. unfold act at 1 in Hrun. simpl in Hrun.
        apply IH in Hrun as (delta & -> & Hdelta).
        eexists (_ :: _ :: _ :: delta). split.
        -- simpl. rewrite <- !app_assoc. reflexivity.
        -- apply loop_visit, Hdelta.
      * injection Hrun as <- <-. eexists [_; _]. split.
        -- simpl. rewrite <- !app_assoc. reflexivity.
        -- apply loop_abort.
Qed.

(** Closes the case of a run whose credential step threw. *)
Ltac stop_parse :=
  left; eexists _, _; split; [reflexivity|];
  exists [], [], BrowserHandle, true, 1; cbv zeta;
  split; [lia|]; split; [reflexivity|]; left; repeat split; assumption.

(** Closes the case of a run in which the call at position [k] threw. *)
Ltac stop_call k cookies ids b l :=
  left; eexists _, _; split; [reflexivity|];
  exists cookies, ids, b, l, k; cbv zeta;
  split; [lia|]; split; [reflexivity|]; right; split; [assumption|];
  right; right; eexists; split; [reflexivity|]; split; [reflexivity|];
  split; [intros; try discriminate; try lia|reflexivity].

Lemma runBody_shape (rt : Runtime) (w : World) (topic dur raw sid : JSValue) :
  (exists m st, runBody rt w topic dur raw sid start = (Throw m, st)
                /\ early_shape rt topic dur raw sid m st)
  \/ (exists cookies ids b l n,
        ids <> [] /\ ToNumber rt dur = Ok n /\ parseCookies rt raw = Ok cookies
        /\ runBody rt w topic dur raw sid start
           = watchAndComplete rt w sid n ids
               (mkState (Some b) (prelude_trace topic sid cookies ids b l))).
Proof.
  unfold runBody, start.
  step_act.
  destruct (parseCookies rt raw) as [cookies|m] eqn:Hc;
    [rewrite bind_lift_ok | rewrite bind_lift_throw; stop_parse].
  step_act.
  step_call ids m; [|stop_call 2 cookies (@nil string) BrowserHandle true].
  destruct ids as [|v ids']; cbn [length Nat.eqb]; [rewrite bind_throw | rewrite bind_ret].
  { left. eexists _, _. split; [reflexivity|].
    exists cookies, [], BrowserHandle, true, 3. cbv zeta.
    split; [lia|]. split; [reflexivity|]. right. split; [assumption|].
    left. repeat split. }
  step_act.
  step_call b m; [|stop_call 4 cookies (v :: ids') BrowserHandle true].
  rewrite bind_set_browser; cbn [trace browser].
  step_call u1 m; [destruct u1|stop_call 5 cookies (v :: ids') b true].
  step_call u2 m; [destruct u2|stop_call 6 cookies (v :: ids') b true].
  step_act.
  step_call u3 m; [destruct u3|stop_call 8 cookies (v :: ids') b true].
  step_act.
  step_call u4 m; [destruct u4|stop_call 10 cookies (v :: ids') b true].
  step_call isLoggedIn m; [|stop_call 11 cookies (v :: ids') b true].
  assert (Hlog : forall (k : unit -> M unit) st,
    bind (if negb isLoggedIn
          then emitLog sid "WARNING: Login verification failed. Cookies may be expired."
                 (Some "status-error")
          else emitLog sid "SUCCESS: Login confirmed." (Some "status-success")) k st
    = k tt (mkState (browser st)
              (trace st ++
               [if negb isLoggedIn
                then Emit sid (log "WARNING: Login verification failed. Cookies may be expired."
                                   "status-error")
                else Emit sid (log "SUCCESS: Login confirmed." "status-success")])))
    by (intros k st; destruct isLoggedIn; reflexivity).
  rewrite Hlog; clear Hlog; cbn [trace browser app].
  destruct (ToNumber rt dur) as [n|m] eqn:Hn;
    [rewrite bind_lift_ok | rewrite bind_lift_throw].
  - right. exists cookies, (v :: ids'), b, isLoggedIn, n.
    split; [discriminate|]. repeat split; reflexivity || assumption.
  - left. eexists _, _. split; [reflexivity|].
    exists cookies, (v :: ids'), b, isLoggedIn, 13. cbv zeta.
    split; [lia|]. split; [reflexivity|]. right. split; [assumption|].
    right. left. repeat split; try assumption. discriminate.
Qed.

(** The trace of a whole run: that of its [try] block, which stopped early
    or went through the prelude and a stretch of the watch loop, then what
    the [catch] and [finally] blocks add. *)
Lemma run_shape (rt : Runtime) (w : World) (topic dur raw sid : JSValue) :
  exists r st,
    run_trace rt w topic dur raw sid
    = (trace st ++ catch_trace sid r
         ++ cleanup_trace w (browser st) (trace st ++ catch_trace sid r))%list
    /\ ((exists m, r = Throw m /\ early_shape rt topic dur raw sid m st)
        \/ (exists cookies ids b l n rl delta,
              ids <> [] /\ ToNumber rt dur = Ok n /\ parseCookies rt raw = Ok cookies
              /\ loop_trace sid ids rl delta
              /\ r = body_result rl
              /\ browser st = Some b
              /\ trace st = (prelude_trace topic sid cookies ids b l ++ delta
                               ++ completion rt sid rl)%list)).
Proof.
  destruct (runBody_shape rt w topic dur raw sid)
    as [(m & st & Hrun & Hearly)
       |(cookies & ids & b & l & n & Hids & Hn & Hc & Hrun)].
  - exists (Throw m), st. split; [apply (run_trace_decompose _ _ _ _ _ _ _ _ Hrun)|].
    left. exists m. split; [reflexivity|exact Hearly].
  - unfold watchAndComplete, bind in Hrun.
    destruct (watchLoop _ _ _ _ _ _ _ _ _) as [rl st'] eqn:Hloop.
    apply watchLoop_trace in Hloop as (delta & -> & Hdelta).
    cbn [trace browser] in Hrun.
    destruct rl as [wt|m]; unfold emit, act in Hrun; cbn [trace browser] in Hrun;
      eexists _, _; (split; [apply (run_trace_decompose _ _ _ _ _ _ _ _ Hrun)|]);
      right; exists cookies, ids, b, l, n.
    + exists (Ok wt), delta. cbn [trace browser completion body_result].
      rewrite <- app_assoc. repeat split; assumption.
    + exists (Throw m), delta. cbn [trace browser completion body_result].
      rewrite app_nil_r. repeat split; assumption.
Qed.

(* ===================================================================== *)
(** ** The order of the engine calls *)
(* ===================================================================== *)

Lemma engine_run_app (s : EngineState) (tr1 tr2 : Trace) :
  engine_run s (tr1 ++ tr2)
  = match engine_run s tr1 with
    | Some s' => engine_run s' tr2
    | None => None
    end.
Proof.
  revert s. induction tr1 as [|a tr1 IH]; intros s; simpl; [reflexivity|].
  destruct (engine_step s a); [apply IH|reflexivity].
Qed.

Lemma engine_run_loop (sid : JSValue) (ids : list string) (r : Result float)
    (delta : Trace) :
  loop_trace sid ids r delta -> engine_run CookiesSet delta = Some CookiesSet.
Proof. induction 1; simpl; auto. Qed.

Lemma engine_run_catch (s : EngineState) (sid : JSValue) (r : Result unit) :
  engine_run s (catch_trace sid r) = Some s.
Proof. destruct r; reflexivity. Qed.

Lemma engine_run_completion (s : EngineState) (rt : Runtime) (sid : JSValue)
    (r : Result float) :
  engine_run s (completion rt sid r) = Some s.
Proof. destruct r; reflexivity. Qed.

Lemma engine_run_cleanup (s : EngineState) (w : World) (b : option Browser) (h : Trace) :
  in_use s = is_Some_b b ->
  s <> Closed ->
  exists s', engine_run s (cleanup_trace w b h) = Some s' /\ in_use s' = false.
Proof.
  intros Hs Hc. destruct b as [b|]; simpl in *.
  - destruct s; try discriminate; destruct (browser_close w h);
      simpl; eexists; split; reflexivity.
  - exists s. split; [reflexivity|exact Hs].
Qed.

(** Goes through the positions of the prelude at which a call can have
    thrown. *)
Ltac by_position :=
  unfold prelude_trace in *;
  repeat match goal with
         | H : nth_error _ ?k = Some _ |- _ => is_var k; destruct k; simpl in H
         | H : Some _ = Some _ |- _ => injection H as <-
         | H : None = Some _ |- _ => discriminate H
         end;
  try match goal with
      | H : is_call _ = true |- _ => simpl in H; discriminate H
      end.

Lemma early_engine (rt : Runtime) (topic dur raw sid : JSValue) (m : string) (st : State) :
  early_shape rt topic dur raw sid m st ->
  exists s, engine_run NotLaunched (trace st) = Some s
            /\ in_use s = is_Some_b (browser st) /\ s <> Closed.
Proof.
  intros (cookies & ids & b & l & k & Hk & Hb & Hshape). cbv zeta in *.
  rewrite Hb. clear Hb.
  destruct Hshape as [H1|[_ [H3|[H13|H]]]].
  - destruct H1 as (-> & _ & ->).
    destruct l; simpl; eexists; (split; [reflexivity|]);
      (split; [reflexivity|discriminate]).
  - destruct H3 as (-> & _ & _ & ->).
    destruct l; simpl; eexists; (split; [reflexivity|]);
      (split; [reflexivity|discriminate]).
  - destruct H13 as (-> & _ & _ & ->).
    destruct l; simpl; eexists; (split; [reflexivity|]);
      (split; [reflexivity|discriminate]).
  - destruct H as (a & Ha & Hcall & _ & ->).
    destruct l; by_position;
      simpl; eexists; (split; [reflexivity|]); (split; [reflexivity|discriminate]).
Qed.

(** X9: every run drives the engine in order and leaves it released: a page
    is opened only on a browser that was launched, the user agent and the
    cookies are set only on an open page, every navigation and the login
    probe come after the cookies were accepted, nothing is asked of the
    engine after [close], and at the end the engine is either closed or
    was never launched. *)
Theorem engine_calls_in_order (rt : Runtime) (w : World)
    (topic totalDurationSeconds rawCookies socketId : JSValue) :
  exists s,
    engine_run NotLaunched
      (run_trace rt w topic totalDurationSeconds rawCookies socketId) = Some s
    /\ in_use s = false.
Proof.
  destruct (run_shape rt w topic totalDurationSeconds rawCookies socketId)
    as (r & st & -> & [(m & -> & Hearly)
                      |(cookies & ids & b & l & n & rl & delta
                        & _ & _ & _ & Hloop & -> & Hb & Htr)]).
  - destruct (early_engine _ _ _ _ _ _ _ Hearly) as (s & Hs & Huse & Hc).
    rewrite engine_run_app, Hs.
    rewrite engine_run_app, engine_run_catch.
    apply engine_run_cleanup; assumption.
  - rewrite Htr, Hb.
    assert (Hpre : engine_run NotLaunched (prelude_trace topic socketId cookies ids b l)
                   = Some CookiesSet) by (destruct l; reflexivity).
    rewrite <- !app_assoc.
    rewrite engine_run_app, Hpre.
    rewrite engine_run_app, (engine_run_loop _ _ _ _ Hloop).
    rewrite engine_run_app, engine_run_completion.
    rewrite engine_run_app, engine_run_catch.
    apply engine_run_cleanup; [reflexivity|discriminate].
Qed.

(* ===================================================================== *)
(** ** What a run sends, and to whom *)
(* ===================================================================== *)

(** Splits the early stop of a run into its cases, each with its trace
    written out. *)
Ltac early_cases H :=
  let cookies := fresh "cookies" in
  let ids := fresh "ids" in
  let b := fresh "b" in
  let l := fresh "l" in
  let k := fresh "k" in
  let Hk := fresh "Hk" in
  let Hb := fresh "Hb" in
  let Hc := fresh "Hc" in
  let Htr := fresh "Htr" in
  let a := fresh "a" in
  let Ha := fresh "Ha" in
  let Hcall := fresh "Hcall" in
  let Hids := fresh "Hids" in
  let Hn := fresh "Hn" in
  destruct H as (cookies & ids & b & l & k & Hk & Hb & H); cbv zeta in *;
  destruct H as [H|[Hc [H|[H|H]]]];
  [ destruct H as (-> & Hc & Htr)
  | destruct H as (-> & -> & -> & Htr)
  | destruct H as (-> & Hids & Hn & Htr)
  | destruct H as (a & Ha & Hcall & Hids & Htr); by_position ];
  unfold prelude_trace in Htr; simpl in Hb, Htr; destruct l.

Lemma loop_observed (sid : JSValue) (ids : list string) (r : Result float)
    (delta : Trace) :
  loop_trace sid ids r delta ->
  Forall (fun s => s = sid) (recipients delta)
  /\ failures delta = match r with Ok _ => [] | Throw m => [m] end
  /\ reported delta = []
  /\ cookies_sent delta = []
  /\ resolved delta = []
  /\ login_probes delta = []
  /\ completions delta = []
  /\ count is_close delta = 0
  /\ count is_launch delta = 0
  /\ count is_detoxComplete delta = 0
  /\ count is_detoxError delta = 0.
Proof.
  induction 1 as [ids wt|v rest message x r delta _ IH|v rest message m].
  - repeat split; constructor.
  - destruct IH as (H1 & H2 & H3 & H4 & H5 & H6 & H7 & H8 & H9 & H10 & H11).
    cbn -[starts_with Math_min]. repeat split; try assumption.
    constructor; [reflexivity|assumption].
  - cbn -[starts_with]. repeat split. constructor; [reflexivity|constructor].
Qed.

Lemma tail_observed (w : World) (sid : JSValue) (r : Result unit)
    (b : option Browser) (h : Trace) :
  let tail := (catch_trace sid r ++ cleanup_trace w b h)%list in
  Forall (fun s => s = sid) (recipients tail)
  /\ failures tail = []
  /\ reported tail = match r with Ok _ => [] | Throw m => [m] end
  /\ cookies_sent tail = []
  /\ resolved tail = []
  /\ login_probes tail = []
  /\ visits tail = []
  /\ dwells tail = []
  /\ completions tail = [].
Proof.
  destruct r as [u|m], b as [b|]; simpl;
    try destruct (browser_close w h); simpl;
    repeat split; repeat constructor.
Qed.

(** X10: every event of a run goes to the subscriber the run was started for. *)
Theorem emits_only_to_subscriber (rt : Runtime) (w : World)
    (topic totalDurationSeconds rawCookies socketId : JSValue) :
  Forall (fun s => s = socketId)
    (recipients (run_trace rt w topic totalDurationSeconds rawCookies socketId)).
Proof.
  destruct (run_shape rt w topic totalDurationSeconds rawCookies socketId)
    as (r & st & -> & [(m & -> & Hearly)
                      |(cookies & ids & b & l & n & rl & delta
                        & _ & _ & _ & Hloop & -> & Hb & Htr)]).
  - match goal with |- context [cleanup_trace w ?b ?h] =>
      destruct (tail_observed w socketId (Throw m) b h) as (Ht & _) end.
    unfold recipients in *. rewrite omap_app. apply Forall_app. split; [|exact Ht].
    clear Ht. early_cases Hearly; rewrite Htr; simpl; repeat constructor.
  - match goal with |- context [cleanup_trace w ?b ?h] =>
      destruct (tail_observed w socketId (body_result rl) b h) as (Ht & _) end.
    destruct (loop_observed _ _ _ _ Hloop) as (Hl & _).
    unfold recipients in *. rewrite omap_app. apply Forall_app. split; [|exact Ht].
    rewrite Htr, !omap_app. repeat (apply Forall_app; split).
    + destruct l; simpl; repeat constructor.
    + exact Hl.
    + destruct rl; simpl; repeat constructor.
Qed.

Lemma prelude_observed (topic sid : JSValue) (cookies : list JSObject)
    (ids : list string) (b : Browser) (l : bool) :
  let pre := prelude_trace topic sid cookies ids b l in
  failures pre = [] /\ reported pre = [] /\ cookies_sent pre = [cookies]
  /\ visits pre = [] /\ dwells pre = [] /\ completions pre = []
  /\ resolved pre = [Ok ids] /\ login_probes pre = [Ok l]
  /\ count is_launch pre = 1.
Proof. destruct l; repeat split. Qed.

Lemma completion_observed (rt : Runtime) (sid : JSValue) (r : Result float) :
  let c := completion rt sid r in
  failures c = [] /\ reported c = [] /\ cookies_sent c = []
  /\ visits c = [] /\ dwells c = [] /\ resolved c = [] /\ login_probes c = []
  /\ count is_launch c = 0.
Proof. destruct r; repeat split. Qed.

(** Rewrites an observation of a whole trace into the observations of its
    parts. *)
Ltac split_observation :=
  unfold failures, reported, cookies_sent, visits, dwells, completions, resolved,
    login_probes, recipients, logged in *;
  rewrite ?omap_app in *;
  fold failures reported cookies_sent visits dwells completions resolved
    login_probes recipients logged in *.

(** X11: at most one call of the resolver or the engine throws in a run (the
    close apart), and the message of the one that throws is the message of
    the one [detoxError] the subscriber gets. *)
Theorem failure_reported_verbatim (rt : Runtime) (w : World)
    (topic totalDurationSeconds rawCookies socketId : JSValue) :
  let tr := run_trace rt w topic totalDurationSeconds rawCookies socketId in
  length (failures tr) <= 1
  /\ (forall message, In message (failures tr) -> reported tr = [message]).
Proof.
  intros tr. subst tr.
  destruct (run_shape rt w topic totalDurationSeconds rawCookies socketId)
    as (r & st & -> & [(m & -> & Hearly)
                      |(cookies & ids & b & l & n & rl & delta
                        & _ & _ & _ & Hloop & -> & Hb & Htr)]).
  - match goal with |- context [cleanup_trace w ?b ?h] =>
      destruct (tail_observed w socketId (Throw m) b h) as (_ & Hf & Hr & _) end.
    split_observation. rewrite Hf, Hr, !app_nil_r.
    early_cases Hearly; rewrite Htr; simpl; (split; [lia|]);
      intros message Hin; simpl in Hin; intuition congruence.
  - rewrite Htr.
    match goal with |- context [cleanup_trace w ?b ?h] =>
      destruct (tail_observed w socketId (body_result rl) b h) as (_ & Hf & Hr & _) end.
    destruct (loop_observed _ _ _ _ Hloop) as (_ & Hlf & Hlr & _).
    destruct (prelude_observed topic socketId cookies ids b l) as (Hpf & Hpr & _).
    destruct (completion_observed rt socketId rl) as (Hcf & Hcr & _).
    cbv zeta in *. split_observation.
    rewrite Hf, Hr, Hlf, Hlr, Hpf, Hpr, Hcf, Hcr.
    destruct rl as [wt|m]; simpl; (split; [lia|]).
    + intros message [].
    + intros message [<-|[]]. reflexivity.
Qed.

(* ===================================================================== *)
(** ** What reaches the engine *)
(* ===================================================================== *)

Lemma parseCookies_ok (rt : Runtime) (raw : JSValue) (cookies : list JSObject) :
  parseCookies rt raw = Ok cookies ->
  exists l, JSON_parse rt raw = Some (JArr l) /\ cookies = map normalizeCookie l.
Proof.
  unfold parseCookies. destruct (ToBoolean raw); simpl; [|discriminate].
  destruct (JSON_parse rt raw) as [[| | | | |l|]|]; simpl; try discriminate.
  intros [= <-]. exists l. split; reflexivity.
Qed.

Lemma normalizeCookie_no_identity (cookie : JSValue) :
  normalizeCookie cookie !! "storeId" = None /\ normalizeCookie cookie !! "id" = None.
Proof.
  unfold normalizeCookie. rewrite !normalizeSameSite_other by discriminate.
  destruct (ToBoolean _); split;
    rewrite ?lookup_delete_ne by discriminate; apply lookup_delete_eq.
Qed.

Lemma sent_cookies_clean (rt : Runtime) (raw : JSValue) (cookies : list JSObject) :
  parseCookies rt raw = Ok cookies ->
  (exists l, JSON_parse rt raw = Some (JArr l) /\ cookies = map normalizeCookie l)
  /\ Forall (fun c : JSObject => c !! "storeId" = None /\ c !! "id" = None) cookies.
Proof.
  intros H. destruct (parseCookies_ok _ _ _ H) as (l & Hl & ->).
  split; [exists l; split; [exact Hl|reflexivity]|].
  clear. induction l as [|c l IH]; simpl; constructor.
  - apply normalizeCookie_no_identity.
  - apply IH.
Qed.

(** X12: what a run hands to [page.setCookie]: it calls it at most once, with
    the entries of the parsed blob normalized one by one and in order, none
    of which carries [storeId] or [id]. *)
Theorem cookies_sent_are_normalized (rt : Runtime) (w : World)
    (topic totalDurationSeconds rawCookies socketId : JSValue) :
  let tr := run_trace rt w topic totalDurationSeconds rawCookies socketId in
  length (cookies_sent tr) <= 1
  /\ (forall cookies, In cookies (cookies_sent tr) ->
        (exists l, JSON_parse rt rawCookies = Some (JArr l)
                   /\ cookies = map normalizeCookie l)
        /\ Forall (fun c : JSObject => c !! "storeId" = None /\ c !! "id" = None)
             cookies).
Proof.
  intros tr. subst tr.
  destruct (run_shape rt w topic totalDurationSeconds rawCookies socketId)
    as (r & st & -> & [(m & -> & Hearly)
                      |(cookies & ids & b & l & n & rl & delta
                        & _ & _ & Hc & Hloop & -> & Hb & Htr)]).
  - match goal with |- context [cleanup_trace w ?b ?h] =>
      destruct (tail_observed w socketId (Throw m) b h) as (_ & _ & _ & Hs & _) end.
    split_observation. rewrite Hs, !app_nil_r.
    early_cases Hearly; rewrite Htr; simpl; (split; [lia|]);
      intros c Hin; simpl in Hin;
      first [ contradiction
            | destruct Hin as [<-|[]]; apply sent_cookies_clean; assumption ].
  - rewrite Htr.
    match goal with |- context [cleanup_trace w ?b ?h] =>
      destruct (tail_observed w socketId (body_result rl) b h)
        as (_ & _ & _ & Hs & _) end.
    destruct (loop_observed _ _ _ _ Hloop) as (_ & _ & _ & Hls & _).
    destruct (prelude_observed topic socketId cookies ids b l) as (_ & _ & Hps & _).
    destruct (completion_observed rt socketId rl) as (_ & _ & Hcs & _).
    cbv zeta in *. split_observation. rewrite Hs, Hls, Hps, Hcs. simpl.
    split; [lia|]. intros c [<-|[]]. apply sent_cookies_clean, Hc.
Qed.

(* ===================================================================== *)
(** ** Visits and dwells *)
(* ===================================================================== *)

Lemma SFltb_SFleb (x y : spec_float) : SFltb x y = true -> SFleb x y = true.
Proof. unfold SFltb, SFleb. destruct (SFcompare x y) as [[]|]; congruence. Qed.

(** Against a positive finite number, a number that is not [NaN] and not
    above it is below it or equal to it. *)
Lemma SFleb_total (m0 : positive) (e0 : Z) (y : spec_float) :
  SFeqb y y = true ->
  SFltb (S754_finite false m0 e0) y = false ->
  SFleb y (S754_finite false m0 e0) = true.
Proof.
  unfold SFeqb, SFltb, SFleb.
  destruct y as [s|s| |s m e]; cbn [SFcompare]; try congruence.
  - destruct s; congruence.
  - destruct s; [reflexivity|]. intros _.
    rewrite (Z.compare_antisym e e0), (ZC4 m0 m).
    destruct (e ?= e0)%Z; cbn [CompOpp]; try congruence.
    destruct (Pos.compare_cont Eq m m0); cbn [CompOpp]; congruence.
Qed.

Lemma cap_spec :
  Prim2SF MIN_WATCH_TIME_PER_VIDEO_MS = S754_finite false 8246337208320000 (-38).
Proof. vm_compute. reflexivity. Qed.

(** [Math.min] of the cap and anything is at most the cap, or [NaN]. *)
Lemma Math_min_capped (x : float) :
  let d := Math_min MIN_WATCH_TIME_PER_VIDEO_MS x in
  PrimFloat.leb d MIN_WATCH_TIME_PER_VIDEO_MS = true \/ PrimFloat.is_nan d = true.
Proof.
  unfold Math_min.
  replace (PrimFloat.is_nan MIN_WATCH_TIME_PER_VIDEO_MS) with false by reflexivity.
  replace (PrimFloat.get_sign MIN_WATCH_TIME_PER_VIDEO_MS) with false by reflexivity.
  cbv zeta. cbn [orb].
  destruct (PrimFloat.is_nan x) eqn:Hnan; [right; reflexivity|].
  destruct (PrimFloat.ltb MIN_WATCH_TIME_PER_VIDEO_MS x) eqn:Hlt; [left; reflexivity|].
  left.
  destruct (PrimFloat.ltb x MIN_WATCH_TIME_PER_VIDEO_MS) eqn:Hgt.
  - rewrite leb_spec. rewrite ltb_spec in Hgt. apply SFltb_SFleb, Hgt.
  - rewrite leb_spec. rewrite ltb_spec in Hlt. rewrite cap_spec in *.
    apply SFleb_total; [|exact Hlt].
    unfold PrimFloat.is_nan in Hnan. rewrite FloatAxioms.eqb_spec in Hnan.
    destruct (SFeqb _ _); [reflexivity|discriminate].
Qed.

Lemma observed_visit (sid : JSValue) (message : string) (v : string) (d : float)
    (delta : Trace) :
  let block := Emit sid (log message "status-in-progress")
                 :: Goto (videoUrl v) 60000 (Ok tt) :: Sleep d :: delta in
  visits block = (videoUrl v, Ok tt) :: visits delta
  /\ visits_reached block = videoUrl v :: visits_reached delta
  /\ dwells block = d :: dwells delta.
Proof.
  cbv zeta. unfold visits, visits_reached, dwells.
  cbn -[starts_with]. rewrite starts_with_videoUrl. repeat split.
Qed.

Lemma observed_abort (sid : JSValue) (message : string) (v m : string) :
  let block := [Emit sid (log message "status-in-progress");
                Goto (videoUrl v) 60000 (Throw m)] in
  visits block = [(videoUrl v, Throw m)]
  /\ visits_reached block = [] /\ dwells block = [].
Proof.
  cbv zeta. unfold visits, visits_reached, dwells.
  cbn -[starts_with]. rewrite starts_with_videoUrl. repeat split.
Qed.

Lemma loop_visits_dwells (sid : JSValue) (ids : list string) (r : Result float)
    (delta : Trace) :
  loop_trace sid ids r delta ->
  (exists k, k <= length ids /\ map fst (visits delta) = map videoUrl (firstn k ids))
  /\ length (dwells delta) = length (visits_reached delta)
  /\ Forall capped (dwells delta)
  /\ (forall wt, r = Ok wt -> map snd (visits delta) = map (fun _ => Ok tt) (visits delta))
  /\ (forall m, r = Throw m -> exists url, In (url, Throw m) (visits delta)).
Proof.
  induction 1 as [ids wt|v rest message x r delta _ IH|v rest message m].
  - split; [exists 0; split; [simpl; lia|reflexivity]|].
    repeat split; try constructor. intros m [=].
  - destruct IH as ((k & Hk & Hv) & Hd & Hc & Hok & Hfail).
    destruct (observed_visit sid message v
                (Math_min MIN_WATCH_TIME_PER_VIDEO_MS x) delta) as (-> & -> & ->).
    split; [exists (S k); split; [simpl; lia|simpl; rewrite Hv; reflexivity]|].
    split; [simpl; rewrite Hd; reflexivity|].
    split; [constructor; [apply Math_min_capped|exact Hc]|].
    split.
    + intros wt Hr. simpl. rewrite (Hok wt Hr). reflexivity.
    + intros m Hr. destruct (Hfail m Hr) as [url Hin]. exists url. right. exact Hin.
  - destruct (observed_abort sid message v m) as (-> & -> & ->).
    split; [exists 1; split; [simpl; lia|reflexivity]|].
    repeat split; try constructor.
    + intros wt [=].
    + intros m' [= <-]. exists (videoUrl v). left. reflexivity.
Qed.

(** What the trace of a run that stopped before its watch loop shows. *)
Lemma early_observed (rt : Runtime) (topic dur raw sid : JSValue) (m : string)
    (st : State) :
  early_shape rt topic dur raw sid m st ->
  let tr := trace st in
  visits tr = [] /\ dwells tr = [] /\ visits_reached tr = [] /\ completions tr = []
  /\ reported tr = []
  /\ count is_detoxError tr = 0 /\ count is_detoxComplete tr = 0
  /\ count is_close tr = 0
  /\ forallb (fun a => negb (is_emit a) || is_log a) tr = true
  /\ (forall b, In (Ok b) (login_probes tr) ->
        is_ok (ToNumber rt dur) = false
        /\ (b = false -> In loginWarning (logged tr)))
  /\ (forall m', In (Throw m') (resolved tr) ->
        m' = m /\ count is_launch tr = 0 /\ browser st = None
        /\ tr = [Emit sid (log "Validating authentication data..." "status-in-progress");
                 Emit sid (log "Cookies parsed and normalized. Fetching video list..."
                               "status-in-progress");
                 GetCuratedVideoIds topic (Throw m)]).
Proof.
  intros H tr. subst tr.
  early_cases H; rewrite Htr; cbn -[starts_with];
    repeat match goal with |- _ /\ _ => split end; try reflexivity.
  all: intros x Hin; simpl in Hin;
    repeat match goal with
           | H : _ \/ _ |- _ => destruct H
           | H : False |- _ => destruct H
           | H : Ok _ = Throw _ |- _ => discriminate H
           | H : Throw _ = Ok _ |- _ => discriminate H
           | H : Ok _ = Ok _ |- _ => injection H as <-
           | H : Throw _ = Throw _ |- _ => injection H as <-
           end.
  all: repeat match goal with |- _ /\ _ => split end; try reflexivity;
    try assumption.
  all: try match goal with
           | H : ToNumber _ _ = Throw _ |- _ => rewrite H; reflexivity
           end.
  all: try (intros Hx; first [discriminate Hx | simpl; auto 20]).
  all: try discriminate.
Qed.

Lemma prelude_observed2 (topic sid : JSValue) (cookies : list JSObject)
    (ids : list string) (b : Browser) (l : bool) :
  let pre := prelude_trace topic sid cookies ids b l in
  visits_reached pre = []
  /\ count is_close pre = 0
  /\ count is_detoxComplete pre = 0
  /\ count is_detoxError pre = 0
  /\ forallb (fun a => negb (is_emit a) || is_log a) pre = true
  /\ (l = false -> In loginWarning (logged pre)).
Proof.
  destruct l; cbv zeta;
    repeat match goal with |- _ /\ _ => split end; try reflexivity.
  all: intros Hl; first [discriminate Hl | simpl; auto 20].
Qed.

Lemma loop_only_logs (sid : JSValue) (ids : list string) (r : Result float)
    (delta : Trace) :
  loop_trace sid ids r delta ->
  forallb (fun a => negb (is_emit a) || is_log a) delta = true.
Proof. induction 1; simpl; auto. Qed.

Lemma tail_observed2 (w : World) (sid : JSValue) (r : Result unit)
    (b : option Browser) (h : Trace) :
  let tail := (catch_trace sid r ++ cleanup_trace w b h)%list in
  visits_reached tail = []
  /\ count is_detoxComplete tail = 0
  /\ forallb (fun a => negb (is_emit a)) (cleanup_trace w b h) = true.
Proof.
  destruct r as [u|m], b as [b|]; simpl;
    try destruct (browser_close w h); simpl; repeat split.
Qed.

(** X13: a run visits the resolved videos in the order the resolver gave them,
    from the first one on, without skipping or repeating any: the pages it
    navigates to are those of a beginning of the list. *)
Theorem visits_follow_resolver_order (rt : Runtime) (w : World)
    (topic totalDurationSeconds rawCookies socketId : JSValue) (videoIds : list string) :
  let tr := run_trace rt w topic totalDurationSeconds rawCookies socketId in
  In (Ok videoIds) (resolved tr) ->
  exists k, k <= length videoIds
            /\ map fst (visits tr) = map videoUrl (firstn k videoIds).
Proof.
  intros tr. subst tr.
  destruct (run_shape rt w topic totalDurationSeconds rawCookies socketId)
    as (r & st & -> & [(m & -> & Hearly)
                      |(cookies & ids & b & l & n & rl & delta
                        & _ & _ & _ & Hloop & -> & Hb & Htr)]).
  - match goal with |- context [cleanup_trace w ?b ?h] =>
      destruct (tail_observed w socketId (Throw m) b h)
        as (_ & _ & _ & _ & _ & _ & Hv & _) end.
    destruct (early_observed _ _ _ _ _ _ _ Hearly) as (Hev & _).
    cbv zeta in *. split_observation. rewrite Hv, Hev. intros _.
    exists 0. split; [lia|reflexivity].
  - rewrite Htr.
    match goal with |- context [cleanup_trace w ?b ?h] =>
      destruct (tail_observed w socketId (body_result rl) b h)
        as (_ & _ & _ & _ & Hr & _ & Hv & _) end.
    destruct (loop_observed _ _ _ _ Hloop) as (_ & _ & _ & _ & Hlr & _).
    destruct (loop_visits_dwells _ _ _ _ Hloop) as ((k & Hk & Hlv) & _).
    destruct (prelude_observed topic socketId cookies ids b l)
      as (_ & _ & _ & Hpv & _ & _ & Hpr & _).
    destruct (completion_observed rt socketId rl) as (_ & _ & _ & Hcv & _ & Hcr & _).
    cbv zeta in *. split_observation.
    rewrite Hv, Hr, Hlr, Hpv, Hpr, Hcv, Hcr, !app_nil_r. simpl.
    intros [[= <-]|[]]. exists k. split; assumption.
Qed.

(** X14: a run dwells once on every content page it reached and on nothing
    else, and no dwell exceeds the cap of 30000 ms (a dwell is at most the
    cap, or [NaN] when the budget is). *)
Theorem dwell_per_reached_visit (rt : Runtime) (w : World)
    (topic totalDurationSeconds rawCookies socketId : JSValue) :
  let tr := run_trace rt w topic totalDurationSeconds rawCookies socketId in
  length (dwells tr) = length (visits_reached tr) /\ Forall capped (dwells tr).
Proof.
  intros tr. subst tr.
  destruct (run_shape rt w topic totalDurationSeconds rawCookies socketId)
    as (r & st & -> & [(m & -> & Hearly)
                      |(cookies & ids & b & l & n & rl & delta
                        & _ & _ & _ & Hloop & -> & Hb & Htr)]).
  - match goal with |- context [cleanup_trace w ?b ?h] =>
      destruct (tail_observed w socketId (Throw m) b h)
        as (_ & _ & _ & _ & _ & _ & _ & Hd & _);
      destruct (tail_observed2 w socketId (Throw m) b h) as (Hvr & _) end.
    destruct (early_observed _ _ _ _ _ _ _ Hearly) as (_ & Hed & Hevr & _).
    cbv zeta in *. unfold visits_reached in *. split_observation.
    rewrite ?omap_app. fold visits_reached in *.
    rewrite Hd, Hvr, Hed, Hevr. split; [reflexivity|constructor].
  - rewrite Htr.
    match goal with |- context [cleanup_trace w ?b ?h] =>
      destruct (tail_observed w socketId (body_result rl) b h)
        as (_ & _ & _ & _ & _ & _ & _ & Hd & _);
      destruct (tail_observed2 w socketId (body_result rl) b h) as (Hvr & _) end.
    destruct (loop_visits_dwells _ _ _ _ Hloop) as (_ & Hlen & Hcap & _).
    destruct (prelude_observed topic socketId cookies ids b l)
      as (_ & _ & _ & _ & Hpd & _).
    destruct (prelude_observed2 topic socketId cookies ids b l) as (Hpvr & _).
    destruct (completion_observed rt socketId rl) as (_ & _ & _ & _ & Hcd & _).
    assert (Hcvr : visits_reached (completion rt socketId rl) = [])
      by (destruct rl; reflexivity).
    cbv zeta in *. unfold visits_reached in *. split_observation.
    rewrite ?omap_app. fold visits_reached in *.
    rewrite Hd, Hvr, Hpd, Hpvr, Hcd, Hcvr, !app_nil_r. simpl.
    split; assumption.
Qed.

(** X15: the subscriber's last event is the terminal one: every event before it
    is a log line, nothing is emitted after it, and the engine is closed
    only after it. *)
Theorem terminal_event_is_last (rt : Runtime) (w : World)
    (topic totalDurationSeconds rawCookies socketId : JSValue) :
  exists before e after,
    run_trace rt w topic totalDurationSeconds rawCookies socketId
    = (before ++ Emit socketId e :: after)%list
    /\ is_detoxComplete (Emit socketId e) || is_detoxError (Emit socketId e) = true
    /\ forallb (fun a => negb (is_emit a) || is_log a) before = true
    /\ count is_close before = 0
    /\ forallb (fun a => negb (is_emit a)) after = true.
Proof.
  destruct (run_shape rt w topic totalDurationSeconds rawCookies socketId)
    as (r & st & -> & [(m & -> & Hearly)
                      |(cookies & ids & b & l & n & rl & delta
                        & _ & _ & _ & Hloop & -> & Hb & Htr)]).
  - destruct (early_observed _ _ _ _ _ _ _ Hearly)
      as (_ & _ & _ & _ & _ & _ & _ & Hclose & Hlogs & _).
    cbv zeta in *.
    match goal with |- context [cleanup_trace w ?b ?h] =>
      destruct (tail_observed2 w socketId (Throw m) b h) as (_ & _ & Hafter);
      exists (trace st ++ [ConsoleError [JStr "Puppeteer Automation Failed:"; JStr m]])%list,
        (detoxError m), (cleanup_trace w b h) end.
    split; [simpl; rewrite <- app_assoc; reflexivity|].
    split; [reflexivity|].
    rewrite forallb_app, count_app, Hlogs, Hclose. repeat split. exact Hafter.
  - rewrite Htr.
    destruct (prelude_observed2 topic socketId cookies ids b l)
      as (_ & Hpc & _ & _ & Hpl & _).
    destruct (loop_observed _ _ _ _ Hloop) as (_ & _ & _ & _ & _ & _ & _ & Hlc & _).
    pose proof (loop_only_logs _ _ _ _ Hloop) as Hll.
    cbv zeta in *.
    match goal with |- context [cleanup_trace w ?b ?h] =>
      destruct (tail_observed2 w socketId (body_result rl) b h) as (_ & _ & Hafter);
      set (after := cleanup_trace w b h) in * end.
    destruct rl as [wt|m]; cbn [completion body_result catch_trace].
    + exists (prelude_trace topic socketId cookies ids b l ++ delta)%list,
        (detoxComplete true
           ("Detox session finished. Total time simulated: "
              ++ toFixed1 (Number_toString rt) (wt / 1000)%float ++ "s.")), after.
      split; [rewrite <- !app_assoc; reflexivity|].
      split; [reflexivity|].
      rewrite forallb_app, count_app, Hpl, Hll, Hpc, Hlc. repeat split. exact Hafter.
    + exists (prelude_trace topic socketId cookies ids b l ++ delta
              ++ [ConsoleError [JStr "Puppeteer Automation Failed:"; JStr m]])%list,
        (detoxError m), after.
      split; [rewrite app_nil_r, <- !app_assoc; reflexivity|].
      split; [reflexivity|].
      rewrite !forallb_app, !count_app, Hpl, Hll, Hpc, Hlc. repeat split. exact Hafter.
Qed.

(** X16: a login probe that finds no signed-in marker does not stop the run:
    the subscriber gets the warning as a log line of type status-error,
    and when the duration is a number and no visit fails the run completes
    without a [detoxError]. *)
Theorem failed_login_check_is_not_fatal (rt : Runtime) (w : World)
    (topic totalDurationSeconds rawCookies socketId : JSValue) :
  let tr := run_trace rt w topic totalDurationSeconds rawCookies socketId in
  In (Ok false) (login_probes tr) ->
  In loginWarning (logged tr)
  /\ (is_ok (ToNumber rt totalDurationSeconds) = true ->
      (forall url m, ~ In (url, Throw m) (visits tr)) ->
      count is_detoxComplete tr = 1 /\ reported tr = []).
Proof.
  intros tr. subst tr.
  destruct (run_shape rt w topic totalDurationSeconds rawCookies socketId)
    as (r & st & -> & [(m & -> & Hearly)
                      |(cookies & ids & b & l & n & rl & delta
                        & _ & _ & _ & Hloop & -> & Hb & Htr)]).
  - match goal with |- context [cleanup_trace w ?b ?h] =>
      destruct (tail_observed w socketId (Throw m) b h)
        as (_ & _ & _ & _ & _ & Hp & _) end.
    destruct (early_observed _ _ _ _ _ _ _ Hearly)
      as (_ & _ & _ & _ & _ & _ & _ & _ & _ & Hprobe & _).
    cbv zeta in *. split_observation. rewrite Hp, app_nil_r.
    intros Hin. destruct (Hprobe _ Hin) as (Hn & Hwarn).
    split; [apply in_or_app; left; apply Hwarn; reflexivity|].
    rewrite Hn. discriminate.
  - rewrite Htr.
    match goal with |- context [cleanup_trace w ?b ?h] =>
      destruct (tail_observed w socketId (body_result rl) b h)
        as (_ & _ & Hr & _ & _ & Hp & Hv & _);
      destruct (tail_observed2 w socketId (body_result rl) b h) as (_ & Hc & _) end.
    destruct (loop_observed _ _ _ _ Hloop)
      as (_ & _ & Hlr & _ & _ & Hlp & _ & _ & _ & Hlc & _).
    destruct (loop_visits_dwells _ _ _ _ Hloop) as (_ & _ & _ & _ & Hfail).
    destruct (prelude_observed topic socketId cookies ids b l)
      as (_ & Hpr & _ & Hpv & _ & _ & _ & Hpp & _).
    destruct (prelude_observed2 topic socketId cookies ids b l)
      as (_ & _ & Hpc & _ & _ & Hwarn).
    destruct (completion_observed rt socketId rl) as (_ & Hcr & _ & Hcv & _ & _ & Hcp & _).
    cbv zeta in *. split_observation. rewrite count_app, Hc, !count_app.
    rewrite Hr, Hp, Hv, Hlr, Hlp, Hlc, Hpr, Hpv, Hpp, Hpc, Hcr, Hcv, Hcp, !app_nil_r.
    intros [[= ->]|[]]. pose proof (Hwarn eq_refl) as Hw.
    split; [rewrite !in_app_iff; tauto|].
    intros _ Hnone. destruct rl as [wt|m]; [split; reflexivity|].
    destruct (Hfail m eq_refl) as (url & Hin). destruct (Hnone url m Hin).
Qed.

(** X17: a budget that is zero or negative (a negative duration, say) visits
    nothing: the run navigates to no content page and dwells on none, and
    when it gets past the login probe it completes with a total of 0.0s. *)
Theorem nonpositive_budget_visits_nothing (rt : Runtime) (w : World)
    (topic totalDurationSeconds rawCookies socketId : JSValue) (n : float) :
  let tr := run_trace rt w topic totalDurationSeconds rawCookies socketId in
  ToNumber rt totalDurationSeconds = Ok n ->
  PrimFloat.leb (n * 1000) 0 = true ->
  visits tr = [] /\ dwells tr = []
  /\ (forall isLoggedIn, In (Ok isLoggedIn) (login_probes tr) ->
        completions tr = ["Detox session finished. Total time simulated: 0.0s."]
        /\ reported tr = []).
Proof.
  intros tr Hn Hle. subst tr.
  destruct (runBody_shape rt w topic totalDurationSeconds rawCookies socketId)
    as [(m & st & Hrun & Hearly)
       |(cookies & ids & b & l & n' & Hids & Hn' & Hc & Hrun)].
  - rewrite (run_trace_decompose _ _ _ _ _ _ _ _ Hrun).
    match goal with |- context [cleanup_trace w ?b ?h] =>
      destruct (tail_observed w socketId (Throw m) b h)
        as (_ & _ & _ & _ & _ & Hp & Hv & Hd & _) end.
    destruct (early_observed _ _ _ _ _ _ _ Hearly)
      as (Hev & Hed & _ & _ & _ & _ & _ & _ & _ & Hprobe & _).
    cbv zeta in *. split_observation. rewrite Hp, Hv, Hd, Hev, Hed, !app_nil_r.
    split; [reflexivity|]. split; [reflexivity|].
    intros isLoggedIn Hin. destruct (Hprobe _ Hin) as (Hnum & _).
    rewrite Hn in Hnum. discriminate.
  - rewrite Hn in Hn'. injection Hn' as <-.
    unfold watchAndComplete in Hrun.
    unfold bind at 1 in Hrun. rewrite watchLoop_done in Hrun by exact Hle.
    unfold emit, act in Hrun. cbn [trace browser] in Hrun.
    rewrite (run_trace_decompose _ _ _ _ _ _ _ _ Hrun). cbn [trace browser].
    match goal with |- context [cleanup_trace w ?b ?h] =>
      destruct (tail_observed w socketId (Ok tt) b h)
        as (_ & _ & Hr & _ & _ & _ & Hv & Hd & Hcm) end.
    destruct (prelude_observed topic socketId cookies ids b l)
      as (_ & Hpr & _ & Hpv & Hpd & Hpc & _).
    cbv zeta in *. split_observation.
    rewrite Hr, Hv, Hd, Hcm, Hpr, Hpv, Hpd, Hpc.
    repeat split.
Qed.

(** X18: when the content resolver throws, the run ends there: the two log
    lines, the failed call, the error on the console and one [detoxError]
    with the resolver's message; no engine is launched, so none is
    closed. *)
Theorem resolver_failure_ends_run (rt : Runtime) (w : World)
    (topic totalDurationSeconds rawCookies socketId : JSValue) (message : string) :
  let tr := run_trace rt w topic totalDurationSeconds rawCookies socketId in
  In (Throw message) (resolved tr) ->
  tr = [Emit socketId (log "Validating authentication data..." "status-in-progress");
        Emit socketId (log "Cookies parsed and normalized. Fetching video list..."
                           "status-in-progress");
        GetCuratedVideoIds topic (Throw message);
        ConsoleError [JStr "Puppeteer Automation Failed:"; JStr message];
        Emit socketId (detoxError message)].
Proof.
  intros tr. subst tr.
  destruct (run_shape rt w topic totalDurationSeconds rawCookies socketId)
    as (r & st & -> & [(m & -> & Hearly)
                      |(cookies & ids & b & l & n & rl & delta
                        & _ & _ & _ & Hloop & -> & Hb & Htr)]).
  - match goal with |- context [cleanup_trace w ?b ?h] =>
      destruct (tail_observed w socketId (Throw m) b h)
        as (_ & _ & _ & _ & Hr & _) end.
    destruct (early_observed _ _ _ _ _ _ _ Hearly)
      as (_ & _ & _ & _ & _ & _ & _ & _ & _ & _ & Hres).
    cbv zeta in *. split_observation. rewrite Hr, app_nil_r.
    intros Hin. destruct (Hres _ Hin) as (-> & _ & Hnone & Htr).
    rewrite Hnone, Htr. reflexivity.
  - rewrite Htr.
    match goal with |- context [cleanup_trace w ?b ?h] =>
      destruct (tail_observed w socketId (body_result rl) b h)
        as (_ & _ & _ & _ & Hr & _) end.
    destruct (loop_observed _ _ _ _ Hloop) as (_ & _ & _ & _ & Hlr & _).
    destruct (prelude_observed topic socketId cookies ids b l)
      as (_ & _ & _ & _ & _ & _ & Hpr & _).
    destruct (completion_observed rt socketId rl) as (_ & _ & _ & _ & _ & Hcr & _).
    cbv zeta in *. split_observation.
    rewrite Hr, Hlr, Hpr, Hcr. simpl. intros [[=]|[]].
Qed.

(* ===================================================================== *)
(** ** Runs that start after something happened *)
(* ===================================================================== *)

Section Framed.

Lemma framed_ret {A} (a : A) : framed (fun _ => ret a).
Proof. intros w h0 st. reflexivity. Qed.

Lemma framed_throw {A} (message : string) : framed (fun _ => @throw A message).
Proof. intros w h0 st. reflexivity. Qed.

Lemma framed_lift {A} (r : Result A) : framed (fun _ => lift r).
Proof. intros w h0 st. reflexivity. Qed.

Lemma framed_act (a : Action) : framed (fun _ => act a).
Proof.
  intros w h0 st. unfold act, prefixed. simpl. rewrite app_assoc. reflexivity.
Qed.

Lemma framed_emitLog (sid : JSValue) (message : string) (type : option string) :
  framed (fun _ => emitLog sid message type).
Proof. apply framed_act. Qed.

Lemma framed_set_browser (b : Browser) : framed (fun _ => set_browser b).
Proof. intros w h0 st. reflexivity. Qed.

Lemma framed_get_browser : framed (fun _ => get_browser).
Proof. intros w h0 st. reflexivity. Qed.

Lemma framed_call {A} (answer : World -> Trace -> Result A) (record : Result A -> Action) :
  (forall w h0 h, answer (shift h0 w) h = answer w (h0 ++ h)%list) ->
  framed (fun w => call (answer w) record).
Proof.
  intros Hanswer w h0 st. unfold call, prefixed. simpl.
  rewrite Hanswer, app_assoc. reflexivity.
Qed.

Lemma framed_bind {A B} (m : World -> M A) (f : World -> A -> M B) :
  framed m -> (forall a, framed (fun w => f w a)) ->
  framed (fun w => bind (m w) (f w)).
Proof.
  intros Hm Hf w h0 st. unfold bind. rewrite Hm.
  destruct (m (shift h0 w) st) as [[a|e] st']; [apply Hf|reflexivity].
Qed.

Lemma framed_try {A} (body : World -> M A) (handler : World -> string -> M A)
    (cleanup : World -> M unit) :
  framed body -> (forall e, framed (fun w => handler w e)) -> framed cleanup ->
  framed (fun w => try_catch_finally (body w) (handler w) (cleanup w)).
Proof.
  intros Hbody Hhandler Hcleanup w h0 st. unfold try_catch_finally.
  rewrite Hbody. destruct (body (shift h0 w) st) as [[a|e] st1].
  - rewrite Hcleanup. destruct (cleanup (shift h0 w) st1) as [[u|e] st2]; reflexivity.
  - rewrite Hhandler. destruct (handler (shift h0 w) e st1) as [r st2].
    rewrite Hcleanup. destruct (cleanup (shift h0 w) st2) as [[u|e'] st3]; reflexivity.
Qed.

End Framed.

(** Takes a computation apart into the steps it is made of. *)
Ltac framed_steps :=
  repeat first
    [ apply framed_emitLog | apply framed_act | apply framed_ret | apply framed_throw
    | apply framed_lift | apply framed_set_browser | apply framed_get_browser
    | apply framed_call; reflexivity
    | apply framed_bind; [|intros ?] ].

Lemma framed_watchLoop (rt : Runtime) (sid : JSValue) (T : float) (cnt : nat)
    (ids : list string) :
  forall (i : nat) (wt : float), framed (fun w => watchLoop rt w sid T cnt i ids wt).
Proof.
  induction ids as [|v rest IH]; intros i wt; cbn [watchLoop].
  - apply framed_ret.
  - destruct (PrimFloat.leb T wt); [apply framed_ret|].
    cbv zeta. framed_steps. apply IH.
Qed.

Lemma framed_runBody (rt : Runtime) (topic dur raw sid : JSValue) :
  framed (fun w => runBody rt w topic dur raw sid).
Proof.
  unfold runBody. cbv zeta. framed_steps.
  - destruct (_ =? _)%nat; framed_steps.
  - destruct (negb _); framed_steps.
  - apply framed_watchLoop.
Qed.

Lemma framed_runDetoxAutomation (rt : Runtime) (topic dur raw sid : JSValue) :
  framed (fun w => runDetoxAutomation rt w topic dur raw sid).
Proof.
  unfold runDetoxAutomation. apply framed_try.
  - apply framed_runBody.
  - intros e. framed_steps.
  - framed_steps. destruct a; framed_steps.
Qed.

(** The trace of a run that starts after [h0] happened. *)
Lemma run_after (rt : Runtime) (w : World) (topic dur raw sid : JSValue) (h0 : Trace) :
  trace (snd (runDetoxAutomation rt w topic dur raw sid (mkState None h0)))
  = (h0 ++ run_trace rt (shift h0 w) topic dur raw sid)%list.
Proof.
  pose proof (framed_runDetoxAutomation rt topic dur raw sid w h0 start) as H.
  unfold prefixed, start in H. simpl in H. rewrite app_nil_r in H. rewrite H.
  unfold run_trace, start.
  destruct (runDetoxAutomation rt (shift h0 w) _ _ _ _ _) as [r st']. reflexivity.
Qed.

(** A run sends no HTTP response. *)
Lemma run_sends_no_response (rt : Runtime) (w : World) (topic dur raw sid : JSValue) :
  responses (run_trace rt w topic dur raw sid) = [].
Proof.
  assert (Htail : forall r b h,
             responses (catch_trace sid r ++ cleanup_trace w b h) = []).
  { intros r b h. destruct r as [u|m], b as [b|]; simpl;
      try destruct (browser_close w h); reflexivity. }
  assert (Hloop : forall ids rl delta, loop_trace sid ids rl delta -> responses delta = []).
  { induction 1; simpl; auto. }
  destruct (run_shape rt w topic dur raw sid)
    as (r & st & -> & [(m & -> & Hearly)
                      |(cookies & ids & b & l & n & rl & delta
                        & _ & _ & _ & Hl & -> & Hb & Htr)]).
  - unfold responses in *. rewrite omap_app. fold responses in *.
    rewrite Htail, app_nil_r. clear Htail Hloop.
    early_cases Hearly; rewrite Htr; reflexivity.
  - rewrite Htr. unfold responses in *. rewrite omap_app, Htail, !omap_app.
    fold responses in *.
    rewrite (Hloop _ _ _ Hl). destruct l, rl; reflexivity.
Qed.

(* ===================================================================== *)
(** ** The entry operation *)
(* ===================================================================== *)

(** What the handler comes to for a request it accepts and whose
    [socketId] and [topic] convert to strings: it returns, having logged,
    answered and run. *)
Lemma detox_start_accepted (rt : Runtime) (w : World)
    (ToString_other : JSValue -> Result string) (body : JSObject) (s t : string) :
  let topic := getProp body "topic" in
  let duration := getProp body "duration" in
  let userCookies := getProp body "userCookies" in
  let socketId := getProp body "socketId" in
  ToBoolean topic = true -> ToBoolean userCookies = true -> ToBoolean socketId = true ->
  ToString ToString_other socketId = Ok s ->
  ToString ToString_other topic = Ok t ->
  fst (detox_start rt w ToString_other body start) = Ok tt
  /\ handler_trace rt w ToString_other body
     = (announcement t s
          ++ run_trace rt (shift (announcement t s) w) topic
               (if ToBoolean duration then duration else JNum 60)
               userCookies socketId)%list.
Proof.
  intros topic duration userCookies socketId Ht Hc Hs Hsid Htopic.
  subst topic duration userCookies socketId.
  unfold handler_trace, detox_start, detox_start_args. cbv zeta.
  rewrite Ht, Hc, Hs. cbn [negb orb].
  rewrite Hsid, bind_lift_ok, Htopic, bind_lift_ok.
  unfold bind, act, not_awaited, start. cbn [trace browser app fst snd].
  split; [reflexivity|]. apply run_after.
Qed.

(** C10: for a request with its required fields, whose subscriber and
    topic print, the handler calls [runDetoxAutomation] with the supplied
    duration when it is truthy and with 60 otherwise: what it does after
    its response is the run with that duration, so that a request for 0
    seconds gets the run of 60 seconds; and a request with a falsy
    duration, an explicit 0 included, is handled exactly as the same
    request with a duration of 60. *)
Theorem start_replaces_falsy_duration (rt : Runtime) (w : World)
    (ToString_other : JSValue -> Result string) (body : JSObject) (s t : string) :
  let topic := getProp body "topic" in
  let duration := getProp body "duration" in
  let userCookies := getProp body "userCookies" in
  let socketId := getProp body "socketId" in
  let passed := if ToBoolean duration then duration else JNum 60 in
  ToBoolean topic = true -> ToBoolean userCookies = true -> ToBoolean socketId = true ->
  ToString ToString_other socketId = Ok s ->
  ToString ToString_other topic = Ok t ->
  detox_start_args body = Some (topic, passed, userCookies, socketId)
  /\ handler_trace rt w ToString_other body
     = (announcement t s
          ++ run_trace rt (shift (announcement t s) w) topic passed userCookies socketId)%list
  /\ (ToBoolean duration = false ->
      handler_trace rt w ToString_other body
      = (announcement t s
           ++ run_trace rt (shift (announcement t s) w) topic (JNum 60)
                userCookies socketId)%list
      /\ forall st,
          detox_start rt w ToString_other body st
          = detox_start rt w ToString_other (<["duration" := JNum 60]> body) st).
Proof.
  intros topic duration userCookies socketId passed Ht Hc Hs Hsid Htopic.
  assert (Hargs : detox_start_args body = Some (topic, passed, userCookies, socketId)).
  { unfold detox_start_args. fold topic duration userCookies socketId.
    rewrite Ht, Hc, Hs. reflexivity. }
  pose proof (detox_start_accepted rt w ToString_other body s t Ht Hc Hs Hsid Htopic)
    as [_ Htrace].
  fold topic duration userCookies socketId passed in Htrace.
  split; [exact Hargs|]. split; [exact Htrace|].
  intros Hd. split.
  - rewrite Htrace. subst passed. rewrite Hd. reflexivity.
  - intros st. unfold detox_start. rewrite Hargs. subst passed. rewrite Hd.
    unfold detox_start_args, getProp.
    rewrite lookup_insert_eq, !lookup_insert_ne by discriminate.
    fold (getProp body "topic") (getProp body "userCookies") (getProp body "socketId").
    fold topic userCookies socketId. rewrite Ht, Hc, Hs. reflexivity.
Qed.

Lemma start_replaces_falsy_duration_witness :
  let world := sampleWorld ["a"; "b"; "c"] None in
  getProp zeroDurationBody "duration" = JNum 0
  /\ dwells (handler_trace sampleRuntime world jsonToString zeroDurationBody)
     = [30000; 30000]%float
  /\ getProp fiveSecondBody "duration" = JNum 5
  /\ dwells (handler_trace sampleRuntime world jsonToString fiveSecondBody)
     = [5000]%float.
Proof.
  intros world.
  split; [reflexivity|]. split; [|split; [reflexivity|]].
  - rewrite (proj1 (proj2 (start_replaces_falsy_duration sampleRuntime world jsonToString
                             zeroDurationBody "s1" "rust"
                             eq_refl eq_refl eq_refl eq_refl eq_refl))).
    vm_compute. reflexivity.
  - rewrite (proj1 (proj2 (start_replaces_falsy_duration sampleRuntime world jsonToString
                             fiveSecondBody "s1" "rust"
                             eq_refl eq_refl eq_refl eq_refl eq_refl))).
    vm_compute. reflexivity.
Defined.



(** X20: the handler answers a request at most once.  It answers 400, and
    does nothing else, when the topic, the cookies or the subscriber is
    falsy; it answers 200 when all three are truthy and the subscriber and
    the topic print, whatever the run then comes to; and when one of the
    two does not print, it throws before it has logged, answered or run
    anything. *)
Theorem handler_answers_at_most_once (rt : Runtime) (w : World)
    (ToString_other : JSValue -> Result string) (body : JSObject) :
  let tr := handler_trace rt w ToString_other body in
  let prints :=
    is_ok (ToString ToString_other (getProp body "socketId"))
    && is_ok (ToString ToString_other (getProp body "topic")) in
  responses tr
  = (if accepted body
     then if prints then [(200%Z, true, "Process initiated.")] else []
     else [(400%Z, false, "Missing required parameters.")])
  /\ (accepted body = false -> tr = [Respond 400 false "Missing required parameters."])
  /\ (accepted body = true -> prints = false ->
      tr = [] /\ is_ok (fst (detox_start rt w ToString_other body start)) = false).
Proof.
  intros tr prints. subst tr prints.
  unfold handler_trace, detox_start, detox_start_args, accepted.
  destruct (ToBoolean (getProp body "topic")),
    (ToBoolean (getProp body "userCookies")),
    (ToBoolean (getProp body "socketId")); cbn [negb orb andb];
    try (split; [reflexivity|split; [intros _; reflexivity|discriminate]]).
  destruct (ToString ToString_other (getProp body "socketId")) as [s|m];
    [rewrite bind_lift_ok|rewrite bind_lift_throw];
    cbn [is_ok andb].
  2:{ split; [reflexivity|]. split; [discriminate|]. intros _ _. split; reflexivity. }
  destruct (ToString ToString_other (getProp body "topic")) as [t|m];
    [rewrite bind_lift_ok|rewrite bind_lift_throw];
    cbn [is_ok andb].
  2:{ split; [reflexivity|]. split; [discriminate|]. intros _ _. split; reflexivity. }
  split; [|split; discriminate].
  unfold bind, act, not_awaited, start. cbn [trace browser app fst snd].
  rewrite run_after. unfold responses. rewrite omap_app. fold responses.
  rewrite run_sends_no_response. reflexivity.
Qed.

(* ===================================================================== *)
(** ** A budget that is not a number *)
(* ===================================================================== *)

Lemma is_nan_spec (x : float) : PrimFloat.is_nan x = true <-> Prim2SF x = S754_nan.
Proof.
  unfold PrimFloat.is_nan. rewrite FloatAxioms.eqb_spec. unfold SFeqb.
  destruct (Prim2SF x) as [s|s| |s m e]; cbn [SFcompare].
  - split; discriminate.
  - destruct s; split; discriminate.
  - split; reflexivity.
  - rewrite Z.compare_refl, Pos.compare_cont_refl. destruct s; split; discriminate.
Qed.

Lemma nan_leb (x y : float) : Prim2SF x = S754_nan -> PrimFloat.leb x y = false.
Proof. intros H. rewrite leb_spec, H. reflexivity. Qed.

Lemma nan_sub (x y : float) : Prim2SF x = S754_nan -> Prim2SF (x - y) = S754_nan.
Proof. intros H. rewrite sub_spec, H. reflexivity. Qed.

Lemma nan_mul (x y : float) : Prim2SF x = S754_nan -> Prim2SF (x * y) = S754_nan.
Proof. intros H. rewrite mul_spec, H. reflexivity. Qed.

Lemma nan_div (x y : float) : Prim2SF x = S754_nan -> Prim2SF (x / y) = S754_nan.
Proof. intros H. rewrite div_spec, H. reflexivity. Qed.

Lemma nan_add_r (x y : float) : Prim2SF y = S754_nan -> Prim2SF (x + y) = S754_nan.
Proof. intros H. rewrite add_spec, H. destruct (Prim2SF x); reflexivity. Qed.

Lemma Math_min_nan (a b : float) : Prim2SF b = S754_nan -> Math_min a b = PrimFloat.nan.
Proof.
  intros H. apply is_nan_spec in H. unfold Math_min.
  rewrite H, orb_true_r. reflexivity.
Qed.

Lemma toFixed1_nan (f : float -> string) (x : float) :
  Prim2SF x = S754_nan -> toFixed1 f x = "NaN".
Proof. intros H. unfold toFixed1. rewrite H. reflexivity. Qed.

(** With a budget that is not a number the loop never stops on its own:
    when it returns, it visited every video, dwelt [NaN] on each, and its
    total is [NaN]. *)
Lemma watchLoop_nan (rt : Runtime) (w : World) (sid : JSValue) (T : float) (cnt : nat)
    (ids : list string) :
  Prim2SF T = S754_nan ->
  forall (i : nat) (wt : float) (st : State) (wt' : float) (st' : State),
  watchLoop rt w sid T cnt i ids wt st = (Ok wt', st') ->
  exists delta,
    st' = mkState (browser st) (trace st ++ delta)
    /\ visits delta = map visited ids
    /\ Forall (fun d => PrimFloat.is_nan d = true) (dwells delta)
    /\ completions delta = [] /\ reported delta = [] /\ resolved delta = []
    /\ (ids <> [] -> Prim2SF wt' = S754_nan)
    /\ (ids = [] -> wt' = wt).
Proof.
  intros HT. induction ids as [|v rest IH]; intros i wt st wt' st' Hrun.
  - injection Hrun as <- <-. exists []. rewrite app_nil_r.
    destruct st. repeat split; try constructor. intros []; reflexivity.
  - rewrite watchLoop_next in Hrun by (apply nan_leb, HT).
    cbv zeta in Hrun.
    rewrite (Math_min_nan _ _ (nan_sub T wt HT)) in Hrun.
    unfold bind at 1 in Hrun. unfold emitLog, emit, act at 1 in Hrun.
    unfold bind at 1 in Hrun. unfold call at 1 in Hrun. cbn [trace browser] in Hrun.
    destruct (page_goto _ _ _ _) as [[]|m] eqn:Hgoto; [|discriminate Hrun].
    unfold bind at 1 in Hrun. unfold act at 1 in Hrun. cbn [trace browser] in Hrun.
    apply IH in Hrun
      as (delta & -> & Hv & Hd & Hc & Hr & Hres & Hnan & Hsame).
    eexists (_ :: _ :: _ :: delta). split.
    { cbn [trace browser]. rewrite <- !app_assoc. reflexivity. }
    match goal with |- context [Emit sid (log ?message _)] =>
      pose proof (observed_visit sid message v PrimFloat.nan delta) as (Hbv & _ & Hbd) end.
    cbv zeta in Hbv, Hbd.
    split; [etransitivity; [apply Hbv|cbn [map]; rewrite Hv; reflexivity]|].
    split.
    { match goal with |- Forall _ (dwells ?blk) =>
        replace (dwells blk) with (PrimFloat.nan :: dwells delta)
          by (symmetry; apply Hbd) end.
      constructor; [reflexivity|exact Hd]. }
    split; [exact Hc|]. split; [exact Hr|]. split; [exact Hres|].
    split; [|discriminate].
    intros _. destruct rest as [|v' rest'].
    + rewrite (Hsame eq_refl). apply nan_add_r. reflexivity.
    + apply Hnan. discriminate.
Qed.

(** X21: a duration that converts to [NaN] (a string that is no number, say)
    sets no limit: a run that does not end in an error visits every video
    the resolver gave, each once and in order, dwells [NaN] on each, and
    reports a total of NaN seconds. *)
Theorem nan_budget_visits_every_video (rt : Runtime) (w : World)
    (topic totalDurationSeconds rawCookies socketId : JSValue) (n : float) :
  let tr := run_trace rt w topic totalDurationSeconds rawCookies socketId in
  ToNumber rt totalDurationSeconds = Ok n ->
  PrimFloat.is_nan n = true ->
  reported tr = [] ->
  exists videoIds,
    resolved tr = [Ok videoIds]
    /\ visits tr = map visited videoIds
    /\ Forall (fun d => PrimFloat.is_nan d = true) (dwells tr)
    /\ completions tr = ["Detox session finished. Total time simulated: NaNs."].
Proof.
  intros tr Hn Hnan. subst tr. apply is_nan_spec in Hnan.
  destruct (runBody_shape rt w topic totalDurationSeconds rawCookies socketId)
    as [(m & st & Hrun & Hearly)
       |(cookies & ids & b & l & n' & Hids & Hn' & Hc & Hrun)].
  - rewrite (run_trace_decompose _ _ _ _ _ _ _ _ Hrun).
    match goal with |- context [cleanup_trace w ?b ?h] =>
      destruct (tail_observed w socketId (Throw m) b h) as (_ & _ & Hr & _) end.
    destruct (early_observed _ _ _ _ _ _ _ Hearly) as (_ & _ & _ & _ & Her & _).
    cbv zeta in *. split_observation. rewrite Hr, Her. discriminate.
  - rewrite Hn in Hn'. injection Hn' as <-.
    unfold watchAndComplete in Hrun. unfold bind at 1 in Hrun.
    destruct (watchLoop _ _ _ _ _ _ _ _ _) as [[wt|m] st'] eqn:Hloop.
    + apply (watchLoop_nan _ _ _ _ _ _ (nan_mul n 1000 Hnan)) in Hloop
        as (delta & -> & Hv & Hd & Hcm & Hr & Hres & Hwt & _).
      rewrite (toFixed1_nan _ _ (nan_div wt 1000 (Hwt Hids))) in Hrun.
      unfold emit, act in Hrun. cbn [trace browser] in Hrun.
      rewrite (run_trace_decompose _ _ _ _ _ _ _ _ Hrun). cbn [trace browser].
      match goal with |- context [cleanup_trace w ?b ?h] =>
        destruct (tail_observed w socketId (Ok tt) b h)
          as (_ & _ & _ & _ & Htr & _ & Htv & Htd & Htc) end.
      destruct (prelude_observed topic socketId cookies ids b l)
        as (_ & _ & _ & Hpv & Hpd & Hpc & Hpr & _).
      cbv zeta in *. intros _. exists ids. split_observation.
      rewrite Htr, Htv, Htd, Htc, Hpv, Hpd, Hpc, Hpr, Hv, Hcm, Hres, !app_nil_r.
      repeat split. exact Hd.
    + rewrite (run_trace_decompose _ _ _ _ _ _ _ _ Hrun).
      match goal with |- context [cleanup_trace w ?b ?h] =>
        destruct (tail_observed w socketId (Throw m) b h) as (_ & _ & Hr & _) end.
      cbv zeta in *. split_observation. rewrite Hr.
      intros H. apply (f_equal (@length _)) in H. rewrite length_app in H.
      simpl in H. lia.
Qed.

(* ===================================================================== *)
(** ** The run-level properties on sample runs *)
(* ===================================================================== *)

Lemma failure_reported_verbatim_witness :
  let tr := run_trace sampleRuntime (sampleWorld ["a"; "b"] (Some "b"))
              (JStr "rust") (JNum 65) (JStr "[]") (JStr "s1") in
  In "net::ERR_CONNECTION_RESET" (failures tr)
  /\ reported tr = ["net::ERR_CONNECTION_RESET"].
Proof.
  intros tr.
  assert (H : In "net::ERR_CONNECTION_RESET" (failures tr))
    by (vm_compute; left; reflexivity).
  split; [exact H|].
  exact (proj2 (failure_reported_verbatim sampleRuntime (sampleWorld ["a"; "b"] (Some "b"))
                  (JStr "rust") (JNum 65) (JStr "[]") (JStr "s1")) _ H).
Defined.

Lemma cookies_sent_are_normalized_witness :
  let tr := run_trace cookieRuntime (sampleWorld ["a"] None)
              (JStr "rust") (JNum 5) (JStr exportedCookies) (JStr "s1") in
  let sent := map normalizeCookie [sessionCookie; persistentCookie] in
  In sent (cookies_sent tr)
  /\ Forall (fun c : JSObject => c !! "storeId" = None /\ c !! "id" = None) sent.
Proof.
  intros tr sent.
  assert (H : In sent (cookies_sent tr))
    by (lazy -[normalizeCookie sessionCookie persistentCookie]; left; reflexivity).
  split; [exact H|].
  exact (proj2 (proj2 (cookies_sent_are_normalized cookieRuntime (sampleWorld ["a"] None)
                         (JStr "rust") (JNum 5) (JStr exportedCookies) (JStr "s1"))
                  sent H)).
Defined.

Lemma visits_follow_resolver_order_witness :
  let tr := run_trace sampleRuntime (sampleWorld ["a"; "b"; "c"; "d"; "e"] None)
              (JStr "rust") (JNum 65) (JStr "[]") (JStr "s1") in
  In (Ok ["a"; "b"; "c"; "d"; "e"]) (resolved tr)
  /\ exists k, k <= 5
               /\ map fst (visits tr) = map videoUrl (firstn k ["a"; "b"; "c"; "d"; "e"]).
Proof.
  intros tr.
  assert (H : In (Ok ["a"; "b"; "c"; "d"; "e"]) (resolved tr))
    by (vm_compute; left; reflexivity).
  split; [exact H|].
  exact (visits_follow_resolver_order sampleRuntime
           (sampleWorld ["a"; "b"; "c"; "d"; "e"] None)
           (JStr "rust") (JNum 65) (JStr "[]") (JStr "s1") _ H).
Defined.

Lemma failed_login_check_is_not_fatal_witness :
  let tr := run_trace sampleRuntime (signedOutWorld ["a"])
              (JStr "rust") (JNum 5) (JStr "[]") (JStr "s1") in
  In (Ok false) (login_probes tr)
  /\ In loginWarning (logged tr)
  /\ count is_detoxComplete tr = 1.
Proof.
  intros tr.
  assert (H : In (Ok false) (login_probes tr)) by (vm_compute; left; reflexivity).
  split; [exact H|].
  destruct (failed_login_check_is_not_fatal sampleRuntime (signedOutWorld ["a"])
              (JStr "rust") (JNum 5) (JStr "[]") (JStr "s1") H) as [Hwarn Hdone].
  split; [exact Hwarn|].
  apply Hdone; [reflexivity|].
  intros url m Hin. vm_compute in Hin. destruct Hin as [Hin|[]]. discriminate Hin.
Defined.

Lemma nonpositive_budget_visits_nothing_witness :
  let tr := run_trace sampleRuntime (sampleWorld ["a"; "b"] None)
              (JStr "rust") (JNum (-5)) (JStr "[]") (JStr "s1") in
  ToNumber sampleRuntime (JNum (-5)) = Ok (-5)%float
  /\ PrimFloat.leb (-5 * 1000) 0 = true
  /\ visits tr = [] /\ dwells tr = []
  /\ completions tr = ["Detox session finished. Total time simulated: 0.0s."].
Proof.
  intros tr.
  destruct (nonpositive_budget_visits_nothing sampleRuntime (sampleWorld ["a"; "b"] None)
              (JStr "rust") (JNum (-5)) (JStr "[]") (JStr "s1") (-5)%float
              eq_refl eq_refl) as (Hv & Hd & Hc).
  split; [reflexivity|]. split; [reflexivity|].
  split; [exact Hv|]. split; [exact Hd|].
  apply (Hc true). vm_compute. left. reflexivity.
Defined.

Lemma resolver_failure_ends_run_witness :
  let tr := run_trace sampleRuntime (resolverDown "quotaExceeded")
              (JStr "rust") (JNum 65) (JStr "[]") (JStr "s1") in
  In (Throw "quotaExceeded") (resolved tr)
  /\ tr = [Emit (JStr "s1") (log "Validating authentication data..." "status-in-progress");
           Emit (JStr "s1") (log "Cookies parsed and normalized. Fetching video list..."
                                 "status-in-progress");
           GetCuratedVideoIds (JStr "rust") (Throw "quotaExceeded");
           ConsoleError [JStr "Puppeteer Automation Failed:"; JStr "quotaExceeded"];
           Emit (JStr "s1") (detoxError "quotaExceeded")].
Proof.
  intros tr.
  assert (H : In (Throw "quotaExceeded") (resolved tr)) by (vm_compute; left; reflexivity).
  split; [exact H|].
  exact (resolver_failure_ends_run sampleRuntime (resolverDown "quotaExceeded")
           (JStr "rust") (JNum 65) (JStr "[]") (JStr "s1") "quotaExceeded" H).
Defined.

Lemma handler_answers_at_most_once_witness :
  let world := sampleWorld ["a"] None in
  let body : JSObject := {[ "socketId" := JStr "s1" ]} in
  accepted body = false
  /\ handler_trace sampleRuntime world jsonToString body
     = [Respond 400 false "Missing required parameters."]
  /\ accepted unprintableTopicBody = true
  /\ ToString jsonToString (getProp unprintableTopicBody "topic")
     = Throw "Cannot convert object to primitive value"
  /\ handler_trace sampleRuntime world jsonToString unprintableTopicBody = [].
Proof.
  intros world body. split; [reflexivity|]. split.
  - exact (proj1 (proj2 (handler_answers_at_most_once sampleRuntime world jsonToString body))
             eq_refl).
  - split; [reflexivity|]. split; [reflexivity|].
    exact (proj1 (proj2 (proj2 (handler_answers_at_most_once sampleRuntime world
                                  jsonToString unprintableTopicBody))
                    eq_refl eq_refl)).
Defined.

Lemma nan_budget_visits_every_video_witness :
  let tr := run_trace sampleRuntime (sampleWorld ["a"; "b"] None)
              (JStr "rust") (JStr "soon") (JStr "[]") (JStr "s1") in
  ToNumber sampleRuntime (JStr "soon") = Ok PrimFloat.nan
  /\ reported tr = []
  /\ exists videoIds,
       resolved tr = [Ok videoIds]
       /\ visits tr = map visited videoIds
       /\ Forall (fun d => PrimFloat.is_nan d = true) (dwells tr)
       /\ completions tr = ["Detox session finished. Total time simulated: NaNs."].
Proof.
  intros tr.
  assert (H : reported tr = []) by (vm_compute; reflexivity).
  split; [reflexivity|]. split; [exact H|].
  exact (nan_budget_visits_every_video sampleRuntime (sampleWorld ["a"; "b"] None)
           (JStr "rust") (JStr "soon") (JStr "[]") (JStr "s1") PrimFloat.nan
           eq_refl eq_refl H).
Defined.
